(** * LiftupLabs backend: event registration and note rating

    A shallow embedding of the registration logic of [models/Event.js], the
    event routes (register, unregister, admin-register, participant status,
    single-event view) and the rating route of [routes/notes.js].

    Conventions.
    - A JavaScript [Date] is its millisecond time value, a [Z]; [new Date()]
      is the argument [now] of the function that calls it.
    - An ObjectId is the string [toString()] gives, and the ids that come
      with a request are taken in that form; the [_id] mongoose assigns to a
      pushed subdocument is the argument [fresh]. The one id a handler
      compares as the request spelled it, the [userId] of an administrative
      registration, is taken as spelled, hex digits in either case.
    - Numbers that count (the participant counter, the view counter, the
      ratings) are integers, [Z]; the mean of the ratings is a rational.
    - The document store is a pair of finite maps, events and users by id.
      A handler takes the store and returns its response and the new store.
      The middleware in front of a handler ([protect], [authorize],
      [optionalAuth]) is not part of it: a handler starts from [req.user].
      The [catch] branches (status 500) are reached only when a call
      throws; the one throw that depends on the stored data (reading the
      [_id] of an organizer that did not populate) is modelled, failures of
      the driver are not. *)

From Stdlib Require Import ZArith QArith Qround Lia.
From stdpp Require Import gmap strings list fin_maps.

Local Open Scope string_scope.
Local Open Scope Z_scope.

(** ** JavaScript values that cross the HTTP boundary *)

#[local] Unset Elimination Schemes.

Inductive JsVal : Type :=
| JUndefined
| JNull
| JBool (b : bool)
| JNum (n : Z)
| JStr (s : string)
| JArr (xs : list JsVal)
| JObj (fields : list (string * JsVal)).

#[local] Set Elimination Schemes.

(** [x || d] on an optional number: [undefined] and [0] are falsy. *)
Definition orNum (x : option Z) (d : Z) : Z :=
  match x with
  | Some n => if n =? 0 then d else n
  | None => d
  end.

(** [x || []] on an optional array: every array is truthy. *)
Definition orArr {A : Type} (x : option (list A)) : list A :=
  match x with
  | Some l => l
  | None => []
  end.

Definition optStr (x : option string) : JsVal :=
  match x with
  | Some s => JStr s
  | None => JUndefined
  end.

(** A string cast to an ObjectId prints its hex digits in lower case. *)
Definition toLowerHex (c : Ascii.ascii) : Ascii.ascii :=
  let n := Ascii.nat_of_ascii c in
  if (65 <=? n)%nat && (n <=? 70)%nat
  then Ascii.ascii_of_nat (n + 32) else c.

(** [new ObjectId(s).toString()] for a spelling [s] of an id. *)
Fixpoint canonical (s : string) : string :=
  match s with
  | EmptyString => EmptyString
  | String c rest => String (toLowerHex c) (canonical rest)
  end.

(** The envelope [{success, message, data}] sent with [res.status(code)]. *)
Record Response (D : Type) : Type := {
  code : Z;
  success : bool;
  message : option string;
  data : option D
}.

Arguments code {D} _.
Arguments success {D} _.
Arguments message {D} _.
Arguments data {D} _.

Definition failure {D : Type} (c : Z) (msg : string) : Response D :=
  {| code := c; success := false; message := Some msg; data := None |}.

(** ** models/Event.js *)

Module EventModel.

Inductive ParticipantStatus : Type :=
| registered
| confirmed
| attended
| cancelled.

#[global] Instance ParticipantStatus_eq_dec : EqDecision ParticipantStatus.
Proof. solve_decision. Defined.

Definition statusName (s : ParticipantStatus) : string :=
  match s with
  | registered => "registered"
  | confirmed => "confirmed"
  | attended => "attended"
  | cancelled => "cancelled"
  end.

Record TeamMember : Type := {
  tm_name : string;
  tm_email : option string;
  tm_phone : option string;
  tm_role : option string;
  tm_institution : option string
}.

(** The body of a registration request, as [registerUser] reads it. *)
Record RegistrationData : Type := {
  rd_phone : option string;
  rd_alternateEmail : option string;
  rd_teamName : option string;
  rd_teamSize : option Z;
  rd_teamMembers : option (list TeamMember);
  rd_institution : option string;
  rd_experience : option string;
  rd_motivation : option string;
  rd_specialRequirements : option string
}.

(** [registrationData = {}] *)
Definition noData : RegistrationData :=
  {| rd_phone := None; rd_alternateEmail := None; rd_teamName := None;
     rd_teamSize := None; rd_teamMembers := None; rd_institution := None;
     rd_experience := None; rd_motivation := None;
     rd_specialRequirements := None |}.

Record Participant : Type := {
  _id : string;
  user : string;
  registeredAt : Z;
  status : ParticipantStatus;
  phone : option string;
  alternateEmail : option string;
  teamName : option string;
  teamSize : Z;
  teamMembers : list TeamMember;
  institution : option string;
  experience : option string;
  motivation : option string;
  specialRequirements : option string
}.

Record Registration : Type := {
  deadline : Z;
  maxParticipants : option Z;
  currentParticipants : Z
}.

Record Organizer : Type := {
  org_user : string;
  org_name : string
}.

Inductive EventStatus : Type :=
| draft
| published
| ongoing
| completed
| ev_cancelled.

Record Event : Type := {
  title : string;
  organizer : Organizer;
  registration : Registration;
  participants : list Participant;
  ev_status : EventStatus;
  views : Z
}.

Definition set_participants (e : Event) (ps : list Participant) : Event :=
  {| title := title e; organizer := organizer e;
     registration := registration e; participants := ps;
     ev_status := ev_status e; views := views e |}.

Definition set_currentParticipants (e : Event) (c : Z) : Event :=
  {| title := title e; organizer := organizer e;
     registration :=
       {| deadline := deadline (registration e);
          maxParticipants := maxParticipants (registration e);
          currentParticipants := c |};
     participants := participants e;
     ev_status := ev_status e; views := views e |}.

Definition set_views (e : Event) (v : Z) : Event :=
  {| title := title e; organizer := organizer e;
     registration := registration e; participants := participants e;
     ev_status := ev_status e; views := v |}.

Definition set_status (p : Participant) (s : ParticipantStatus) : Participant :=
  {| _id := _id p; user := user p; registeredAt := registeredAt p;
     status := s; phone := phone p; alternateEmail := alternateEmail p;
     teamName := teamName p; teamSize := teamSize p;
     teamMembers := teamMembers p; institution := institution p;
     experience := experience p; motivation := motivation p;
     specialRequirements := specialRequirements p |}.

(** [this.participants.some(p => p.user.toString() === userId.toString())] *)
Definition isRegistered (e : Event) (userId : string) : bool :=
  existsb (fun p => bool_decide (user p = userId)) (participants e).

Record CanRegister : Type := {
  canRegister : bool;
  reason : option string
}.

(** The virtual [registrationStatus]. *)
Definition registrationStatus (now : Z) (e : Event) : string :=
  if deadline (registration e) <? now then "closed" else "open".

Definition canUserRegister (now : Z) (e : Event) (userId : string) : CanRegister :=
  if deadline (registration e) <? now
  then {| canRegister := false;
          reason := Some "Registration deadline has passed" |}
  else if isRegistered e userId
  then {| canRegister := false; reason := Some "Already registered" |}
  else {| canRegister := true; reason := None |}.

(** The subdocument [registerUser] pushes. *)
Definition newParticipant (now : Z) (fresh userId : string)
    (d : RegistrationData) : Participant :=
  {| _id := fresh;
     user := userId;
     phone := rd_phone d;
     alternateEmail := rd_alternateEmail d;
     teamName := rd_teamName d;
     teamSize := orNum (rd_teamSize d) 1;
     teamMembers := orArr (rd_teamMembers d);
     institution := rd_institution d;
     experience := rd_experience d;
     motivation := rd_motivation d;
     specialRequirements := rd_specialRequirements d;
     registeredAt := now;
     status := registered |}.

Definition registerUser (now : Z) (fresh : string) (e : Event)
    (userId : string) (d : RegistrationData) : Event :=
  let e1 := set_participants e
              (participants e ++ [newParticipant now fresh userId d]) in
  set_currentParticipants e1 (currentParticipants (registration e1) + 1).

Definition unregisterUser (e : Event) (userId : string) : Event :=
  let e1 := set_participants e
              (List.filter (fun p => negb (bool_decide (user p = userId)))
                           (participants e)) in
  set_currentParticipants e1
    (Z.max 0 (currentParticipants (registration e1) - 1)).

End EventModel.

(** ** models/User.js *)

Module UserModel.

Import EventModel.

Inductive Role : Type :=
| student
| professional
| institution_role
| admin.

#[global] Instance Role_eq_dec : EqDecision Role.
Proof. solve_decision. Defined.

Record RegisteredEvent : Type := {
  event : string;
  re_registeredAt : Z;
  re_status : ParticipantStatus
}.

Record User : Type := {
  name : string;
  email : string;
  role : Role;
  avatar : string;
  profile_institution : option string;
  registeredEvents : list RegisteredEvent
}.

Definition set_registeredEvents (u : User) (l : list RegisteredEvent) : User :=
  {| name := name u; email := email u; role := role u; avatar := avatar u;
     profile_institution := profile_institution u; registeredEvents := l |}.

Definition isRegisteredForEvent (u : User) (eventId : string) : bool :=
  existsb (fun reg => bool_decide (event reg = eventId)) (registeredEvents u).

(** [$push: { registeredEvents: { event, status } }]; [registeredAt] takes
    its schema default, the time of the write. *)
Definition pushRegisteredEvent (now : Z) (eventId : string)
    (s : ParticipantStatus) (u : User) : User :=
  set_registeredEvents u
    (registeredEvents u ++
     [{| event := eventId; re_registeredAt := now; re_status := s |}]).

(** [$pull: { registeredEvents: { event } }] *)
Definition pullRegisteredEvent (eventId : string) (u : User) : User :=
  set_registeredEvents u
    (List.filter (fun reg => negb (bool_decide (event reg = eventId)))
                 (registeredEvents u)).

(** [$set: { 'registeredEvents.$.status': status }]: the positional
    operator updates the first element that matched the query. *)
Fixpoint setFirstStatus (eventId : string) (s : ParticipantStatus)
    (l : list RegisteredEvent) : list RegisteredEvent :=
  match l with
  | [] => []
  | reg :: rest =>
      if bool_decide (event reg = eventId)
      then {| event := event reg; re_registeredAt := re_registeredAt reg;
              re_status := s |} :: rest
      else reg :: setFirstStatus eventId s rest
  end.

Definition setMirroredStatus (eventId : string) (s : ParticipantStatus)
    (u : User) : User :=
  set_registeredEvents u (setFirstStatus eventId s (registeredEvents u)).

End UserModel.

(** ** The event routes *)

Module EventRoutes.

Import EventModel UserModel.

(** The two collections the handlers read and write. *)
Record Db : Type := {
  events : gmap string Event;
  users : gmap string User
}.

Definition set_events (db : Db) (m : gmap string Event) : Db :=
  {| events := m; users := users db |}.

Definition set_users (db : Db) (m : gmap string User) : Db :=
  {| events := events db; users := m |}.

(** [event.save()] of the document loaded under [id]. *)
Definition saveEvent (db : Db) (id : string) (e : Event) : Db :=
  set_events db (<[id := e]> (events db)).

(** [User.findByIdAndUpdate(id, update)] and [User.updateOne({_id: id}, update)]:
    nothing happens when no user has that id. *)
Definition updateUser (db : Db) (id : string) (f : User -> User) : Db :=
  set_users db (alter f id (users db)).

(** [req.user], as the [protect] middleware leaves it. *)
Record Requester : Type := {
  req_id : string;
  req_role : Role
}.

(** *** POST /api/events/:id/register *)

Record RegisterData : Type := {
  rg_eventId : string;
  rg_eventTitle : string
}.

Definition register (now : Z) (fresh : string) (db : Db) (req : Requester)
    (id : string) (body : RegistrationData) : Response RegisterData * Db :=
  match events db !! id with
  | None => (failure 404 "Event not found", db)
  | Some event =>
      let can := canUserRegister now event (req_id req) in
      if negb (canRegister can)
      then ({| code := 400; success := false; message := reason can;
               data := None |}, db)
      else
        let db1 := saveEvent db id
                     (registerUser now fresh event (req_id req) body) in
        let db2 := updateUser db1 (req_id req)
                     (pushRegisteredEvent now id registered) in
        ({| code := 200; success := true;
            message := Some "Successfully registered for the event";
            data := Some {| rg_eventId := id;
                            rg_eventTitle := title event |} |}, db2)
  end.

(** *** DELETE /api/events/:id/register *)

Definition unregister (db : Db) (req : Requester) (id : string)
    : Response unit * Db :=
  match events db !! id with
  | None => (failure 404 "Event not found", db)
  | Some event =>
      if negb (isRegistered event (req_id req))
      then (failure 400 "You are not registered for this event", db)
      else
        let db1 := saveEvent db id (unregisterUser event (req_id req)) in
        let db2 := updateUser db1 (req_id req) (pullRegisteredEvent id) in
        ({| code := 200; success := true;
            message := Some "Successfully unregistered from the event";
            data := None |}, db2)
  end.

(** *** POST /api/events/:id/admin-register

    The body of the handler, reached after [protect] and
    [authorize('admin')]. [userId] is the body field, [None] when absent;
    the empty string is falsy. [User.findById], the pushed subdocument and
    [User.findByIdAndUpdate] cast [userId] to an ObjectId; the test for a
    roster entry compares [p.user.toString()] with [userId] as the request
    spelled it. *)

Record AdminRegisterData : Type := {
  ar_eventId : string;
  ar_userId : string
}.

Definition adminRegister (now : Z) (fresh : string) (db : Db)
    (id : string) (userId : option string)
    : Response AdminRegisterData * Db :=
  match userId with
  | None => (failure 400 "User ID is required", db)
  | Some uid =>
      if bool_decide (uid = "")
      then (failure 400 "User ID is required", db)
      else
        match events db !! id with
        | None => (failure 404 "Event not found", db)
        | Some event =>
            match users db !! canonical uid with
            | None => (failure 404 "User not found", db)
            | Some _ =>
                if isRegistered event uid
                then (failure 400 "User is already registered for this event",
                      db)
                else
                  let db1 := saveEvent db id
                               (registerUser now fresh event (canonical uid)
                                  noData) in
                  let db2 := updateUser db1 (canonical uid)
                               (pushRegisteredEvent now id confirmed) in
                  ({| code := 200; success := true;
                      message :=
                        Some "User registered for event successfully";
                      data := Some {| ar_eventId := id;
                                      ar_userId := uid |} |}, db2)
            end
        end
  end.

(** *** PUT /api/events/:id/participants/:participantId/status *)

(** [['registered','confirmed','attended','cancelled'].includes(status)],
    with the status the accepted string names. *)
Definition parseStatus (v : JsVal) : option ParticipantStatus :=
  match v with
  | JStr s =>
      if bool_decide (s = "registered") then Some registered
      else if bool_decide (s = "confirmed") then Some confirmed
      else if bool_decide (s = "attended") then Some attended
      else if bool_decide (s = "cancelled") then Some cancelled
      else None
  | _ => None
  end.

(** [event.participants.id(participantId)]: the first subdocument whose
    [_id] is [participantId]. *)
Definition findById (ps : list Participant) (participantId : string)
    : option Participant :=
  List.find (fun p => bool_decide (_id p = participantId)) ps.

(** [participant.status = status] on the subdocument [findById] returned,
    which lives in the event's array. *)
Fixpoint assignStatus (ps : list Participant) (participantId : string)
    (s : ParticipantStatus) : list Participant :=
  match ps with
  | [] => []
  | p :: rest =>
      if bool_decide (_id p = participantId)
      then set_status p s :: rest
      else p :: assignStatus rest participantId s
  end.

Definition setParticipantStatus (db : Db) (req : Requester)
    (eventId participantId : string) (status : JsVal)
    : Response Participant * Db :=
  match parseStatus status with
  | None =>
      (failure 400
         "Invalid status. Must be one of: registered, confirmed, attended, cancelled",
       db)
  | Some s =>
      match events db !! eventId with
      | None => (failure 404 "Event not found", db)
      | Some event =>
          if negb (bool_decide (org_user (organizer event) = req_id req))
          then (failure 403
                  "Access denied. Only event organizer can update participant status.",
                db)
          else
            match findById (participants event) participantId with
            | None => (failure 404 "Participant not found", db)
            | Some participant =>
                let db1 := saveEvent db eventId
                             (set_participants event
                                (assignStatus (participants event)
                                   participantId s)) in
                let db2 := updateUser db1 (user participant)
                             (setMirroredStatus eventId s) in
                ({| code := 200; success := true;
                    message :=
                      Some "Participant status updated successfully";
                    data := Some (set_status participant s) |}, db2)
            end
      end
  end.

(** *** GET /api/events/:id *)

(** A populated [user] path: the selected fields of the referenced
    document, or [null] when the reference dangles. *)
Definition populateOrganizer (id : string) (u : option User) : JsVal :=
  match u with
  | Some u =>
      JObj [("_id", JStr id); ("name", JStr (name u));
            ("avatar", JStr (avatar u));
            ("profile",
             JObj [("institution", optStr (profile_institution u))])]
  | None => JNull
  end.

Definition populateParticipantUser (id : string) (u : option User) : JsVal :=
  match u with
  | Some u =>
      JObj [("_id", JStr id); ("name", JStr (name u));
            ("email", JStr (email u)); ("avatar", JStr (avatar u));
            ("profile",
             JObj [("institution", optStr (profile_institution u))])]
  | None => JNull
  end.

Definition teamMemberObject (m : TeamMember) : JsVal :=
  JObj [("name", JStr (tm_name m)); ("email", optStr (tm_email m));
        ("phone", optStr (tm_phone m)); ("role", optStr (tm_role m));
        ("institution", optStr (tm_institution m))].

(** A participant subdocument as an object; [u] is what stands under
    [user]: the id, or the populated profile. *)
Definition participantObject (u : JsVal) (p : Participant) : JsVal :=
  JObj [("_id", JStr (_id p)); ("user", u);
        ("registeredAt", JNum (registeredAt p));
        ("status", JStr (statusName (status p)));
        ("phone", optStr (phone p));
        ("alternateEmail", optStr (alternateEmail p));
        ("teamName", optStr (teamName p));
        ("teamSize", JNum (teamSize p));
        ("teamMembers", JArr (map teamMemberObject (teamMembers p)));
        ("institution", optStr (institution p));
        ("experience", optStr (experience p));
        ("motivation", optStr (motivation p));
        ("specialRequirements", optStr (specialRequirements p))].

Definition eventStatusName (s : EventStatus) : string :=
  match s with
  | draft => "draft"
  | published => "published"
  | ongoing => "ongoing"
  | completed => "completed"
  | ev_cancelled => "cancelled"
  end.

Definition optNum (x : option Z) : JsVal :=
  match x with
  | Some n => JNum n
  | None => JNull
  end.

(** [event.toObject()] of an event loaded under [id] whose organizer path
    was populated to [org]. *)
Definition toObject (id : string) (org : JsVal) (e : Event)
    : gmap string JsVal :=
  list_to_map
    [("_id", JStr id);
     ("title", JStr (title e));
     ("organizer", JObj [("user", org);
                         ("name", JStr (org_name (organizer e)))]);
     ("registration",
      JObj [("deadline", JNum (deadline (registration e)));
            ("maxParticipants", optNum (maxParticipants (registration e)));
            ("currentParticipants",
             JNum (currentParticipants (registration e)))]);
     ("participants",
      JArr (map (fun p => participantObject (JStr (user p)) p)
                (participants e)));
     ("status", JStr (eventStatusName (ev_status e)));
     ("views", JNum (views e))].

(** [event.participants] after [populate('participants.user', ...)]. *)
Definition populatedParticipants (db : Db) (e : Event) : JsVal :=
  JArr (map (fun p =>
               participantObject
                 (populateParticipantUser (user p) (users db !! user p)) p)
            (participants e)).

Record EventData : Type := {
  ed_event : gmap string JsVal;
  ed_isUserRegistered : bool
}.

(** [viewer] is [req.user], [None] for an anonymous request. Reading
    [event.organizer.user._id] throws when the organizer did not populate;
    [req.user && ...] reaches it only for an authenticated viewer. *)
Definition getEvent (db : Db) (id : string) (viewer : option Requester)
    : Response EventData * Db :=
  match events db !! id with
  | None => (failure 404 "Event not found", db)
  | Some event0 =>
      let event := set_views event0 (views event0 + 1) in
      let db1 := saveEvent db id event in
      let org := users db !! org_user (organizer event) in
      match viewer, org with
      | Some _, None => (failure 500 "Server error while fetching event", db1)
      | _, _ =>
          let isOrganizer :=
            match viewer with
            | Some r => bool_decide (org_user (organizer event) = req_id r)
            | None => false
            end in
          let isAdmin :=
            match viewer with
            | Some r => bool_decide (req_role r = admin)
            | None => false
            end in
          let isUserRegistered :=
            match viewer with
            | Some r => isRegistered event (req_id r)
            | None => false
            end in
          let eventObj :=
            toObject id
              (populateOrganizer (org_user (organizer event)) org) event in
          let eventObj :=
            if negb isOrganizer && negb isAdmin
            then delete "participants"
                   (<["participantCount" :=
                        JNum (Z.of_nat (length (participants event)))]>
                      eventObj)
            else <["participants" := populatedParticipants db event]>
                   eventObj in
          ({| code := 200; success := true; message := None;
              data := Some {| ed_event := eventObj;
                              ed_isUserRegistered := isUserRegistered |} |},
           db1)
      end
  end.

End EventRoutes.

(** ** routes/notes.js: POST /api/notes/:id/rate

    The two tables live in a relational store. [note_ratings] is the list
    of its rows; the conflict target [note_id,user_id] of the upsert is a
    key of that table. Ratings are integers from 1 to 5 and the handler's
    arithmetic is done on rationals: sums of such integers, their mean and
    ten times the mean are followed exactly. *)

Module NotesRoutes.

Record RatingRow : Type := {
  note_id : string;
  user_id : string;
  rating : Z
}.

Record Note : Type := {
  is_active : bool;
  note_rating : Q;
  rating_count : Z
}.

Record Store : Type := {
  notes : gmap string Note;
  note_ratings : list RatingRow
}.

Definition sameKey (a b : RatingRow) : bool :=
  bool_decide (note_id a = note_id b) && bool_decide (user_id a = user_id b).

(** [upsert(row, { onConflict: 'note_id,user_id' })]: the row with the
    same key takes the new values, otherwise the row is inserted. *)
Fixpoint upsert (row : RatingRow) (rows : list RatingRow) : list RatingRow :=
  match rows with
  | [] => [row]
  | r :: rest => if sameKey r row then row :: rest else r :: upsert row rest
  end.

(** [select('rating').eq('note_id', id)] *)
Definition ratingsOf (id : string) (rows : list RatingRow) : list Z :=
  map rating (List.filter (fun r => bool_decide (note_id r = id)) rows).

(** [ratings.reduce((sum, r) => sum + r.rating, 0)] *)
Definition sumRatings (ratings : list Z) : Z :=
  fold_left Z.add ratings 0.

(** [Math.round]: the nearest integer, halves towards plus infinity. *)
Definition Math_round (x : Q) : Z := Qfloor (x + (1 # 2))%Q.

Definition avgRating (ratings : list Z) : Q :=
  (inject_Z (sumRatings ratings) / inject_Z (Z.of_nat (length ratings)))%Q.

(** [Math.round(avgRating * 10) / 10] *)
Definition roundedRating (ratings : list Z) : Q :=
  (inject_Z (Math_round (avgRating ratings * 10)) / 10)%Q.

(** [body('rating').isInt({ min: 1, max: 5 })] *)
Definition validRating (r : Z) : bool := (1 <=? r) && (r <=? 5).

Definition rate (st : Store) (userId id : string) (r : Z)
    : Response unit * Store :=
  if negb (validRating r) then (failure 400 "Validation failed", st)
  else
    match notes st !! id with
    | None => (failure 404 "Note not found", st)
    | Some note =>
        if negb (is_active note) then (failure 404 "Note not found", st)
        else
          let rows := upsert {| note_id := id; user_id := userId;
                                rating := r |} (note_ratings st) in
          let ratings := ratingsOf id rows in
          let note' := {| is_active := is_active note;
                          note_rating := roundedRating ratings;
                          rating_count := Z.of_nat (length ratings) |} in
          ({| code := 200; success := true;
              message := Some "Rating submitted successfully";
              data := None |},
           {| notes := <[id := note']> (notes st); note_ratings := rows |})
    end.

End NotesRoutes.

(** ** Definitions the statements use *)

Import EventModel UserModel EventRoutes NotesRoutes.

Definition deadlinePassed : CanRegister :=
  {| canRegister := false; reason := Some "Registration deadline has passed" |}.

Definition alreadyRegistered : CanRegister :=
  {| canRegister := false; reason := Some "Already registered" |}.

Definition allowed : CanRegister :=
  {| canRegister := true; reason := None |}.

(** The same event with other capacity figures and another roster. *)
Definition withCapacityAndRoster (e : Event) (maxP : option Z) (cur : Z)
    (ps : list Participant) : Event :=
  {| title := title e; organizer := organizer e;
     registration := {| deadline := deadline (registration e);
                        maxParticipants := maxP;
                        currentParticipants := cur |};
     participants := ps; ev_status := ev_status e; views := views e |}.

Definition sampleOrganizer : Organizer :=
  {| org_user := "org1"; org_name := "Organizer" |}.

Definition sampleParticipant (pid uid : string) (s : ParticipantStatus)
    : Participant :=
  {| _id := pid; user := uid; registeredAt := 0; status := s;
     phone := None; alternateEmail := None; teamName := None; teamSize := 1;
     teamMembers := []; institution := None; experience := None;
     motivation := None; specialRequirements := None |}.

(** An event whose registration closes at time 5000, with room for one
    participant, five counted and [ps] on the roster. *)
Definition sampleEvent (ps : list Participant) : Event :=
  {| title := "Hack night"; organizer := sampleOrganizer;
     registration := {| deadline := 5000; maxParticipants := Some 1;
                        currentParticipants := 5 |};
     participants := ps; ev_status := published; views := 0 |}.

(** The counter agrees with the roster. *)
Definition countConsistent (e : Event) : Prop :=
  currentParticipants (registration e) = Z.of_nat (length (participants e)).

(** The roster entries of one user. *)
Definition entriesOf (u : string) (e : Event) : list Participant :=
  List.filter (fun p => bool_decide (user p = u)) (participants e).

(** A roster with the one user "u1", counted once. *)
Definition sampleRoster : Event :=
  set_currentParticipants
    (sampleEvent [sampleParticipant "p1" "u1" registered]) 1.

Definition notRegistered : Response unit :=
  failure 400 "You are not registered for this event".

(** The requests of the registration subsystem, and the store after one of
    them was handled. *)
Inductive Request : Type :=
| PostRegister (now : Z) (fresh : string) (req : Requester) (id : string)
    (body : RegistrationData)
| DeleteRegister (req : Requester) (id : string)
| PostAdminRegister (now : Z) (fresh : string) (id : string)
    (userId : option string)
| PutParticipantStatus (req : Requester) (eventId participantId : string)
    (status : JsVal)
| GetEvent (id : string) (viewer : option Requester).

Definition handle (db : Db) (r : Request) : Db :=
  match r with
  | PostRegister now fresh req id body => (register now fresh db req id body).2
  | DeleteRegister req id => (unregister db req id).2
  | PostAdminRegister now fresh id userId =>
      (adminRegister now fresh db id userId).2
  | PutParticipantStatus req eventId participantId status =>
      (setParticipantStatus db req eventId participantId status).2
  | GetEvent id viewer => (getEvent db id viewer).2
  end.

(** Requests handled one after the other. *)
Definition handleAll (db : Db) (rs : list Request) : Db :=
  fold_left handle rs db.

(** An administrative registration that spells the user id the way it
    is stored; every other request qualifies. *)
Definition canonicalAdmin (r : Request) : Prop :=
  match r with
  | PostAdminRegister _ _ _ (Some uid) => canonical uid = uid
  | _ => True
  end.

(** The counter agrees with the roster and no user is on it twice. *)
Definition rosterSound (e : Event) : Prop :=
  countConsistent e /\ NoDup (map user (participants e)).

Definition storeSound (db : Db) : Prop :=
  forall id e, events db !! id = Some e -> rosterSound e.

(** The same event with another registration deadline. *)
Definition withDeadline (e : Event) (d : Z) : Event :=
  {| title := title e; organizer := organizer e;
     registration := {| deadline := d;
                        maxParticipants := maxParticipants (registration e);
                        currentParticipants :=
                          currentParticipants (registration e) |};
     participants := participants e; ev_status := ev_status e;
     views := views e |}.

Definition adminAlreadyRegistered : Response AdminRegisterData :=
  failure 400 "User is already registered for this event".

Definition invalidStatus : Response Participant :=
  failure 400
    "Invalid status. Must be one of: registered, confirmed, attended, cancelled".

Definition participantNotFound : Response Participant :=
  failure 404 "Participant not found".

Definition sampleUser (n : string) (r : Role) : User :=
  {| name := n; email := "user@example.org"; role := r; avatar := "A";
     profile_institution := None; registeredEvents := [] |}.

(** A store with the sample roster under "e1", its organizer "org1" and
    the users "u1" and "u2". *)
Definition sampleDb : Db :=
  {| events := {[ "e1" := sampleRoster ]};
     users := <["org1" := sampleUser "Olga" professional]>
                (<["u1" := sampleUser "Uma" student]>
                   {[ "u2" := sampleUser "Udo" student ]}) |}.

(** A viewer who is neither the organizer of [e] nor an administrator;
    an anonymous request is such a viewer. *)
Definition nonPrivileged (e : Event) (viewer : option Requester) : Prop :=
  match viewer with
  | None => True
  | Some r => org_user (organizer e) <> req_id r /\ req_role r <> admin
  end.

(** The event object of a response, when it carries one. *)
Definition eventView (r : Response EventData) : option (gmap string JsVal) :=
  ed_event <$> data r.

(** The conflict target of the upsert. *)
Definition rowKey (x : RatingRow) : string * string := (note_id x, user_id x).

(** No two rows of [note_ratings] rate the same note for the same user. *)
Definition keysUnique (rows : list RatingRow) : Prop :=
  NoDup (map rowKey rows).

Definition ratedBy (id u : string) (rows : list RatingRow) : bool :=
  existsb (fun x => sameKey x {| note_id := id; user_id := u; rating := 0 |})
          rows.

(** A store with one active note "n1" that nobody has rated. *)
Definition sampleStore : Store :=
  {| notes := {[ "n1" := {| is_active := true; note_rating := 0;
                            rating_count := 0 |} ]};
     note_ratings := [] |}.

(** Ratings submitted one after the other for the note "n1". *)
Definition rateAll (st : Store) (subs : list (string * Z)) : Store :=
  fold_left (fun s sub => (rate s sub.1 "n1" sub.2).2) subs st.

(** Requests that leave the roster entries and the mirrored entries of the
    user [uid] as they are: every request but a status update and an
    unregistration of [uid]. *)
Definition keepsEntriesOf (uid : string) (r : Request) : Prop :=
  match r with
  | PutParticipantStatus _ _ _ _ => False
  | DeleteRegister req _ => req_id req <> uid
  | _ => True
  end.

(** The same event in another lifecycle status. *)
Definition withEventStatus (e : Event) (s : EventStatus) : Event :=
  {| title := title e; organizer := organizer e;
     registration := registration e; participants := participants e;
     ev_status := s; views := views e |}.

(** The two sides of a registration agree on who is registered where:
    a stored user is on the roster of a stored event exactly when the
    user's own list names that event. *)
Definition mirrorSync (db : Db) : Prop :=
  forall id e uid u,
    events db !! id = Some e -> users db !! uid = Some u ->
    isRegistered e uid = isRegisteredForEvent u id.

(** The event [id] read by one viewer after the other. *)
Definition readAll (db : Db) (id : string) (viewers : list (option Requester))
    : Db :=
  fold_left (fun d v => (getEvent d id v).2) viewers db.

(** ** More of the event routes *)

Module EventRoutesMore.

#[global] Instance EventStatus_eq_dec : EqDecision EventStatus.
Proof. solve_decision. Defined.

(** *** GET /api/events/:id/participants *)

Record ParticipantsData : Type := {
  pd_participants : JsVal;
  pd_totalParticipants : Z;
  pd_maxParticipants : option Z
}.

Definition getParticipants (db : Db) (req : Requester) (id : string)
    : Response ParticipantsData * Db :=
  match events db !! id with
  | None => (failure 404 "Event not found", db)
  | Some event =>
      if negb (bool_decide (org_user (organizer event) = req_id req))
      then (failure 403
              "Access denied. Only event organizer can view participants.",
            db)
      else
        ({| code := 200; success := true; message := None;
            data := Some
              {| pd_participants := populatedParticipants db event;
                 pd_totalParticipants :=
                   Z.of_nat (length (participants event));
                 pd_maxParticipants :=
                   maxParticipants (registration event) |} |}, db)
  end.

(** *** GET /api/events/:id/analytics

    The counts by status and the totals of the answer. Its calendar part
    (the registrations per day and the trend of the last seven days) and
    its two figures computed in floating point, the revenue and the
    capacity utilization, are not modelled. *)

Record StatusCounts : Type := {
  n_registered : Z;
  n_confirmed : Z;
  n_attended : Z;
  n_cancelled : Z
}.

(** [statusCounts[participant.status] = (statusCounts[participant.status] || 0) + 1] *)
Definition countStatus (c : StatusCounts) (p : Participant) : StatusCounts :=
  match status p with
  | registered =>
      {| n_registered := n_registered c + 1; n_confirmed := n_confirmed c;
         n_attended := n_attended c; n_cancelled := n_cancelled c |}
  | confirmed =>
      {| n_registered := n_registered c; n_confirmed := n_confirmed c + 1;
         n_attended := n_attended c; n_cancelled := n_cancelled c |}
  | attended =>
      {| n_registered := n_registered c; n_confirmed := n_confirmed c;
         n_attended := n_attended c + 1; n_cancelled := n_cancelled c |}
  | cancelled =>
      {| n_registered := n_registered c; n_confirmed := n_confirmed c;
         n_attended := n_attended c; n_cancelled := n_cancelled c + 1 |}
  end.

Definition statusCounts (ps : list Participant) : StatusCounts :=
  fold_left countStatus ps
    {| n_registered := 0; n_confirmed := 0; n_attended := 0;
       n_cancelled := 0 |}.

Record Analytics : Type := {
  totalRegistrations : Z;
  confirmedParticipants : Z;
  attendedParticipants : Z;
  cancelledRegistrations : Z;
  statusDistribution : StatusCounts;
  an_views : Z
}.

Definition getAnalytics (db : Db) (req : Requester) (id : string)
    : Response Analytics * Db :=
  match events db !! id with
  | None => (failure 404 "Event not found", db)
  | Some event =>
      if negb (bool_decide (org_user (organizer event) = req_id req))
      then (failure 403
              "Access denied. Only event organizer can view analytics.", db)
      else
        let ps := participants event in
        let counts := statusCounts ps in
        ({| code := 200; success := true; message := None;
            data := Some
              {| totalRegistrations := Z.of_nat (length ps);
                 confirmedParticipants := n_confirmed counts;
                 attendedParticipants := n_attended counts;
                 cancelledRegistrations := n_cancelled counts;
                 statusDistribution := counts;
                 an_views := views event |} |}, db)
  end.

(** *** DELETE /api/events/:id

    The field [hostedEvents] of the user documents is kept beside the
    store, as a map from the id of a stored user to that list. *)

Record Site : Type := {
  site_db : Db;
  hosted : gmap string (list string)
}.

(** An update of [hostedEvents] by [User.findByIdAndUpdate]: nothing
    happens when no user has that id. *)
Definition updateHosted (st : Site) (uid : string)
    (f : list string -> list string) : gmap string (list string) :=
  match users (site_db st) !! uid with
  | Some _ => <[uid := f (default [] (hosted st !! uid))]> (hosted st)
  | None => hosted st
  end.

Definition deleteEvent (st : Site) (req : Requester) (id : string)
    : Response unit * Site :=
  match events (site_db st) !! id with
  | None => (failure 404 "Event not found", st)
  | Some event =>
      if negb (bool_decide (org_user (organizer event) = req_id req))
         && negb (bool_decide (req_role req = admin))
      then (failure 403
              "Access denied. Only event organizer or admin can delete this event.",
            st)
      else
        ({| code := 200; success := true;
            message := Some "Event deleted successfully"; data := None |},
         {| site_db := set_events (site_db st)
                         (delete id (events (site_db st)));
            hosted := updateHosted st (org_user (organizer event))
                        (List.filter (fun h => negb (bool_decide (h = id)))) |})
  end.

(** *** POST /api/events

    The body after the validators of the route: the category is one of
    the seven accepted names and the three dates were parsed. Of the other
    fields the body may carry, those the event model holds are optional
    here; [...req.body] copies them into the new document, where the schema
    default stands in for a missing one. *)

Inductive Category : Type :=
| hackathon
| quiz
| workshop
| seminar
| tech_fest
| competition
| conference.

#[global] Instance Category_eq_dec : EqDecision Category.
Proof. solve_decision. Defined.

Definition categoryName (c : Category) : string :=
  match c with
  | hackathon => "hackathon"
  | quiz => "quiz"
  | workshop => "workshop"
  | seminar => "seminar"
  | tech_fest => "tech-fest"
  | competition => "competition"
  | conference => "conference"
  end.

(** The [enum] of the schema path [type]. *)
Definition typeEnum : list string :=
  ["Hackathon"; "Quiz"; "Workshop"; "Seminar"; "Tech Fest"; "Competition";
   "Conference"].

(** [toUpperCase] on one character of the ASCII range. *)
Definition toUpperCase (c : Ascii.ascii) : Ascii.ascii :=
  let n := Ascii.nat_of_ascii c in
  if (97 <=? n)%nat && (n <=? 122)%nat
  then Ascii.ascii_of_nat (n - 32) else c.

(** [s.charAt(0).toUpperCase() + s.slice(1)] *)
Definition capitalize (s : string) : string :=
  match s with
  | EmptyString => EmptyString
  | String c rest => String (toUpperCase c) rest
  end.

Record EventBody : Type := {
  b_title : string;
  b_category : Category;
  b_start : Z;
  b_end : Z;
  b_deadline : Z;
  b_maxParticipants : option Z;
  b_currentParticipants : option Z;
  b_participants : option (list Participant);
  b_status : option EventStatus;
  b_views : option Z
}.

(** The document [Event.create] stores for a body: organizer and type come
    from the handler, the rest from the body or the schema defaults. *)
Definition newEvent (req : Requester) (reqName : string) (b : EventBody)
    : Event :=
  {| title := b_title b;
     organizer := {| org_user := req_id req; org_name := reqName |};
     registration :=
       {| deadline := b_deadline b;
          maxParticipants := b_maxParticipants b;
          currentParticipants := default 0 (b_currentParticipants b) |};
     participants := orArr (b_participants b);
     ev_status := default draft (b_status b);
     views := default 0 (b_views b) |}.

(** [fresh] is the id of the new document; [reqName] is [req.user.name].
    A computed type outside [typeEnum] makes [Event.create] reject the
    document, which the handler answers with its 500. *)
Definition createEvent (now : Z) (fresh : string) (st : Site)
    (req : Requester) (reqName : string) (b : EventBody)
    : Response string * Site :=
  if b_start b <=? now
  then (failure 400 "Event start date must be in the future", st)
  else if b_end b <=? b_start b
  then (failure 400 "Event end date must be after start date", st)
  else if b_start b <=? b_deadline b
  then (failure 400 "Registration deadline must be before event start date",
        st)
  else if negb (bool_decide (capitalize (categoryName (b_category b))
                             ∈ typeEnum))
  then (failure 500 "Server error while creating event", st)
  else
    let st1 := {| site_db := saveEvent (site_db st) fresh
                               (newEvent req reqName b);
                  hosted := hosted st |} in
    ({| code := 201; success := true;
        message := Some "Event created successfully";
        data := Some fresh |},
     {| site_db := site_db st1;
        hosted := updateHosted st1 (req_id req)
                    (fun l => (l ++ [fresh])%list) |}).

(** *** GET /api/events

    [matches] stands for the filters the query adds to
    [status: 'published'] and [sortBy] for the order the query asks for. *)

Record ListQuery : Type := {
  q_page : option Z;
  q_limit : option Z
}.

(** [isInt({ min: 1 })] on [page], [isInt({ min: 1, max: 100 })] on
    [limit], both optional. *)
Definition validListQuery (q : ListQuery) : bool :=
  match q_page q with Some p => 1 <=? p | None => true end
  && match q_limit q with
     | Some l => (1 <=? l) && (l <=? 100)
     | None => true
     end.

Record Pagination : Type := {
  current : Z;
  pages : Z;
  total : Z;
  hasNext : bool;
  hasPrev : bool
}.

Record ListData : Type := {
  ld_events : list (gmap string JsVal);
  ld_pagination : Pagination
}.

(** [Math.ceil(total / limit)] *)
Definition pageCount (total limit : Z) : Z :=
  Qceiling (inject_Z total / inject_Z limit)%Q.

(** [populate('organizer.user', 'name avatar')] *)
Definition populateListOrganizer (id : string) (u : option User) : JsVal :=
  match u with
  | Some u =>
      JObj [("_id", JStr id); ("name", JStr (name u));
            ("avatar", JStr (avatar u))]
  | None => JNull
  end.

(** One element of the answer: the lean document, with
    [isUserRegistered] added for an authenticated viewer. *)
Definition listItem (db : Db) (viewer : option Requester)
    (ie : string * Event) : gmap string JsVal :=
  let obj := toObject ie.1
               (populateListOrganizer (org_user (organizer ie.2))
                  (users db !! org_user (organizer ie.2))) ie.2 in
  match viewer with
  | Some r => <["isUserRegistered" := JBool (isRegistered ie.2 (req_id r))]> obj
  | None => obj
  end.

(** The documents the filter selects. *)
Definition matching (matches : Event -> bool) (db : Db)
    : list (string * Event) :=
  List.filter
    (fun ie => bool_decide (ev_status ie.2 = published) && matches ie.2)
    (map_to_list (events db)).

(** [Event.find(filter).sort(sort)], before [skip] and [limit]. *)
Definition findPublished (matches : Event -> bool)
    (sortBy : list (string * Event) -> list (string * Event)) (db : Db)
    : list (string * Event) :=
  sortBy (matching matches db).

Definition listEvents (matches : Event -> bool)
    (sortBy : list (string * Event) -> list (string * Event)) (db : Db)
    (q : ListQuery) (viewer : option Requester) : Response ListData :=
  if negb (validListQuery q) then failure 400 "Invalid query parameters"
  else
    let page := orNum (q_page q) 1 in
    let limit := orNum (q_limit q) 10 in
    let skip := (page - 1) * limit in
    let found := findPublished matches sortBy db in
    let events := take (Z.to_nat limit) (drop (Z.to_nat skip) found) in
    let total := Z.of_nat (length (matching matches db)) in
    {| code := 200; success := true; message := None;
       data := Some
         {| ld_events := map (listItem db viewer) events;
            ld_pagination :=
              {| current := page;
                 pages := pageCount total limit;
                 total := total;
                 hasNext := page <? pageCount total limit;
                 hasPrev := 1 <? page |} |} |}.

End EventRoutesMore.

Import EventRoutesMore.

(** A site around the sample store, where "org1" hosts "e1". *)
Definition sampleSite : Site :=
  {| site_db := sampleDb; hosted := {[ "org1" := ["e1"] ]} |}.

Definition sampleBody (c : Category) : EventBody :=
  {| b_title := "Winter school"; b_category := c; b_start := 8000;
     b_end := 9000; b_deadline := 7000; b_maxParticipants := None;
     b_currentParticipants := None; b_participants := None;
     b_status := None; b_views := None |}.

(** ** More of routes/notes.js

    A row of the table [notes] with the columns these handlers read and
    write, around the columns the rating handler uses. [nr_saved_by] is
    [None] for a [null] column. *)

Module NotesMore.

Record NoteRow : Type := {
  nr_note : Note;
  nr_author_id : string;
  nr_saved_by : option (list string);
  nr_downloads : Z;
  nr_file_url : string;
  nr_file_name : string
}.

Definition active (row : NoteRow) : bool := is_active (nr_note row).

Definition set_active (row : NoteRow) (b : bool) : NoteRow :=
  {| nr_note := {| is_active := b;
                   note_rating := note_rating (nr_note row);
                   rating_count := rating_count (nr_note row) |};
     nr_author_id := nr_author_id row; nr_saved_by := nr_saved_by row;
     nr_downloads := nr_downloads row; nr_file_url := nr_file_url row;
     nr_file_name := nr_file_name row |}.

Definition set_saved_by (row : NoteRow) (l : list string) : NoteRow :=
  {| nr_note := nr_note row; nr_author_id := nr_author_id row;
     nr_saved_by := Some l; nr_downloads := nr_downloads row;
     nr_file_url := nr_file_url row; nr_file_name := nr_file_name row |}.

Definition set_downloads (row : NoteRow) (n : Z) : NoteRow :=
  {| nr_note := nr_note row; nr_author_id := nr_author_id row;
     nr_saved_by := nr_saved_by row; nr_downloads := n;
     nr_file_url := nr_file_url row; nr_file_name := nr_file_name row |}.

(** [note.saved_by || []] *)
Definition savedBy (row : NoteRow) : list string := orArr (nr_saved_by row).

(** [l.includes(userId)] *)
Definition includes (l : list string) (userId : string) : bool :=
  existsb (fun x => bool_decide (x = userId)) l.

(** [.select(...).eq('id', id).eq('is_active', true).single()] *)
Definition selectActive (tbl : gmap string NoteRow) (id : string)
    : option NoteRow :=
  match tbl !! id with
  | Some row => if active row then Some row else None
  | None => None
  end.

(** *** GET /api/notes/:id *)

Record NoteView : Type := {
  nv_note : NoteRow;
  nv_isSaved : option JsVal
}.

(** [note.saved_by && note.saved_by.includes(req.user.id)], set for an
    authenticated viewer only. *)
Definition isSavedFlag (row : NoteRow) (viewer : option string)
    : option JsVal :=
  match viewer with
  | None => None
  | Some uid =>
      match nr_saved_by row with
      | None => Some JNull
      | Some l => Some (JBool (includes l uid))
      end
  end.

Definition getNote (tbl : gmap string NoteRow) (viewer : option string)
    (id : string) : Response NoteView :=
  match tbl !! id with
  | None => failure 404 "Note not found"
  | Some row =>
      if negb (active row) then failure 404 "Note not found"
      else {| code := 200; success := true; message := None;
              data := Some {| nv_note := row;
                              nv_isSaved := isSavedFlag row viewer |} |}
  end.

(** *** DELETE /api/notes/:id *)

Definition deleteNote (tbl : gmap string NoteRow) (userId id : string)
    : Response unit * gmap string NoteRow :=
  match tbl !! id with
  | None => (failure 404 "Note not found", tbl)
  | Some row =>
      if negb (bool_decide (nr_author_id row = userId))
      then (failure 403 "Not authorized to delete this note", tbl)
      else ({| code := 200; success := true;
               message := Some "Note deleted successfully"; data := None |},
            <[id := set_active row false]> tbl)
  end.

(** *** POST /api/notes/:id/download *)

Record DownloadData : Type := {
  fileUrl : string;
  fileName : string
}.

Definition downloadNote (tbl : gmap string NoteRow) (id : string)
    : Response DownloadData * gmap string NoteRow :=
  match selectActive tbl id with
  | None => (failure 404 "Note not found", tbl)
  | Some row =>
      ({| code := 200; success := true; message := None;
          data := Some {| fileUrl := nr_file_url row;
                          fileName := nr_file_name row |} |},
       <[id := set_downloads row (nr_downloads row + 1)]> tbl)
  end.

(** *** POST /api/notes/:id/save *)

Definition saveNote (tbl : gmap string NoteRow) (userId id : string)
    : Response unit * gmap string NoteRow :=
  match selectActive tbl id with
  | None => (failure 404 "Note not found", tbl)
  | Some row =>
      if includes (savedBy row) userId
      then (failure 400 "Note already saved", tbl)
      else ({| code := 200; success := true;
               message := Some "Note saved successfully"; data := None |},
            <[id := set_saved_by row (savedBy row ++ [userId])]> tbl)
  end.

(** *** DELETE /api/notes/:id/save *)

Definition unsaveNote (tbl : gmap string NoteRow) (userId id : string)
    : Response unit * gmap string NoteRow :=
  match tbl !! id with
  | None => (failure 404 "Note not found", tbl)
  | Some row =>
      ({| code := 200; success := true;
          message := Some "Note removed from saved"; data := None |},
       <[id := set_saved_by row
                 (List.filter (fun x => negb (bool_decide (x = userId)))
                              (savedBy row))]> tbl)
  end.

(** *** The Note model

    The ratings a note document embeds, with the stored mean and count. *)

Record NoteDoc : Type := {
  nd_ratings : list (string * Z);
  nd_rating : Q;
  nd_ratingCount : Z;
  nd_savedBy : list string
}.

Definition isSavedByUser (n : NoteDoc) (userId : string) : bool :=
  existsb (fun x => bool_decide (x = userId)) (nd_savedBy n).

Definition hasUserRated (n : NoteDoc) (userId : string) : bool :=
  existsb (fun x => bool_decide (x.1 = userId)) (nd_ratings n).

Definition calculateRating (n : NoteDoc) : NoteDoc :=
  match nd_ratings n with
  | [] => {| nd_ratings := nd_ratings n; nd_rating := 0;
             nd_ratingCount := 0; nd_savedBy := nd_savedBy n |}
  | _ =>
      let sum := fold_left (fun acc x => acc + x.2) (nd_ratings n) 0 in
      {| nd_ratings := nd_ratings n;
         nd_rating :=
           (inject_Z
              (Math_round (inject_Z sum
                           / inject_Z (Z.of_nat (length (nd_ratings n)))
                           * 10)) / 10)%Q;
         nd_ratingCount := Z.of_nat (length (nd_ratings n));
         nd_savedBy := nd_savedBy n |}
  end.

End NotesMore.

Import NotesMore.

(** Every rating of the table is one of 1 to 5. *)
Definition ratingsInRange (rows : list RatingRow) : Prop :=
  forall x, x ∈ rows -> 1 <= rating x <= 5.

(** Nobody is twice in the [saved_by] of a note. *)
Definition savedOnce (tbl : gmap string NoteRow) : Prop :=
  forall id row, tbl !! id = Some row -> NoDup (savedBy row).

Definition sampleRow (act : bool) (saved : option (list string)) : NoteRow :=
  {| nr_note := {| is_active := act; note_rating := 0; rating_count := 0 |};
     nr_author_id := "u1"; nr_saved_by := saved; nr_downloads := 7;
     nr_file_url := "https://files.example.org/n1.pdf";
     nr_file_name := "n1.pdf" |}.

(** The columns of [notes] the rating handler works on, with the rows of
    [note_ratings]. *)
Definition toStore (tbl : gmap string NoteRow) (rows : list RatingRow)
    : Store :=
  {| notes := nr_note <$> tbl; note_ratings := rows |}.

(** A user id as it is stored and the same id spelled in upper case. *)
Definition storedUserId : string := "64b7f0c2a1d3e4f5a6b7c8d9".

Definition respelledUserId : string := "64B7F0C2A1D3E4F5A6B7C8D9".

Definition storedEventId : string := "74c8e1d3b2f4a5e6c7d8e9fa".

(** An event with that user on its roster, counted once, and the user
    with the event on the user's own list. *)
Definition rosteredEvent : Event :=
  set_currentParticipants
    (sampleEvent [sampleParticipant "p1" storedUserId registered]) 1.

Definition rosteredDb : Db :=
  {| events := {[ storedEventId := rosteredEvent ]};
     users := {[ storedUserId :=
                   set_registeredEvents (sampleUser "Uma" student)
                     [{| event := storedEventId; re_registeredAt := 0;
                         re_status := registered |}] ]} |}.

(** A body that brings a roster of one along and no counter. *)
Definition sampleBodyWithRoster : EventBody :=
  {| b_title := "Winter school"; b_category := workshop; b_start := 8000;
     b_end := 9000; b_deadline := 7000; b_maxParticipants := None;
     b_currentParticipants := None;
     b_participants := Some [sampleParticipant "p1" "u1" attended];
     b_status := None; b_views := Some 40 |}.


(** * Properties *)

(** ** The admission check *)

Section Admission.

Lemma isRegistered_true (e : Event) (u : string) :
  isRegistered e u = true <-> exists p, p ∈ participants e /\ user p = u.
Proof.
  unfold isRegistered. rewrite existsb_exists. split.
  - intros (p & Hin & Hp). exists p. split.
    + by apply list_elem_of_In.
    + by apply bool_decide_eq_true in Hp.
  - intros (p & Hin & Hp). exists p. split.
    + by apply list_elem_of_In.
    + by apply bool_decide_eq_true.
Qed.

Lemma isRegistered_false (e : Event) (u : string) :
  isRegistered e u = false <-> forall p, p ∈ participants e -> user p <> u.
Proof.
  rewrite <- not_true_iff_false, isRegistered_true. split.
  - intros H p Hin Hp. apply H. by exists p.
  - intros H (p & Hin & Hp). by apply (H p).
Qed.

Lemma canUserRegister_cases (now : Z) (e : Event) (u : string) :
  (deadline (registration e) < now /\ canUserRegister now e u = deadlinePassed)
  \/ (now <= deadline (registration e) /\ isRegistered e u = true
      /\ canUserRegister now e u = alreadyRegistered)
  \/ (now <= deadline (registration e) /\ isRegistered e u = false
      /\ canUserRegister now e u = allowed).
Proof.
  unfold canUserRegister.
  destruct (Z.ltb_spec (deadline (registration e)) now) as [Hlt | Hle].
  - by left.
  - right. destruct (isRegistered e u).
    + by left.
    + by right.
Qed.

(** C1, as stated, fails: at the very instant of the deadline the current
    time is not strictly before the deadline, yet a user who is not on the
    roster is allowed to register. *)
Lemma canUserRegister_at_deadline_allowed :
  let e := sampleEvent [] in
  let now := deadline (registration e) in
  ~ (now < deadline (registration e))
  /\ canUserRegister now e "u1" = allowed.
Proof. split; [ simpl; lia | reflexivity ]. Qed.

(** C1 (amended): the admission check allows registration only when the
    current time is not after the deadline, and the deadline instant itself
    is still open: at that instant, and at any time up to it, a user who is
    not on the roster is allowed. Whenever the current time is strictly
    after the deadline, and so one second after it, the answer is a refusal
    with reason "Registration deadline has passed", whatever the capacity
    figures are and whether or not the user is on the roster: the deadline
    rule is evaluated before the already-registered rule. *)
Theorem canUserRegister_deadline_rule (now : Z) (e : Event) (u : string) :
  (canRegister (canUserRegister now e u) = true ->
     now <= deadline (registration e))
  /\ (deadline (registration e) < now ->
        forall maxP cur ps,
          canUserRegister now (withCapacityAndRoster e maxP cur ps) u
          = deadlinePassed)
  /\ (forall maxP cur ps,
        canUserRegister (deadline (registration e) + 1000)
          (withCapacityAndRoster e maxP cur ps) u = deadlinePassed)
  /\ (deadline (registration e) < now -> isRegistered e u = true ->
        canUserRegister now e u = deadlinePassed)
  /\ (isRegistered e u = false ->
        canUserRegister (deadline (registration e)) e u = allowed)
  /\ (now <= deadline (registration e) -> isRegistered e u = false ->
        canUserRegister now e u = allowed)
  /\ (canUserRegister now e u = deadlinePassed
      <-> deadline (registration e) < now).
Proof.
  assert (Hpast : forall t e', deadline (registration e') < t ->
                               canUserRegister t e' u = deadlinePassed).
  { intros t e' Ht. unfold canUserRegister.
    destruct (Z.ltb_spec (deadline (registration e')) t); [done | lia]. }
  assert (Hopen : forall t, t <= deadline (registration e) ->
                            isRegistered e u = false ->
                            canUserRegister t e u = allowed).
  { intros t Ht Hreg.
    destruct (canUserRegister_cases t e u)
      as [[H _] | [(_ & H & _) | (_ & _ & H)]]; [lia | congruence | exact H]. }
  split; [| split; [| split; [| split; [| split; [| split]]]]].
  - intros Hcan.
    destruct (canUserRegister_cases now e u) as [[_ Heq] | [(H & _) | (H & _)]];
      try done.
    rewrite Heq in Hcan. discriminate.
  - intros Hlt maxP cur ps. by apply Hpast.
  - intros maxP cur ps. apply Hpast. simpl. lia.
  - intros Hlt _. by apply Hpast.
  - apply Hopen. lia.
  - apply Hopen.
  - split; [| apply Hpast].
    destruct (canUserRegister_cases now e u)
      as [[H _] | [(_ & _ & H) | (_ & _ & H)]]; [done | |];
      rewrite H; discriminate.
Qed.

Lemma canUserRegister_deadline_rule_witness :
  canUserRegister 6000 (sampleEvent [sampleParticipant "p1" "u1" registered])
    "u1" = deadlinePassed
  /\ canUserRegister 5000
       (sampleEvent [sampleParticipant "p1" "u1" registered]) "u2" = allowed.
Proof.
  destruct (canUserRegister_deadline_rule 6000
              (sampleEvent [sampleParticipant "p1" "u1" registered]) "u1")
    as (_ & _ & _ & Hpast & _).
  destruct (canUserRegister_deadline_rule 5000
              (sampleEvent [sampleParticipant "p1" "u1" registered]) "u2")
    as (_ & _ & _ & _ & Hinstant & _).
  split.
  - apply Hpast; [simpl; lia | reflexivity].
  - apply Hinstant. reflexivity.
Defined.

(** C9: before the deadline a user who is not on the roster is always
    allowed, whatever [maxParticipants] and [currentParticipants] are,
    also when the counter has reached or passed the maximum; and a refusal
    never carries a reason other than the deadline one and the
    already-registered one. *)
Theorem canUserRegister_ignores_capacity (now : Z) (e : Event) (u : string)
    (maxP : option Z) (cur : Z) :
  now < deadline (registration e) ->
  isRegistered e u = false ->
  canUserRegister now (withCapacityAndRoster e maxP cur (participants e)) u
  = allowed
  /\ forall t e' u',
       canRegister (canUserRegister t e' u') = false ->
       canUserRegister t e' u' = deadlinePassed
       \/ canUserRegister t e' u' = alreadyRegistered.
Proof.
  intros Hnow Hreg. split.
  - destruct (canUserRegister_cases now
                (withCapacityAndRoster e maxP cur (participants e)) u)
      as [[H _] | [(_ & H & _) | (_ & _ & H)]].
    + simpl in H. lia.
    + unfold isRegistered in *. simpl in H. congruence.
    + exact H.
  - intros t e' u' Hno.
    destruct (canUserRegister_cases t e' u')
      as [[_ H] | [(_ & _ & H) | (_ & _ & H)]].
    + by left.
    + by right.
    + rewrite H in Hno. discriminate.
Qed.

Lemma canUserRegister_ignores_capacity_witness :
  canUserRegister 4000
    (withCapacityAndRoster (sampleEvent []) (Some 1) 5 []) "u1" = allowed.
Proof.
  apply (canUserRegister_ignores_capacity 4000 (sampleEvent []) "u1"
           (Some 1) 5).
  - simpl. lia.
  - reflexivity.
Defined.

End Admission.

(** ** Registering and unregistering *)

Section Registration.

Lemma events_updateUser (db : Db) (uid : string) (f : User -> User) :
  events (updateUser db uid f) = events db.
Proof. reflexivity. Qed.

Lemma users_saveEvent (db : Db) (id : string) (e : Event) :
  users (saveEvent db id e) = users db.
Proof. reflexivity. Qed.

Lemma events_saveEvent (db : Db) (id : string) (e : Event) :
  events (saveEvent db id e) !! id = Some e.
Proof. unfold saveEvent. simpl. apply lookup_insert_eq. Qed.

Lemma users_updateUser (db : Db) (uid : string) (f : User -> User) :
  users (updateUser db uid f) !! uid = f <$> users db !! uid.
Proof. unfold updateUser. simpl. apply lookup_alter_eq. Qed.

Lemma isRegistered_registerUser (now : Z) (fresh : string) (e : Event)
    (u : string) (d : RegistrationData) :
  isRegistered (registerUser now fresh e u d) u = true.
Proof.
  apply isRegistered_true. exists (newParticipant now fresh u d).
  split; [| reflexivity]. simpl. apply elem_of_app. right. by left.
Qed.

Lemma isRegistered_unregisterUser (e : Event) (u : string) :
  isRegistered (unregisterUser e u) u = false.
Proof.
  apply isRegistered_false. intros p Hin Hp. simpl in Hin.
  apply list_elem_of_In, filter_In in Hin as [_ Hneg].
  apply negb_true_iff, bool_decide_eq_false in Hneg. contradiction.
Qed.

(** The self-service handler, when the admission check passes. *)
Lemma register_success (now : Z) (fresh : string) (db : Db) (req : Requester)
    (id : string) (body : RegistrationData) (ev : Event) :
  events db !! id = Some ev ->
  canRegister (canUserRegister now ev (req_id req)) = true ->
  let r := register now fresh db req id body in
  code r.1 = 200
  /\ events r.2 !! id = Some (registerUser now fresh ev (req_id req) body)
  /\ users r.2 !! req_id req
     = pushRegisteredEvent now id registered <$> users db !! req_id req.
Proof.
  intros Hev Hcan. unfold register. rewrite Hev, Hcan. simpl.
  split; [reflexivity |]. split.
  - apply lookup_insert_eq.
  - apply lookup_alter_eq.
Qed.



Lemma length_entriesOf_split (u : string) (e : Event) :
  (length (entriesOf u e)
   + length (participants (unregisterUser e u)))%nat
  = length (participants e).
Proof. unfold entriesOf. simpl. apply filter_length. Qed.

Lemma length_assignStatus (ps : list Participant) (pid : string)
    (s : ParticipantStatus) :
  length (assignStatus ps pid s) = length ps.
Proof.
  induction ps as [| p rest IH]; simpl; [reflexivity |].
  destruct (bool_decide (_id p = pid)); simpl; [reflexivity |].
  by rewrite IH.
Qed.

(** From a state in which the counter equals the number of roster
    entries, each operation of the registration subsystem leads to such a
    state again: registering adds one entry and one to the counter,
    unregistering a user who is on the roster exactly once takes one entry
    and one from the counter, and a status change touches neither the
    length of the roster nor the counter. *)
Theorem registration_preserves_count (e : Event) (now : Z) (fresh u : string)
    (d : RegistrationData) (pid : string) (s : ParticipantStatus) :
  countConsistent e ->
  (let e' := registerUser now fresh e u d in
   length (participants e') = S (length (participants e))
   /\ currentParticipants (registration e')
      = currentParticipants (registration e) + 1
   /\ countConsistent e')
  /\ (length (entriesOf u e) = 1%nat ->
      let e' := unregisterUser e u in
      S (length (participants e')) = length (participants e)
      /\ currentParticipants (registration e')
         = currentParticipants (registration e) - 1
      /\ countConsistent e')
  /\ (let e' := set_participants e (assignStatus (participants e) pid s) in
      length (participants e') = length (participants e)
      /\ currentParticipants (registration e')
         = currentParticipants (registration e)
      /\ countConsistent e').
Proof.
  unfold countConsistent. intros Hinv. repeat split.
  - simpl. rewrite length_app. simpl. lia.
  - simpl. rewrite length_app. simpl. lia.
  - pose proof (length_entriesOf_split u e) as Hs. lia.
  - pose proof (length_entriesOf_split u e) as Hs.
    simpl in *. lia.
  - pose proof (length_entriesOf_split u e) as Hs.
    simpl in *. lia.
  - simpl. apply length_assignStatus.
  - simpl. rewrite length_assignStatus. exact Hinv.
Qed.

Lemma registration_preserves_count_witness :
  countConsistent (registerUser 4000 "p2" sampleRoster "u2" noData)
  /\ countConsistent (unregisterUser sampleRoster "u1")
  /\ countConsistent
       (set_participants sampleRoster
          (assignStatus (participants sampleRoster) "p1" attended)).
Proof.
  destruct (registration_preserves_count sampleRoster 4000 "p2" "u2" noData
              "p1" attended eq_refl) as (Hreg & _ & Hst).
  destruct (registration_preserves_count sampleRoster 4000 "p2" "u1" noData
              "p1" attended eq_refl) as (_ & Hun & _).
  split; [apply Hreg |]. split; [| apply Hst].
  apply Hun. reflexivity.
Defined.

(** C5: unregistering answers "You are not registered for this event"
    exactly when the user is not on the roster, and then the store is left
    as it was; when the user is on the roster every entry of that user is
    removed and no other, the counter becomes the larger of 0 and the
    counter minus one (so it is never negative, and exactly one less
    whenever it was at least one), and afterwards the admission check does
    not answer "Already registered" for that user. *)
Theorem unregister_checks_roster (db : Db) (req : Requester) (id : string)
    (ev : Event) :
  events db !! id = Some ev ->
  let r := unregister db req id in
  let u := req_id req in
  (isRegistered ev u = false <-> r.1 = notRegistered)
  /\ (isRegistered ev u = false -> r.2 = db)
  /\ (isRegistered ev u = true ->
      let e' := unregisterUser ev u in
      code r.1 = 200
      /\ events r.2 !! id = Some e'
      /\ (forall p, p ∈ participants e' <->
                    p ∈ participants ev /\ user p <> u)
      /\ currentParticipants (registration e')
         = Z.max 0 (currentParticipants (registration ev) - 1)
      /\ 0 <= currentParticipants (registration e')
      /\ (1 <= currentParticipants (registration ev) ->
          currentParticipants (registration e')
          = currentParticipants (registration ev) - 1)
      /\ forall now,
           reason (canUserRegister now e' u) <> Some "Already registered").
Proof.
  intros Hev r u. subst r. unfold unregister. rewrite Hev. fold u.
  destruct (isRegistered ev u) eqn:Hreg; simpl.
  - split; [split; discriminate |]. split; [discriminate |].
    intros _. split; [reflexivity |]. split; [apply lookup_insert_eq |].
    split.
    { intros p. rewrite !list_elem_of_In, filter_In, negb_true_iff,
        bool_decide_eq_false. reflexivity. }
    split; [reflexivity |]. split; [lia |]. split; [lia |].
    intros now.
    destruct (canUserRegister_cases now (unregisterUser ev u) u)
      as [[_ H] | [(_ & H & _) | (_ & _ & H)]].
    + rewrite H. discriminate.
    + rewrite isRegistered_unregisterUser in H. discriminate.
    + rewrite H. discriminate.
  - split; [split; [reflexivity | reflexivity] |].
    split; [reflexivity | discriminate].
Qed.

Lemma unregister_checks_roster_witness :
  (unregister {| events := {[ "e1" := sampleRoster ]}; users := ∅ |}
     {| req_id := "u2"; req_role := student |} "e1").1 = notRegistered.
Proof.
  apply (unregister_checks_roster
           {| events := {[ "e1" := sampleRoster ]}; users := ∅ |}
           {| req_id := "u2"; req_role := student |} "e1" sampleRoster).
  - reflexivity.
  - reflexivity.
Defined.

(** Sequential runs: the handlers keep every stored roster sound. *)

Lemma storeSound_saveEvent (db : Db) (id : string) (e : Event) :
  storeSound db -> rosterSound e -> storeSound (saveEvent db id e).
Proof.
  intros Hdb He id' e'. unfold saveEvent. simpl.
  rewrite lookup_insert. case_decide.
  - intros [= <-]. exact He.
  - apply Hdb.
Qed.

Lemma storeSound_updateUser (db : Db) (uid : string) (f : User -> User) :
  storeSound db -> storeSound (updateUser db uid f).
Proof. intros Hdb id e. apply Hdb. Qed.

Lemma rosterSound_registerUser (now : Z) (fresh : string) (e : Event)
    (u : string) (d : RegistrationData) :
  rosterSound e -> isRegistered e u = false ->
  rosterSound (registerUser now fresh e u d).
Proof.
  intros [Hc Hnd] Hreg. split.
  - unfold countConsistent in *. simpl. rewrite length_app. simpl. lia.
  - simpl. rewrite map_app. simpl. apply NoDup_app.
    split; [exact Hnd |]. split; [| apply NoDup_singleton].
    intros x Hx Hx'. apply list_elem_of_singleton in Hx'. subst x.
    apply list_elem_of_fmap in Hx as (p & Hp & Hin).
    apply isRegistered_false with (p := p) in Hreg; [| exact Hin].
    simpl in Hp. congruence.
Qed.

Lemma entriesOf_once (u : string) (e : Event) :
  NoDup (map user (participants e)) -> isRegistered e u = true ->
  length (entriesOf u e) = 1%nat.
Proof.
  unfold entriesOf, isRegistered.
  induction (participants e) as [| p ps IH]; simpl; [discriminate |].
  intros Hnd Hex. apply NoDup_cons in Hnd as [Hnotin Hnd].
  destruct (bool_decide (user p = u)) eqn:Hp; simpl.
  - apply bool_decide_eq_true in Hp. f_equal. apply length_zero_iff_nil.
    destruct (List.filter _ ps) as [| q qs] eqn:Hf; [reflexivity |].
    exfalso. assert (Hq : In q (List.filter
                               (fun p0 => bool_decide (user p0 = u)) ps)).
    { rewrite Hf. by left. }
    apply filter_In in Hq as [Hin Hq]. apply bool_decide_eq_true in Hq.
    apply Hnotin. rewrite Hp, <- Hq. apply list_elem_of_fmap.
    exists q. split; [reflexivity |]. by apply list_elem_of_In.
  - by apply IH.
Qed.

Lemma NoDup_map_filter {A B : Type} (f : A -> B) (g : A -> bool)
    (l : list A) :
  NoDup (map f l) -> NoDup (map f (List.filter g l)).
Proof.
  induction l as [| a l IH]; simpl; [done |].
  intros Hnd. apply NoDup_cons in Hnd as [Hnotin Hnd].
  destruct (g a); simpl; [| by apply IH].
  apply NoDup_cons. split; [| by apply IH].
  intros Hin. apply Hnotin.
  apply list_elem_of_fmap in Hin as (b & Hb & Hin).
  apply list_elem_of_fmap. exists b. split; [exact Hb |].
  apply list_elem_of_In. apply list_elem_of_In, filter_In in Hin. tauto.
Qed.

Lemma rosterSound_unregisterUser (e : Event) (u : string) :
  rosterSound e -> isRegistered e u = true -> rosterSound (unregisterUser e u).
Proof.
  intros [Hc Hnd] Hreg. split.
  - pose proof (length_entriesOf_split u e) as Hs.
    pose proof (entriesOf_once u e Hnd Hreg) as H1.
    unfold countConsistent in *. simpl in *. lia.
  - simpl. by apply NoDup_map_filter.
Qed.

Lemma map_user_assignStatus (ps : list Participant) (pid : string)
    (s : ParticipantStatus) :
  map user (assignStatus ps pid s) = map user ps.
Proof.
  induction ps as [| p rest IH]; simpl; [reflexivity |].
  destruct (bool_decide (_id p = pid)); simpl; [reflexivity |].
  by rewrite IH.
Qed.

Lemma rosterSound_assignStatus (e : Event) (pid : string)
    (s : ParticipantStatus) :
  rosterSound e ->
  rosterSound (set_participants e (assignStatus (participants e) pid s)).
Proof.
  intros [Hc Hnd]. split.
  - unfold countConsistent in *. simpl. by rewrite length_assignStatus.
  - simpl. by rewrite map_user_assignStatus.
Qed.

Lemma storeSound_handle (db : Db) (r : Request) :
  canonicalAdmin r -> storeSound db -> storeSound (handle db r).
Proof.
  intros Hcan Hdb. destruct r as [now fresh req id body | req id
                            | now fresh id userId | req eid pid st
                            | id viewer]; simpl.
  - unfold register. destruct (events db !! id) as [ev |] eqn:Hev; [| done].
    destruct (canUserRegister_cases now ev (req_id req))
      as [[_ H] | [(_ & _ & H) | (_ & Hno & H)]]; rewrite H; simpl; try done.
    apply storeSound_updateUser, storeSound_saveEvent; [done |].
    apply rosterSound_registerUser; [by apply (Hdb id) | done].
  - unfold unregister. destruct (events db !! id) as [ev |] eqn:Hev; [| done].
    destruct (isRegistered ev (req_id req)) eqn:Hreg; simpl; [| done].
    apply storeSound_updateUser, storeSound_saveEvent; [done |].
    apply rosterSound_unregisterUser; [by apply (Hdb id) | done].
  - unfold adminRegister. destruct userId as [uid |]; [| done].
    simpl in Hcan. rewrite Hcan.
    destruct (bool_decide (uid = "")); [done |].
    destruct (events db !! id) as [ev |] eqn:Hev; [| done].
    destruct (users db !! uid); [| done].
    destruct (isRegistered ev uid) eqn:Hreg; simpl; [done |].
    apply storeSound_updateUser, storeSound_saveEvent; [done |].
    apply rosterSound_registerUser; [by apply (Hdb id) | done].
  - unfold setParticipantStatus. destruct (parseStatus st); [| done].
    destruct (events db !! eid) as [ev |] eqn:Hev; [| done].
    destruct (negb _); [done |].
    destruct (findById _ _); simpl; [| done].
    apply storeSound_updateUser, storeSound_saveEvent; [done |].
    apply rosterSound_assignStatus. by apply (Hdb eid).
  - unfold getEvent. destruct (events db !! id) as [ev |] eqn:Hev; [| done].
    assert (Hs : storeSound (saveEvent db id (set_views ev (views ev + 1)))).
    { apply storeSound_saveEvent; [exact Hdb |].
      destruct (Hdb id ev Hev) as [Hc Hn]. by split. }
    simpl. destruct viewer, (users db !! org_user (organizer ev)); exact Hs.
Qed.

Lemma storeSound_handleAll (rs : list Request) (db : Db) :
  Forall canonicalAdmin rs -> storeSound db -> storeSound (handleAll db rs).
Proof.
  revert db. induction rs as [| r rs IH]; intros db Hrs Hdb; simpl; [done |].
  apply Forall_cons in Hrs as [Hr Hrs].
  apply IH; [exact Hrs |]. by apply storeSound_handle.
Qed.

(** From a store in which every counter agrees with its roster and no
    roster lists a user twice, every sequence of register, unregister,
    administrative register, status and read requests handled one after
    the other leads to such a store, provided each administrative
    registration spells the user id as it is stored. *)
Theorem handleAll_preserves_storeSound (rs : list Request) (db : Db) :
  Forall canonicalAdmin rs -> storeSound db -> storeSound (handleAll db rs).
Proof. apply storeSound_handleAll. Qed.

(** C2, as stated, fails: the counter does not equal the number of roster
    entries at all times. An event created with a roster in the request
    body and no counter is stored with one entry and counter 0. And from a
    store where counter and roster agree, an administrative registration
    that spells the id of a rostered user in upper case followed by that
    user's unregistration leaves an empty roster with counter 1. *)
Lemma count_not_kept_at_all_times :
  (let r := createEvent 6000 "e2" sampleSite
              {| req_id := "org1"; req_role := professional |} "Olga"
              sampleBodyWithRoster in
   code r.1 = 201
   /\ exists e, events (site_db r.2) !! "e2" = Some e
        /\ length (participants e) = 1%nat
        /\ currentParticipants (registration e) = 0
        /\ ~ countConsistent e)
  /\ (storeSound rosteredDb
      /\ exists e,
           events (handleAll rosteredDb
                     [PostAdminRegister 6000 "p2" storedEventId
                        (Some respelledUserId);
                      DeleteRegister
                        {| req_id := storedUserId; req_role := student |}
                        storedEventId]) !! storedEventId = Some e
           /\ participants e = []
           /\ currentParticipants (registration e) = 1
           /\ ~ countConsistent e).
Proof.
  split.
  - split; [reflexivity |]. eexists. split; [reflexivity |].
    split; [reflexivity |]. split; [reflexivity | discriminate].
  - split.
    + intros id e He. simpl in He.
      apply lookup_singleton_Some in He as [_ <-].
      split; [reflexivity |]. simpl. apply NoDup_singleton.
    + eexists. split; [vm_compute; reflexivity |].
      split; [reflexivity |]. split; [reflexivity | discriminate].
Qed.

(** C2 (amended): from an event state in which the counter equals the
    number of roster entries, each operation of the registration subsystem
    leads to such a state again: registering adds one entry and one to the
    counter, unregistering a user who is on the roster exactly once takes
    one entry and one from the counter, and a status change touches
    neither the length of the roster nor the counter. So the counter
    equals the number of roster entries of every stored event after every
    sequence of register, unregister, administrative register, status and
    read requests handled one after the other, from a store in which it
    does and no roster lists a user twice, as long as the administrative
    registrations spell the user id as it is stored. *)
Theorem registration_keeps_count (e : Event) (now : Z) (fresh u : string)
    (d : RegistrationData) (pid : string) (s : ParticipantStatus)
    (db : Db) (rs : list Request) :
  (countConsistent e ->
   (let e' := registerUser now fresh e u d in
    length (participants e') = S (length (participants e))
    /\ currentParticipants (registration e')
       = currentParticipants (registration e) + 1
    /\ countConsistent e')
   /\ (length (entriesOf u e) = 1%nat ->
       let e' := unregisterUser e u in
       S (length (participants e')) = length (participants e)
       /\ currentParticipants (registration e')
          = currentParticipants (registration e) - 1
       /\ countConsistent e')
   /\ (let e' := set_participants e (assignStatus (participants e) pid s) in
       length (participants e') = length (participants e)
       /\ currentParticipants (registration e')
          = currentParticipants (registration e)
       /\ countConsistent e'))
  /\ (storeSound db -> Forall canonicalAdmin rs ->
      storeSound (handleAll db rs)
      /\ forall id e',
           events (handleAll db rs) !! id = Some e' ->
           currentParticipants (registration e')
           = Z.of_nat (length (participants e'))).
Proof.
  split.
  - apply registration_preserves_count.
  - intros Hdb Hrs.
    pose proof (storeSound_handleAll rs db Hrs Hdb) as Hsound.
    split; [exact Hsound |]. intros id e' He'.
    by destruct (Hsound id e' He').
Qed.

Lemma registration_keeps_count_witness :
  countConsistent (unregisterUser sampleRoster "u1")
  /\ currentParticipants <$>
       (registration <$>
          events (handleAll sampleDb
                    [PostRegister 4000 "p2"
                       {| req_id := "u2"; req_role := student |} "e1"
                       noData;
                     PostAdminRegister 6000 "p3" "e1" (Some "org1");
                     DeleteRegister
                       {| req_id := "u1"; req_role := student |} "e1"])
          !! "e1")
     = Some 2.
Proof.
  destruct (registration_keeps_count sampleRoster 4000 "p2" "u1" noData
              "p1" attended sampleDb
              [PostRegister 4000 "p2"
                 {| req_id := "u2"; req_role := student |} "e1" noData;
               PostAdminRegister 6000 "p3" "e1" (Some "org1");
               DeleteRegister {| req_id := "u1"; req_role := student |}
                 "e1"]) as [Hstep Hrun].
  split.
  - destruct (Hstep eq_refl) as (_ & Hun & _). apply Hun. reflexivity.
  - assert (Hdb : storeSound sampleDb).
    { intros id e He. simpl in He.
      apply lookup_singleton_Some in He as [_ <-].
      split; [reflexivity |]. simpl. apply NoDup_singleton. }
    assert (Hrs : Forall canonicalAdmin
                    [PostRegister 4000 "p2"
                       {| req_id := "u2"; req_role := student |} "e1"
                       noData;
                     PostAdminRegister 6000 "p3" "e1" (Some "org1");
                     DeleteRegister
                       {| req_id := "u1"; req_role := student |} "e1"]).
    { repeat constructor. }
    destruct (Hrun Hdb Hrs) as [_ Hcount].
    destruct (events (handleAll sampleDb _) !! "e1") as [e1 |] eqn:He1;
      [| vm_compute in He1; discriminate].
    simpl. rewrite (Hcount "e1" e1 He1). f_equal.
    vm_compute in He1. injection He1 as <-. reflexivity.
Defined.

(** What a save of one event followed by an update of one user leaves of
    an entry [p] of the roster of [id] and an entry [m] of the list of
    [uid]. *)
Lemma entries_after_write (db : Db) (id0 uid0 : string) (ev0 e0 : Event)
    (f : User -> User) (id uid : string) (e : Event) (u : User)
    (p : Participant) (m : RegisteredEvent) :
  events db !! id0 = Some ev0 ->
  (p ∈ participants ev0 -> p ∈ participants e0) ->
  (uid0 = uid -> m ∈ registeredEvents u -> m ∈ registeredEvents (f u)) ->
  events db !! id = Some e -> users db !! uid = Some u ->
  p ∈ participants e -> m ∈ registeredEvents u ->
  exists e' u',
    events (updateUser (saveEvent db id0 e0) uid0 f) !! id = Some e'
    /\ users (updateUser (saveEvent db id0 e0) uid0 f) !! uid = Some u'
    /\ p ∈ participants e' /\ m ∈ registeredEvents u'.
Proof.
  intros Hold Hkeep Hf Hev Hus Hp Hm. simpl.
  destruct (decide (id0 = id)) as [-> | Hid];
    destruct (decide (uid0 = uid)) as [-> | Huid].
  - rewrite Hev in Hold. injection Hold as <-.
    exists e0, (f u). rewrite lookup_insert_eq, lookup_alter_eq, Hus. auto.
  - rewrite Hev in Hold. injection Hold as <-.
    exists e0, u. rewrite lookup_insert_eq, lookup_alter_ne by done. auto.
  - exists e, (f u).
    rewrite lookup_insert_ne by done. rewrite lookup_alter_eq, Hus. auto.
  - exists e, u.
    rewrite lookup_insert_ne by done. rewrite lookup_alter_ne by done. auto.
Qed.

(** Only a status update, or the unregistration of the user, touches what
    the roster and the user's list hold for that user. *)
Lemma handle_keeps_entries (db : Db) (r : Request) (id uid : string)
    (e : Event) (u : User) (p : Participant) (m : RegisteredEvent) :
  keepsEntriesOf uid r ->
  events db !! id = Some e -> users db !! uid = Some u ->
  p ∈ participants e -> user p = uid -> m ∈ registeredEvents u ->
  exists e' u',
    events (handle db r) !! id = Some e'
    /\ users (handle db r) !! uid = Some u'
    /\ p ∈ participants e' /\ m ∈ registeredEvents u'.
Proof.
  intros Hr Hev Hus Hp Hup Hm.
  assert (Hsame : exists e' u', events db !! id = Some e'
                                /\ users db !! uid = Some u'
                                /\ p ∈ participants e'
                                /\ m ∈ registeredEvents u').
  { by exists e, u. }
  destruct r as [now fresh req id0 body | req id0
                | now fresh id0 userId | req eid pid st
                | id0 viewer]; simpl in *.
  - unfold register. destruct (events db !! id0) as [ev0 |] eqn:Hev0; [| done].
    destruct (negb _); [done |]. simpl.
    apply (entries_after_write db id0 (req_id req) ev0 _ _ id uid e u p m);
      try done.
    + intros Hin. simpl. apply elem_of_app. by left.
    + intros _ Hin. simpl. apply elem_of_app. by left.
  - unfold unregister.
    destruct (events db !! id0) as [ev0 |] eqn:Hev0; [| done].
    destruct (negb _); [done |]. simpl.
    apply (entries_after_write db id0 (req_id req) ev0 _ _ id uid e u p m);
      try done.
    intros Hin. simpl. apply list_elem_of_In, filter_In.
    split; [by apply list_elem_of_In |].
    apply negb_true_iff, bool_decide_eq_false. congruence.
  - unfold adminRegister. destruct userId as [uid0 |]; [| done].
    destruct (bool_decide (uid0 = "")); [done |].
    destruct (events db !! id0) as [ev0 |] eqn:Hev0; [| done].
    destruct (users db !! canonical uid0); [| done].
    destruct (isRegistered ev0 uid0); [done |]. simpl.
    apply (entries_after_write db id0 (canonical uid0) ev0 _ _ id uid e u
             p m); try done.
    + intros Hin. simpl. apply elem_of_app. by left.
    + intros _ Hin. simpl. apply elem_of_app. by left.
  - destruct Hr.
  - unfold getEvent. destruct (events db !! id0) as [ev0 |] eqn:Hev0; [| done].
    assert (Hview : exists e' u',
               events (saveEvent db id0 (set_views ev0 (views ev0 + 1)))
               !! id = Some e'
               /\ users (saveEvent db id0 (set_views ev0 (views ev0 + 1)))
                  !! uid = Some u'
               /\ p ∈ participants e' /\ m ∈ registeredEvents u').
    { simpl. destruct (decide (id0 = id)) as [-> | Hid].
      - rewrite Hev in Hev0. injection Hev0 as <-.
        exists (set_views e (views e + 1)), u.
        by rewrite lookup_insert_eq.
      - exists e, u. by rewrite lookup_insert_ne. }
    simpl. by destruct viewer, (users db !! org_user (organizer ev0)).
Qed.

Lemma handleAll_keeps_entries (rs : list Request) (db : Db) (id uid : string)
    (e : Event) (u : User) (p : Participant) (m : RegisteredEvent) :
  Forall (keepsEntriesOf uid) rs ->
  events db !! id = Some e -> users db !! uid = Some u ->
  p ∈ participants e -> user p = uid -> m ∈ registeredEvents u ->
  exists e' u',
    events (handleAll db rs) !! id = Some e'
    /\ users (handleAll db rs) !! uid = Some u'
    /\ p ∈ participants e' /\ m ∈ registeredEvents u'.
Proof.
  revert db e u. induction rs as [| r rs IH]; intros db e u Hrs Hev Hus Hp Hup Hm.
  - by exists e, u.
  - apply Forall_cons in Hrs as [Hr Hrs]. simpl.
    destruct (handle_keeps_entries db r id uid e u p m Hr Hev Hus Hp Hup Hm)
      as (e1 & u1 & Hev1 & Hus1 & Hp1 & Hm1).
    by apply (IH (handle db r) e1 u1).
Qed.

(** Without the precondition the counter drifts: a roster that lists a
    user twice loses two entries and counts one. *)
Example unregisterUser_twice_listed :
  let e := set_currentParticipants
             (sampleEvent [sampleParticipant "p1" "u1" registered;
                           sampleParticipant "p2" "u1" registered]) 2 in
  countConsistent e /\ ~ countConsistent (unregisterUser e "u1").
Proof. split; [reflexivity | discriminate]. Qed.

End Registration.

(** ** Administrative registration *)

Section AdminRegistration.

Variables (now : Z) (fresh : string) (db : Db) (id uid : string).
Variables (ev : Event) (usr : User).

Hypothesis event_found : events db !! id = Some ev.
Hypothesis user_found : users db !! canonical uid = Some usr.
Hypothesis uid_truthy : uid <> "".

Lemma adminRegister_duplicate :
  isRegistered ev uid = true ->
  adminRegister now fresh db id (Some uid) = (adminAlreadyRegistered, db).
Proof.
  intros Hreg. unfold adminRegister.
  rewrite bool_decide_eq_false_2 by exact uid_truthy.
  by rewrite event_found, user_found, Hreg.
Qed.

Lemma adminRegister_success :
  isRegistered ev uid = false ->
  let r := adminRegister now fresh db id (Some uid) in
  code r.1 = 200 /\ success r.1 = true
  /\ events r.2 !! id
     = Some (registerUser now fresh ev (canonical uid) noData)
  /\ users r.2 !! canonical uid
     = Some (pushRegisteredEvent now id confirmed usr).
Proof.
  intros Hreg. unfold adminRegister.
  rewrite bool_decide_eq_false_2 by exact uid_truthy.
  rewrite event_found, user_found, Hreg. simpl.
  split; [reflexivity |]. split; [reflexivity |]. split.
  - apply lookup_insert_eq.
  - rewrite lookup_alter_eq. by rewrite user_found.
Qed.

(** Administrative registration does not look at the deadline: its
    answer is the same whatever the deadline of the event is, and it
    succeeds at any time, also after the deadline. When the roster holds
    the user id as the request spells it, the answer is "User is already
    registered for this event" and nothing changes. When it succeeds it
    registers the user and the entry it adds to the user's
    [registeredEvents] has status confirmed; the self-service handler adds
    that entry with status registered. *)
Theorem adminRegister_skips_deadline_only :
  let r := adminRegister now fresh db id (Some uid) in
  (forall d,
     (adminRegister now fresh (saveEvent db id (withDeadline ev d)) id
        (Some uid)).1 = r.1)
  /\ (isRegistered ev uid = true -> r = (adminAlreadyRegistered, db))
  /\ (isRegistered ev uid = false ->
      code r.1 = 200 /\ success r.1 = true
      /\ events r.2 !! id
         = Some (registerUser now fresh ev (canonical uid) noData)
      /\ isRegistered (registerUser now fresh ev (canonical uid) noData)
           (canonical uid) = true
      /\ users r.2 !! canonical uid
         = Some (set_registeredEvents usr
                   (registeredEvents usr ++
                    [{| event := id; re_registeredAt := now;
                        re_status := confirmed |}])))
  /\ (forall req body,
        req_id req = canonical uid ->
        canRegister (canUserRegister now ev (canonical uid)) = true ->
        users (register now fresh db req id body).2 !! canonical uid
        = Some (set_registeredEvents usr
                  (registeredEvents usr ++
                   [{| event := id; re_registeredAt := now;
                       re_status := registered |}]))).
Proof.
  intros r. split; [| split; [| split]].
  - intros d. subst r. unfold adminRegister.
    rewrite bool_decide_eq_false_2 by exact uid_truthy.
    rewrite events_saveEvent, event_found. simpl. rewrite user_found.
    change (isRegistered (withDeadline ev d) uid) with (isRegistered ev uid).
    by destruct (isRegistered ev uid).
  - apply adminRegister_duplicate.
  - intros Hreg.
    destruct (adminRegister_success Hreg) as (Hc & Hs & He & Hu).
    repeat split; try assumption. apply isRegistered_registerUser.
  - intros req body Hreq Hcan. rewrite <- Hreq in Hcan.
    destruct (register_success now fresh db req id body ev event_found Hcan)
      as (_ & _ & Hu).
    rewrite Hreq in Hu. rewrite Hu, user_found. reflexivity.
Qed.

(** C10: after a successful administrative registration the entry added
    to the roster has status registered, the status [registerUser] writes
    for every caller, and the entry added to the user's [registeredEvents]
    has status confirmed: the two sides disagree. Both entries stay as they
    are through every run of requests that holds neither a status update
    nor an unregistration of that user. The user is named on both sides by
    the id as it is stored, which is the id of the request when the
    request spells it that way. *)
Theorem adminRegister_statuses_disagree :
  isRegistered ev uid = false ->
  let db' := (adminRegister now fresh db id (Some uid)).2 in
  (forall t f u d, status (newParticipant t f u d) = registered)
  /\ exists e' u' p m,
       events db' !! id = Some e'
       /\ last (participants e') = Some p
       /\ user p = canonical uid /\ status p = registered
       /\ users db' !! canonical uid = Some u'
       /\ last (registeredEvents u') = Some m
       /\ event m = id /\ re_status m = confirmed
       /\ status p <> re_status m
       /\ forall rs,
            Forall (keepsEntriesOf (canonical uid)) rs ->
            exists e'' u'',
              events (handleAll db' rs) !! id = Some e''
              /\ users (handleAll db' rs) !! canonical uid = Some u''
              /\ p ∈ participants e'' /\ m ∈ registeredEvents u''.
Proof.
  intros Hreg db'. split; [reflexivity |].
  destruct (adminRegister_success Hreg) as (_ & _ & He & Hu).
  exists (registerUser now fresh ev (canonical uid) noData),
         (pushRegisteredEvent now id confirmed usr),
         (newParticipant now fresh (canonical uid) noData),
         {| event := id; re_registeredAt := now; re_status := confirmed |}.
  split; [exact He |]. split; [simpl; apply last_snoc |].
  split; [reflexivity |]. split; [reflexivity |].
  split; [exact Hu |]. split; [simpl; apply last_snoc |].
  split; [reflexivity |]. split; [reflexivity |].
  split; [discriminate |].
  intros rs Hrs. apply handleAll_keeps_entries with
    (e := registerUser now fresh ev (canonical uid) noData)
    (u := pushRegisteredEvent now id confirmed usr); try done.
  - simpl. apply elem_of_app. right. by left.
  - simpl. apply elem_of_app. right. by left.
Qed.

End AdminRegistration.

Lemma adminRegister_skips_deadline_only_witness :
  deadline (registration sampleRoster) < 6000
  /\ code (adminRegister 6000 "p2" sampleDb "e1" (Some "u2")).1 = 200
  /\ adminRegister 6000 "p3" sampleDb "e1" (Some "u1")
     = (adminAlreadyRegistered, sampleDb).
Proof.
  split; [simpl; lia |].
  pose proof (adminRegister_skips_deadline_only 6000 "p2" sampleDb "e1" "u2"
                sampleRoster (sampleUser "Udo" student)
                eq_refl eq_refl ltac:(discriminate)) as (_ & _ & Hok & _).
  pose proof (adminRegister_skips_deadline_only 6000 "p3" sampleDb "e1" "u1"
                sampleRoster (sampleUser "Uma" student)
                eq_refl eq_refl ltac:(discriminate)) as (_ & Hdup & _).
  split.
  - apply Hok. reflexivity.
  - apply Hdup. reflexivity.
Defined.

Lemma adminRegister_statuses_disagree_witness :
  exists e' u' p m,
    events (adminRegister 6000 "p2" sampleDb "e1" (Some "u2")).2 !! "e1"
    = Some e'
    /\ last (participants e') = Some p
    /\ user p = "u2" /\ status p = registered
    /\ users (adminRegister 6000 "p2" sampleDb "e1" (Some "u2")).2 !! "u2"
       = Some u'
    /\ last (registeredEvents u') = Some m
    /\ event m = "e1" /\ re_status m = confirmed
    /\ status p <> re_status m.
Proof.
  destruct (adminRegister_statuses_disagree 6000 "p2" sampleDb "e1" "u2"
              sampleRoster (sampleUser "Udo" student)
              eq_refl eq_refl ltac:(discriminate) eq_refl)
    as (_ & e' & u' & p & m & H1 & H2 & H3 & H4 & H5 & H6 & H7 & H8 & H9 & _).
  exists e', u', p, m. repeat split; assumption.
Defined.

(** C6 (the code misses the duplicate): the handler looks the user up by
    the id cast from [userId] but tests the roster against [userId] as it
    was spelled. For a user who is on the roster, asked for with the hex
    digits of the id in upper case, it finds the user, does not find the
    roster entry, answers 200 and lists the user a second time: the roster
    then holds the user twice, the counter is 2 and the user's own list
    names the event twice. Spelled as stored, the same request is refused
    with "User is already registered for this event" and changes
    nothing. *)
Theorem adminRegister_misses_respelled_duplicate :
  let r := adminRegister 6000 "p2" rosteredDb storedEventId
             (Some respelledUserId) in
  canonical respelledUserId = storedUserId
  /\ isRegistered rosteredEvent storedUserId = true
  /\ adminRegister 6000 "p2" rosteredDb storedEventId (Some storedUserId)
     = (adminAlreadyRegistered, rosteredDb)
  /\ code r.1 = 200 /\ success r.1 = true
  /\ (map user <$> (participants <$> events r.2 !! storedEventId))
     = Some [storedUserId; storedUserId]
  /\ (currentParticipants <$> (registration <$> events r.2 !! storedEventId))
     = Some 2
  /\ (map (fun m => (event m, re_status m))
      <$> (registeredEvents <$> users r.2 !! storedUserId))
     = Some [(storedEventId, registered); (storedEventId, confirmed)].
Proof. vm_compute. repeat split; reflexivity. Qed.

(** ** Participant status *)

Section ParticipantStatusUpdate.

Lemma parseStatus_statusName (s : ParticipantStatus) :
  parseStatus (JStr (statusName s)) = Some s.
Proof. by destruct s. Qed.

Lemma parseStatus_Some (v : JsVal) (s : ParticipantStatus) :
  parseStatus v = Some s <-> v = JStr (statusName s).
Proof.
  split; [| intros ->; apply parseStatus_statusName].
  destruct v as [| | b | n | str | xs | fs]; simpl; try discriminate.
  repeat case_bool_decide; intros [= <-]; by subst.
Qed.

Lemma parseStatus_None (v : JsVal) :
  parseStatus v = None <-> forall s, v <> JStr (statusName s).
Proof.
  split.
  - intros Hnone s Hv. apply parseStatus_Some in Hv. congruence.
  - intros Hall. destruct (parseStatus v) as [s |] eqn:Hp; [| reflexivity].
    apply parseStatus_Some in Hp. by destruct (Hall s).
Qed.

Lemma findById_None (ps : list Participant) (pid : string) :
  (forall p, p ∈ ps -> _id p <> pid) -> findById ps pid = None.
Proof.
  unfold findById. induction ps as [| q rest IH]; simpl; [done |].
  intros Hall. rewrite bool_decide_eq_false_2.
  - apply IH. intros p Hp. apply Hall. by right.
  - apply Hall. by left.
Qed.

(** The subdocument found is the first one with that [_id], and the
    assignment rewrites that position of the array and no other. *)
Lemma assignStatus_first (pid : string) (s : ParticipantStatus)
    (ps : list Participant) (i : nat) (p : Participant) :
  ps !! i = Some p -> _id p = pid ->
  (forall j q, (j < i)%nat -> ps !! j = Some q -> _id q <> pid) ->
  findById ps pid = Some p
  /\ assignStatus ps pid s = <[i := set_status p s]> ps.
Proof.
  unfold findById. revert i.
  induction ps as [| q rest IH]; intros i Hi Hp Hbefore; [done |].
  destruct i as [| i]; simpl in *.
  - injection Hi as ->. by rewrite bool_decide_eq_true_2.
  - rewrite bool_decide_eq_false_2
      by (apply (Hbefore 0%nat); [lia | reflexivity]).
    destruct (IH i Hi Hp) as [Hf Ha].
    { intros j r Hj Hr. apply (Hbefore (S j)); [lia | exact Hr]. }
    by rewrite Hf, Ha.
Qed.

(** C7: a status value other than the four strings registered, confirmed,
    attended and cancelled is rejected and nothing is stored, so the
    participant keeps its status. For a valid value sent by the organizer
    the participant is looked up by the [_id] of its own record: if no
    record has that [_id] the answer is "Participant not found" and nothing
    is stored; otherwise the status of that record is overwritten in place
    by the new value, whatever its status was, and each of the four values
    is accepted as the new one. *)
Theorem setParticipantStatus_flat_overwrite (db : Db) (req : Requester)
    (eid pid : string) (v : JsVal) :
  (parseStatus v = None <-> forall s, v <> JStr (statusName s))
  /\ (parseStatus v = None ->
      setParticipantStatus db req eid pid v = (invalidStatus, db))
  /\ (forall s, parseStatus (JStr (statusName s)) = Some s)
  /\ forall s ev,
       parseStatus v = Some s ->
       events db !! eid = Some ev ->
       org_user (organizer ev) = req_id req ->
       ((forall p, p ∈ participants ev -> _id p <> pid) ->
        setParticipantStatus db req eid pid v = (participantNotFound, db))
       /\ forall i p,
            participants ev !! i = Some p -> _id p = pid ->
            (forall j q, (j < i)%nat -> participants ev !! j = Some q ->
                         _id q <> pid) ->
            let r := setParticipantStatus db req eid pid v in
            code r.1 = 200
            /\ data r.1 = Some (set_status p s)
            /\ status (set_status p s) = s
            /\ events r.2 !! eid
               = Some (set_participants ev
                         (<[i := set_status p s]> (participants ev))).
Proof.
  split; [apply parseStatus_None |].
  split; [intros Hnone; unfold setParticipantStatus; by rewrite Hnone |].
  split; [apply parseStatus_statusName |].
  intros s ev Hs Hev Horg. split.
  - intros Habsent. unfold setParticipantStatus.
    rewrite Hs, Hev, (bool_decide_eq_true_2 _ Horg). simpl.
    by rewrite (findById_None _ _ Habsent).
  - intros i p Hi Hp Hbefore.
    destruct (assignStatus_first pid s (participants ev) i p Hi Hp Hbefore)
      as [Hf Ha].
    unfold setParticipantStatus.
    rewrite Hs, Hev, (bool_decide_eq_true_2 _ Horg). simpl.
    rewrite Hf, Ha. simpl.
    split; [reflexivity |]. split; [reflexivity |]. split; [reflexivity |].
    apply lookup_insert_eq.
Qed.

Lemma setParticipantStatus_flat_overwrite_witness :
  setParticipantStatus sampleDb {| req_id := "org1"; req_role := professional |}
    "e1" "p1" (JStr "done") = (invalidStatus, sampleDb)
  /\ setParticipantStatus sampleDb
       {| req_id := "org1"; req_role := professional |}
       "e1" "u1" (JStr "attended") = (participantNotFound, sampleDb)
  /\ events
       (setParticipantStatus sampleDb
          {| req_id := "org1"; req_role := professional |}
          "e1" "p1" (JStr "attended")).2 !! "e1"
     = Some (set_participants sampleRoster
               [sampleParticipant "p1" "u1" attended]).
Proof.
  set (org := {| req_id := "org1"; req_role := professional |}).
  split; [| split].
  - pose proof (setParticipantStatus_flat_overwrite sampleDb org
                  "e1" "p1" (JStr "done")) as (_ & Hinvalid & _).
    apply Hinvalid. reflexivity.
  - pose proof (setParticipantStatus_flat_overwrite sampleDb org
                  "e1" "u1" (JStr "attended")) as (_ & _ & _ & Hvalid).
    destruct (Hvalid attended sampleRoster eq_refl eq_refl eq_refl)
      as [Habsent _].
    apply Habsent. intros p Hp. simpl in Hp.
    apply list_elem_of_singleton in Hp. subst p. discriminate.
  - pose proof (setParticipantStatus_flat_overwrite sampleDb org
                  "e1" "p1" (JStr "attended")) as (_ & _ & _ & Hvalid).
    destruct (Hvalid attended sampleRoster eq_refl eq_refl eq_refl)
      as [_ Hfound].
    apply (Hfound 0%nat (sampleParticipant "p1" "u1" registered)
             eq_refl eq_refl).
    intros j q Hj. lia.
Defined.

End ParticipantStatusUpdate.

(** ** The single-event view *)

Section RosterView.

Lemma toObject_without_participants (id : string) (org : JsVal) (e : Event)
    (ps : list Participant) (c : JsVal) :
  delete "participants"
    (<["participantCount" := c]> (toObject id org (set_participants e ps)))
  = delete "participants"
      (<["participantCount" := c]> (toObject id org e)).
Proof.
  apply map_eq. intros k. rewrite !lookup_delete. case_decide; [done |].
  rewrite !lookup_insert. case_decide; [done |].
  unfold toObject. cbn [list_to_map foldr fst snd curry uncurry].
  rewrite !lookup_insert. repeat case_decide; simpl; congruence.
Qed.

Lemma getEvent_nonPrivileged (db : Db) (id : string)
    (viewer : option Requester) (ev : Event) :
  events db !! id = Some ev -> nonPrivileged ev viewer ->
  (viewer = None \/ is_Some (users db !! org_user (organizer ev))) ->
  eventView (getEvent db id viewer).1
  = Some (delete "participants"
            (<["participantCount" :=
                 JNum (Z.of_nat (length (participants ev)))]>
               (toObject id
                  (populateOrganizer (org_user (organizer ev))
                     (users db !! org_user (organizer ev)))
                  (set_views ev (views ev + 1))))).
Proof.
  intros Hev Hnp Hres. unfold getEvent. rewrite Hev. simpl.
  destruct viewer as [r |]; simpl in *.
  - destruct Hres as [Hres | [o Ho]]; [discriminate |].
    destruct Hnp as [Horg Hadm]. rewrite Ho. simpl.
    by rewrite (bool_decide_eq_false_2 _ Horg),
               (bool_decide_eq_false_2 _ Hadm).
  - by destruct (users db !! org_user (organizer ev)).
Qed.

Lemma getEvent_no_data (db : Db) (id : string) (r : Requester) (ev : Event) :
  events db !! id = Some ev ->
  users db !! org_user (organizer ev) = None ->
  data (getEvent db id (Some r)).1 = None.
Proof. intros Hev Hnone. unfold getEvent. by rewrite Hev; simpl; rewrite Hnone. Qed.

(** C3: for a viewer who is neither the organizer nor an administrator,
    the event object of the answer has no key [participants] and has
    [participantCount] equal to the length of the roster at the time of the
    read; and a store that differs only in who is on the roster, with as
    many entries, gives the same event object: the identities of the
    participants do not reach this view. *)
Theorem getEvent_hides_roster (db : Db) (id : string)
    (viewer : option Requester) (ev : Event) :
  events db !! id = Some ev ->
  nonPrivileged ev viewer ->
  (forall obj,
     eventView (getEvent db id viewer).1 = Some obj ->
     obj !! "participants" = None
     /\ obj !! "participantCount"
        = Some (JNum (Z.of_nat (length (participants ev)))))
  /\ ((viewer = None \/ is_Some (users db !! org_user (organizer ev))) ->
      is_Some (eventView (getEvent db id viewer).1))
  /\ (forall ps,
        length ps = length (participants ev) ->
        eventView
          (getEvent (saveEvent db id (set_participants ev ps)) id viewer).1
        = eventView (getEvent db id viewer).1).
Proof.
  intros Hev Hnp.
  assert (Hcases : (viewer = None
                    \/ is_Some (users db !! org_user (organizer ev)))
                   \/ (exists r, viewer = Some r
                       /\ users db !! org_user (organizer ev) = None)).
  { destruct viewer as [r |]; [| by left; left].
    destruct (users db !! org_user (organizer ev)) eqn:Ho.
    - left. right. by eexists.
    - right. by exists r. }
  split; [| split].
  - intros obj Hobj. destruct Hcases as [Hres | (r & -> & Hnone)].
    + rewrite (getEvent_nonPrivileged db id viewer ev Hev Hnp Hres) in Hobj.
      injection Hobj as <-. split.
      * apply lookup_delete_eq.
      * rewrite lookup_delete_ne by discriminate. apply lookup_insert_eq.
    + unfold eventView in Hobj.
      rewrite (getEvent_no_data db id r ev Hev Hnone) in Hobj. discriminate.
  - intros Hres.
    rewrite (getEvent_nonPrivileged db id viewer ev Hev Hnp Hres).
    by eexists.
  - intros ps Hlen. destruct Hcases as [Hres | (r & -> & Hnone)].
    + rewrite (getEvent_nonPrivileged db id viewer ev Hev Hnp Hres).
      rewrite (getEvent_nonPrivileged (saveEvent db id (set_participants ev ps))
                 id viewer (set_participants ev ps));
        [| apply events_saveEvent | exact Hnp | exact Hres].
      simpl. rewrite Hlen. apply (f_equal Some).
      apply (toObject_without_participants id _
               (set_views ev (views ev + 1)) ps).
    + unfold eventView.
      rewrite (getEvent_no_data db id r ev Hev Hnone).
      by rewrite (getEvent_no_data (saveEvent db id (set_participants ev ps))
                    id r (set_participants ev ps)
                    (events_saveEvent db id _) Hnone).
Qed.

Lemma getEvent_hides_roster_witness :
  (exists obj,
     eventView (getEvent sampleDb "e1"
                  (Some {| req_id := "u2"; req_role := student |})).1
     = Some obj
     /\ obj !! "participants" = None
     /\ obj !! "participantCount" = Some (JNum 1))
  /\ eventView
       (getEvent
          (saveEvent sampleDb "e1"
             (set_participants sampleRoster
                [sampleParticipant "p9" "u2" confirmed]))
          "e1" (Some {| req_id := "u2"; req_role := student |})).1
     = eventView (getEvent sampleDb "e1"
                    (Some {| req_id := "u2"; req_role := student |})).1.
Proof.
  assert (Hnp : nonPrivileged sampleRoster
                  (Some {| req_id := "u2"; req_role := student |})).
  { split; discriminate. }
  destruct (getEvent_hides_roster sampleDb "e1"
              (Some {| req_id := "u2"; req_role := student |})
              sampleRoster eq_refl Hnp) as (Hkeys & Hdata & Hsame).
  split.
  - destruct Hdata as [obj Hobj]; [right; by eexists |].
    exists obj. split; [exact Hobj |]. by apply Hkeys.
  - by apply Hsame.
Defined.

(** The organizer and an administrator do get the roster. *)
Example getEvent_organizer_sees_roster :
  exists obj ps,
    eventView (getEvent sampleDb "e1"
                 (Some {| req_id := "org1"; req_role := professional |})).1
    = Some obj
    /\ obj !! "participants" = Some (JArr ps) /\ length ps = 1%nat
    /\ obj !! "participantCount" = None.
Proof. do 2 eexists. split; [reflexivity |]. by vm_compute. Qed.

(** Next to the event object the answer carries [isUserRegistered], which
    tells an authenticated viewer whether the viewer is on the roster. *)
Example getEvent_isUserRegistered :
  ed_isUserRegistered
  <$> data (getEvent sampleDb "e1"
              (Some {| req_id := "u1"; req_role := student |})).1 = Some true
  /\ ed_isUserRegistered
     <$> data (getEvent sampleDb "e1"
                 (Some {| req_id := "u2"; req_role := student |})).1
     = Some false.
Proof. split; reflexivity. Qed.

End RosterView.

(** ** Rating a note *)


Section Rating.

Variables (id u : string) (r : Z).

Let row : RatingRow := {| note_id := id; user_id := u; rating := r |}.

Lemma sameKey_row (x : RatingRow) :
  sameKey x row = true <-> rowKey x = (id, u).
Proof.
  unfold sameKey, rowKey, row. simpl.
  rewrite andb_true_iff, !bool_decide_eq_true. split.
  - by intros [-> ->].
  - by intros [= -> ->].
Qed.

Lemma ratedBy_true (rows : list RatingRow) :
  ratedBy id u rows = true <-> (id, u) ∈ map rowKey rows.
Proof.
  unfold ratedBy. rewrite existsb_exists, list_elem_of_fmap. split.
  - intros (x & Hin & Hx). exists x. split; [| by apply list_elem_of_In].
    symmetry. apply sameKey_row. exact Hx.
  - intros (x & Hx & Hin). exists x. split; [by apply list_elem_of_In |].
    apply sameKey_row. by symmetry.
Qed.

Lemma upsert_new (rows : list RatingRow) :
  ratedBy id u rows = false -> upsert row rows = (rows ++ [row])%list.
Proof.
  unfold ratedBy. induction rows as [| x rest IH]; simpl; [done |].
  intros Hno. apply orb_false_iff in Hno as [Hx Hrest].
  change (sameKey x row) with
    (sameKey x {| note_id := id; user_id := u; rating := 0 |}).
  rewrite Hx. by rewrite IH.
Qed.

Lemma replace_absent (rows : list RatingRow) :
  (id, u) ∉ map rowKey rows ->
  map (fun x => if sameKey x row then row else x) rows = rows.
Proof.
  induction rows as [| x rest IH]; simpl; [done |].
  intros Hno. apply not_elem_of_cons in Hno as [Hx Hrest].
  destruct (sameKey x row) eqn:Hk.
  - apply sameKey_row in Hk. congruence.
  - by rewrite IH.
Qed.

(** On a table with unique keys the upsert rewrites the row of the pair
    where it stands. *)
Lemma upsert_rated (rows : list RatingRow) :
  keysUnique rows -> ratedBy id u rows = true ->
  upsert row rows = map (fun x => if sameKey x row then row else x) rows.
Proof.
  unfold keysUnique, ratedBy.
  induction rows as [| x rest IH]; simpl; [done |].
  intros Hnd Hex. apply NoDup_cons in Hnd as [Hnotin Hnd].
  change (sameKey x {| note_id := id; user_id := u; rating := 0 |})
    with (sameKey x row) in Hex.
  destruct (sameKey x row) eqn:Hk; simpl in *.
  - apply sameKey_row in Hk. rewrite Hk in Hnotin.
    by rewrite (replace_absent rest Hnotin).
  - by rewrite IH.
Qed.

Lemma rowKey_replace (rows : list RatingRow) :
  map rowKey (map (fun x => if sameKey x row then row else x) rows)
  = map rowKey rows.
Proof.
  rewrite map_map. apply map_ext. intros x.
  destruct (sameKey x row) eqn:Hk; [| reflexivity].
  apply sameKey_row in Hk. by rewrite Hk.
Qed.

Lemma keysUnique_upsert (rows : list RatingRow) :
  keysUnique rows -> keysUnique (upsert row rows).
Proof.
  intros Hnd. destruct (ratedBy id u rows) eqn:Hr.
  - rewrite (upsert_rated rows Hnd Hr). unfold keysUnique.
    by rewrite rowKey_replace.
  - rewrite (upsert_new rows Hr). unfold keysUnique. rewrite map_app.
    apply NoDup_app. split; [exact Hnd |]. split; [| apply NoDup_singleton].
    intros k Hk Hk'. apply list_elem_of_singleton in Hk'. subst k.
    apply ratedBy_true in Hk. congruence.
Qed.





(** Whatever the handler answers, the table keeps its key. *)
Lemma rate_keeps_keysUnique (st : Store) :
  keysUnique (note_ratings st) -> keysUnique (note_ratings (rate st u id r).2).
Proof.
  intros Huniq. unfold rate.
  destruct (negb (validRating r)); [done |].
  destruct (notes st !! id) as [note |]; [| done].
  destruct (negb (is_active note)); [done |].
  simpl. by apply keysUnique_upsert.
Qed.


End Rating.


(** From the empty table on, no sequence of submissions leads to two
    ratings of one note by one user. *)
Lemma rateAll_keeps_keysUnique (subs : list (string * Z)) (st : Store) :
  keysUnique (note_ratings st) ->
  keysUnique (note_ratings (rateAll st subs)).
Proof.
  revert st. unfold rateAll.
  induction subs as [| sub subs IH]; intros st Huniq; simpl; [done |].
  apply IH. by apply rate_keeps_keysUnique.
Qed.

(** ** More on the event model *)

Section EventModelMore.

Lemma filter_keeps_all {A : Type} (f : A -> bool) (l : list A) :
  (forall x, x ∈ l -> f x = true) -> List.filter f l = l.
Proof.
  induction l as [| a l IH]; simpl; [done |].
  intros Hall. rewrite (Hall a) by by left.
  f_equal. apply IH. intros x Hx. apply Hall. by right.
Qed.

Lemma roster_without_absent (e : Event) (u : string) :
  isRegistered e u = false ->
  List.filter (fun p => negb (bool_decide (user p = u))) (participants e)
  = participants e.
Proof.
  intros Hreg. apply filter_keeps_all. intros p Hp.
  apply negb_true_iff, bool_decide_eq_false.
  by apply (proj1 (isRegistered_false e u) Hreg).
Qed.

(** The virtual [registrationStatus] and the admission check read the
    deadline the same way: the status is "closed" exactly when the check
    refuses with the deadline reason, for whichever user, and "open"
    otherwise. *)
Theorem registrationStatus_matches_check (now : Z) (e : Event) (u : string) :
  (registrationStatus now e = "closed"
   <-> canUserRegister now e u = deadlinePassed)
  /\ (registrationStatus now e = "open"
      <-> reason (canUserRegister now e u)
          <> Some "Registration deadline has passed")
  /\ (registrationStatus now e = "open" <-> now <= deadline (registration e)).
Proof.
  unfold registrationStatus.
  destruct (canUserRegister_cases now e u)
    as [[Hlt H] | [(Hle & _ & H) | (Hle & _ & H)]]; rewrite H.
  - destruct (Z.ltb_spec (deadline (registration e)) now); [| lia].
    repeat split; try done. lia.
  - destruct (Z.ltb_spec (deadline (registration e)) now); [lia |].
    repeat split; done.
  - destruct (Z.ltb_spec (deadline (registration e)) now); [lia |].
    repeat split; done.
Qed.

Lemma registerUser_undone (now : Z) (fresh : string) (e : Event)
    (u : string) (d : RegistrationData) :
  isRegistered e u = false ->
  0 <= currentParticipants (registration e) ->
  unregisterUser (registerUser now fresh e u d) u = e.
Proof.
  intros Hreg Hc. pose proof (roster_without_absent e u Hreg) as Hf.
  destruct e as [t o [dl mp c] ps st v]. unfold unregisterUser, registerUser.
  simpl in *. rewrite List.filter_app, Hf. simpl.
  rewrite bool_decide_eq_true_2 by done. simpl. rewrite app_nil_r.
  unfold set_currentParticipants, set_participants. simpl.
  replace (Z.max 0 (c + 1 - 1)) with c by lia. reflexivity.
Qed.

(** Registering a user who is not on the roster and unregistering that
    user again gives the event back as it was, roster, counter and all,
    provided the counter was not negative; with a negative counter the
    counter comes back as 0 instead. *)
Theorem unregisterUser_registerUser (now : Z) (fresh : string) (e : Event)
    (u : string) (d : RegistrationData) :
  isRegistered e u = false ->
  (0 <= currentParticipants (registration e) ->
   unregisterUser (registerUser now fresh e u d) u = e)
  /\ participants (unregisterUser (registerUser now fresh e u d) u)
     = participants e
  /\ (currentParticipants (registration e) < 0 ->
      currentParticipants
        (registration (unregisterUser (registerUser now fresh e u d) u))
      = 0).
Proof.
  intros Hreg. split; [by apply registerUser_undone |]. split.
  - simpl. rewrite List.filter_app. simpl.
    rewrite bool_decide_eq_true_2 by done. simpl. rewrite app_nil_r.
    by apply roster_without_absent.
  - intros Hneg. simpl. lia.
Qed.

Lemma unregisterUser_registerUser_witness :
  unregisterUser (registerUser 4000 "p2" sampleRoster "u2" noData) "u2"
  = sampleRoster.
Proof.
  destruct (unregisterUser_registerUser 4000 "p2" sampleRoster "u2" noData
              eq_refl) as (Hback & _).
  apply Hback. simpl. lia.
Defined.

(** [unregisterUser] itself does not ask whether the user is on the
    roster: for a user who is not, the roster stays and the counter still
    goes down by one (not below 0), so a consistent event with a positive
    counter is left inconsistent. The handler's check is what prevents
    this. *)
Theorem unregisterUser_absent_user (e : Event) (u : string) :
  isRegistered e u = false ->
  participants (unregisterUser e u) = participants e
  /\ currentParticipants (registration (unregisterUser e u))
     = Z.max 0 (currentParticipants (registration e) - 1)
  /\ (countConsistent e -> participants e <> [] ->
      ~ countConsistent (unregisterUser e u)).
Proof.
  intros Hreg. pose proof (roster_without_absent e u Hreg) as Hf.
  split; [exact Hf |]. split; [reflexivity |].
  unfold countConsistent. simpl. rewrite Hf. intros Hc Hne.
  destruct (participants e) as [| p ps]; [done |]. simpl length in *. lia.
Qed.

Lemma unregisterUser_absent_user_witness :
  ~ countConsistent (unregisterUser sampleRoster "u2").
Proof.
  destruct (unregisterUser_absent_user sampleRoster "u2" eq_refl)
    as (_ & _ & Hbreak).
  apply Hbreak; [reflexivity | discriminate].
Defined.

(** Neither the admission check nor the registration handler looks at the
    lifecycle status of the event: a draft, cancelled or completed event
    takes registrations like a published one. *)
Theorem register_ignores_event_status (now : Z) (fresh : string) (db : Db)
    (req : Requester) (id : string) (body : RegistrationData) (ev : Event)
    (s : EventStatus) :
  events db !! id = Some ev ->
  canUserRegister now (withEventStatus ev s) (req_id req)
  = canUserRegister now ev (req_id req)
  /\ (register now fresh (saveEvent db id (withEventStatus ev s)) req id
        body).1
     = (register now fresh db req id body).1
  /\ (canRegister (canUserRegister now ev (req_id req)) = true ->
      events (register now fresh (saveEvent db id (withEventStatus ev s))
                req id body).2 !! id
      = Some (withEventStatus
                (registerUser now fresh ev (req_id req) body) s)).
Proof.
  intros Hev. split; [reflexivity |]. unfold register.
  rewrite events_saveEvent, Hev.
  change (canUserRegister now (withEventStatus ev s) (req_id req))
    with (canUserRegister now ev (req_id req)).
  destruct (canRegister (canUserRegister now ev (req_id req))); simpl.
  - split; [reflexivity |]. intros _. apply lookup_insert_eq.
  - split; [reflexivity | discriminate].
Qed.

Lemma register_ignores_event_status_witness :
  code (register 4000 "p2"
          (saveEvent sampleDb "e1" (withEventStatus sampleRoster ev_cancelled))
          {| req_id := "u2"; req_role := student |} "e1" noData).1 = 200.
Proof.
  destruct (register_ignores_event_status 4000 "p2" sampleDb
              {| req_id := "u2"; req_role := student |} "e1" noData
              sampleRoster ev_cancelled eq_refl) as (_ & Hsame & _).
  rewrite Hsame. reflexivity.
Defined.

End EventModelMore.

(** ** More on the registration handlers *)

Section HandlersMore.

(** A request that is refused writes nothing: whenever the registration,
    unregistration, administrative registration or status handler answers
    without success, the store is the one it was given. *)
Theorem refusal_writes_nothing (now : Z) (fresh : string) (db : Db)
    (req : Requester) (id pid : string) (body : RegistrationData)
    (userId : option string) (st : JsVal) :
  (success (register now fresh db req id body).1 = false ->
   (register now fresh db req id body).2 = db)
  /\ (success (unregister db req id).1 = false ->
      (unregister db req id).2 = db)
  /\ (success (adminRegister now fresh db id userId).1 = false ->
      (adminRegister now fresh db id userId).2 = db)
  /\ (success (setParticipantStatus db req id pid st).1 = false ->
      (setParticipantStatus db req id pid st).2 = db).
Proof.
  repeat split.
  - unfold register. destruct (events db !! id); [| done].
    destruct (negb _); [done | discriminate].
  - unfold unregister. destruct (events db !! id); [| done].
    destruct (negb _); [done | discriminate].
  - unfold adminRegister. destruct userId as [uid |]; [| done].
    destruct (bool_decide _); [done |].
    destruct (events db !! id); [| done].
    destruct (users db !! canonical uid); [| done].
    destruct (isRegistered _ _); [done | discriminate].
  - unfold setParticipantStatus. destruct (parseStatus st); [| done].
    destruct (events db !! id); [| done].
    destruct (negb _); [done |].
    destruct (findById _ _); [discriminate | done].
Qed.

Lemma refusal_writes_nothing_witness :
  (register 6000 "p2" sampleDb {| req_id := "u2"; req_role := student |}
     "e1" noData).2 = sampleDb.
Proof.
  destruct (refusal_writes_nothing 6000 "p2" sampleDb
              {| req_id := "u2"; req_role := student |} "e1" "p1" noData
              None JNull) as (Hreg & _).
  apply Hreg. reflexivity.
Defined.

Lemma getEvent_store (db : Db) (id : string) (viewer : option Requester)
    (ev : Event) :
  events db !! id = Some ev ->
  (getEvent db id viewer).2 = saveEvent db id (set_views ev (views ev + 1)).
Proof.
  intros Hev. unfold getEvent. rewrite Hev. simpl.
  by destruct viewer, (users db !! org_user (organizer ev)).
Qed.

Lemma readAll_store (viewers : list (option Requester)) (db : Db)
    (id : string) (ev : Event) :
  events db !! id = Some ev -> viewers <> [] ->
  readAll db id viewers
  = saveEvent db id (set_views ev (views ev + Z.of_nat (length viewers))).
Proof.
  revert db ev. unfold readAll.
  induction viewers as [| v vs IH]; intros db ev Hev Hne; [done |].
  simpl fold_left. rewrite (getEvent_store db id v ev Hev).
  destruct vs as [| v' vs'].
  - reflexivity.
  - rewrite (IH _ (set_views ev (views ev + 1)))
      by (apply events_saveEvent || done).
    unfold saveEvent, set_events, set_views. simpl.
    rewrite insert_insert_eq.
    replace (views ev + 1 + Z.of_nat (S (length vs')))
      with (views ev + Z.of_nat (S (S (length vs')))) by lia.
    reflexivity.
Qed.

(** Every read of a stored event adds exactly one to its view counter and
    writes nothing else, whoever reads it and also when the answer is the
    500 of a viewer whose event has no stored organizer; a missing event
    leaves the store alone. So after n reads the counter is n higher, and
    the roster, the registration record and the users are as before. *)
Theorem getEvent_counts_views (db : Db) (id : string)
    (viewers : list (option Requester)) (ev : Event) :
  events db !! id = Some ev ->
  let db' := readAll db id viewers in
  events db' !! id
  = Some (set_views ev (views ev + Z.of_nat (length viewers)))
  /\ users db' = users db
  /\ (forall id', id' <> id -> events db' !! id' = events db !! id')
  /\ (forall id' v, events db !! id' = None -> (getEvent db id' v).2 = db).
Proof.
  intros Hev db'. assert (Hlast : forall id' v, events db !! id' = None ->
                                   (getEvent db id' v).2 = db).
  { intros id' v Hnone. unfold getEvent. by rewrite Hnone. }
  destruct viewers as [| v vs].
  - subst db'. simpl. rewrite Hev. repeat split; try done.
    destruct ev. unfold set_views. simpl. do 2 f_equal. lia.
  - subst db'. rewrite (readAll_store (v :: vs) db id ev Hev) by done.
    split; [apply events_saveEvent |]. split; [reflexivity |].
    split; [| exact Hlast].
    intros id' Hne. simpl. by rewrite lookup_insert_ne.
Qed.

Lemma getEvent_counts_views_witness :
  views <$> events (readAll sampleDb "e1"
                      [None; Some {| req_id := "u9"; req_role := student |};
                       None]) !! "e1"
  = Some 3.
Proof.
  destruct (getEvent_counts_views sampleDb "e1"
              [None; Some {| req_id := "u9"; req_role := student |}; None]
              sampleRoster eq_refl) as (Hviews & _).
  rewrite Hviews. reflexivity.
Defined.

Lemma pull_after_push (now : Z) (id : string) (s : ParticipantStatus)
    (u : User) :
  isRegisteredForEvent u id = false ->
  pullRegisteredEvent id (pushRegisteredEvent now id s u) = u.
Proof.
  intros Hno. destruct u as [n em ro av inst regs].
  unfold pullRegisteredEvent, pushRegisteredEvent, set_registeredEvents,
    isRegisteredForEvent in *. simpl in *.
  f_equal. rewrite List.filter_app. simpl.
  rewrite bool_decide_eq_true_2 by done. simpl. rewrite app_nil_r.
  apply filter_keeps_all. intros m Hm.
  destruct (bool_decide (event m = id)) eqn:Hd; [| done].
  assert (Hex : existsb (fun reg => bool_decide (event reg = id)) regs = true).
  { apply existsb_exists. exists m. split; [by apply list_elem_of_In | done]. }
  congruence.
Qed.

(** Registering and then unregistering brings the whole store back: the
    event with its roster and counter, and the user's own list, provided
    the counter was not negative and the user's list did not name the
    event before. *)
Theorem unregister_undoes_register (now : Z) (fresh : string) (db : Db)
    (req : Requester) (id : string) (body : RegistrationData) (ev : Event) :
  events db !! id = Some ev ->
  canRegister (canUserRegister now ev (req_id req)) = true ->
  0 <= currentParticipants (registration ev) ->
  (forall u, users db !! req_id req = Some u ->
             isRegisteredForEvent u id = false) ->
  let db1 := (register now fresh db req id body).2 in
  code (unregister db1 req id).1 = 200
  /\ (unregister db1 req id).2 = db.
Proof.
  intros Hev Hcan Hc Hmirror db1.
  assert (Hreg : isRegistered ev (req_id req) = false).
  { destruct (canUserRegister_cases now ev (req_id req))
      as [[_ H] | [(_ & _ & H) | (_ & H & _)]]; try done;
      rewrite H in Hcan; discriminate. }
  assert (Hdb1 : db1 = updateUser
                         (saveEvent db id
                            (registerUser now fresh ev (req_id req) body))
                         (req_id req)
                         (pushRegisteredEvent now id registered)).
  { subst db1. unfold register. by rewrite Hev, Hcan. }
  unfold unregister. rewrite Hdb1, events_updateUser, events_saveEvent.
  rewrite isRegistered_registerUser. simpl. split; [reflexivity |].
  rewrite (registerUser_undone now fresh ev (req_id req) body Hreg Hc).
  destruct db as [evs us].
  unfold updateUser, saveEvent, set_users, set_events. simpl in *. f_equal.
  - rewrite insert_insert_eq. by apply insert_id.
  - rewrite alter_alter_eq. apply alter_id. intros u Hu. simpl.
    apply pull_after_push. by apply Hmirror.
Qed.

Lemma unregister_undoes_register_witness :
  (unregister
     (register 4000 "p2" sampleDb {| req_id := "u2"; req_role := student |}
        "e1" noData).2
     {| req_id := "u2"; req_role := student |} "e1").2 = sampleDb.
Proof.
  apply (unregister_undoes_register 4000 "p2" sampleDb
           {| req_id := "u2"; req_role := student |} "e1" noData
           sampleRoster); try reflexivity.
  - simpl. lia.
  - intros u Hu. vm_compute in Hu. injection Hu as <-. reflexivity.
Defined.

Lemma isRegistered_registerUser_other (now : Z) (fresh : string) (e : Event)
    (u u' : string) (d : RegistrationData) :
  u' <> u ->
  isRegistered (registerUser now fresh e u d) u' = isRegistered e u'.
Proof.
  intros Hne. unfold isRegistered. simpl. rewrite existsb_app. simpl.
  rewrite (bool_decide_eq_false_2 (u = u')) by congruence.
  by rewrite !orb_false_r.
Qed.

Lemma isRegistered_unregisterUser_other (e : Event) (u u' : string) :
  u' <> u ->
  isRegistered (unregisterUser e u) u' = isRegistered e u'.
Proof.
  intros Hne. unfold isRegistered. simpl.
  induction (participants e) as [| p ps IH]; simpl; [done |].
  destruct (bool_decide (user p = u)) eqn:Hp; simpl.
  - apply bool_decide_eq_true in Hp.
    rewrite (bool_decide_eq_false_2 (user p = u')) by congruence. exact IH.
  - by rewrite IH.
Qed.

Lemma isRegistered_assignStatus (e : Event) (pid : string)
    (s : ParticipantStatus) (u : string) :
  isRegistered (set_participants e (assignStatus (participants e) pid s)) u
  = isRegistered e u.
Proof.
  unfold isRegistered. simpl.
  induction (participants e) as [| p ps IH]; simpl; [done |].
  destruct (bool_decide (_id p = pid)); simpl; [done |]. by rewrite IH.
Qed.

Lemma isRegisteredForEvent_push (now : Z) (id id' : string)
    (s : ParticipantStatus) (u : User) :
  isRegisteredForEvent (pushRegisteredEvent now id s u) id'
  = isRegisteredForEvent u id' || bool_decide (id = id').
Proof.
  unfold isRegisteredForEvent. simpl. rewrite existsb_app. simpl.
  by rewrite orb_false_r.
Qed.

Lemma isRegisteredForEvent_pull (id id' : string) (u : User) :
  isRegisteredForEvent (pullRegisteredEvent id u) id'
  = isRegisteredForEvent u id' && negb (bool_decide (id = id')).
Proof.
  unfold isRegisteredForEvent. simpl.
  induction (registeredEvents u) as [| m ms IH]; simpl; [done |].
  destruct (bool_decide (event m = id)) eqn:Hm; simpl.
  - apply bool_decide_eq_true in Hm. rewrite IH, Hm.
    destruct (bool_decide (id = id')); simpl; [| done].
    by rewrite andb_false_r.
  - apply bool_decide_eq_false in Hm. rewrite IH.
    destruct (bool_decide (event m = id')) eqn:Hm'; simpl; [| done].
    apply bool_decide_eq_true in Hm'.
    rewrite (bool_decide_eq_false_2 (id = id')) by congruence. done.
Qed.

Lemma isRegisteredForEvent_setMirroredStatus (id id' : string)
    (s : ParticipantStatus) (u : User) :
  isRegisteredForEvent (setMirroredStatus id s u) id'
  = isRegisteredForEvent u id'.
Proof.
  unfold isRegisteredForEvent. simpl.
  induction (registeredEvents u) as [| m ms IH]; simpl; [done |].
  destruct (bool_decide (event m = id)); simpl; [done |]. by rewrite IH.
Qed.

(** What one save of an event and one update of a user must respect for the
    two sides to stay in agreement. *)
Lemma mirrorSync_write (db : Db) (id0 uid0 : string) (e0 e0' : Event)
    (f : User -> User) :
  mirrorSync db ->
  events db !! id0 = Some e0 ->
  (forall uid, uid <> uid0 -> isRegistered e0' uid = isRegistered e0 uid) ->
  (forall u id, id <> id0 ->
                isRegisteredForEvent (f u) id = isRegisteredForEvent u id) ->
  (forall u, users db !! uid0 = Some u ->
             isRegistered e0' uid0 = isRegisteredForEvent (f u) id0) ->
  mirrorSync (updateUser (saveEvent db id0 e0') uid0 f).
Proof.
  intros Hsync He0 Hevent Huser Hboth id e uid u. simpl.
  rewrite lookup_insert, lookup_alter.
  destruct (decide (id0 = id)) as [<- | Hid];
    destruct (decide (uid0 = uid)) as [<- | Huid].
  - intros [= <-]. destruct (users db !! uid0) as [u0 |] eqn:Hu0; [| done].
    intros [= <-]. by apply Hboth.
  - intros [= <-] Hu. rewrite Hevent by done. by apply Hsync.
  - intros He. destruct (users db !! uid0) as [u0 |] eqn:Hu0; [| done].
    intros [= <-]. rewrite Huser by done. by apply Hsync.
  - intros He Hu. by apply Hsync.
Qed.

Lemma mirrorSync_handle (db : Db) (r : Request) :
  mirrorSync db -> mirrorSync (handle db r).
Proof.
  intros Hsync. destruct r as [now fresh req id body | req id
                              | now fresh id userId | req eid pid st
                              | id viewer]; simpl.
  - unfold register. destruct (events db !! id) as [ev |] eqn:Hev; [| done].
    destruct (negb _); [done |]. simpl.
    apply (mirrorSync_write db id (req_id req) ev); try done.
    + intros uid Hne. by apply isRegistered_registerUser_other.
    + intros u id' Hne. rewrite isRegisteredForEvent_push.
      rewrite (bool_decide_eq_false_2 (id = id')) by congruence.
      apply orb_false_r.
    + intros u _. rewrite isRegistered_registerUser, isRegisteredForEvent_push.
      rewrite bool_decide_eq_true_2 by done. by rewrite orb_true_r.
  - unfold unregister. destruct (events db !! id) as [ev |] eqn:Hev; [| done].
    destruct (negb _); [done |]. simpl.
    apply (mirrorSync_write db id (req_id req) ev); try done.
    + intros uid Hne. by apply isRegistered_unregisterUser_other.
    + intros u id' Hne. rewrite isRegisteredForEvent_pull.
      rewrite (bool_decide_eq_false_2 (id = id')) by congruence.
      apply andb_true_r.
    + intros u _. rewrite isRegistered_unregisterUser,
        isRegisteredForEvent_pull.
      rewrite bool_decide_eq_true_2 by done. by rewrite andb_false_r.
  - unfold adminRegister. destruct userId as [uid0 |]; [| done].
    destruct (bool_decide (uid0 = "")); [done |].
    destruct (events db !! id) as [ev |] eqn:Hev; [| done].
    destruct (users db !! canonical uid0) as [usr0 |]; [| done].
    destruct (isRegistered ev uid0); [done |]. simpl.
    apply (mirrorSync_write db id (canonical uid0) ev); try done.
    + intros uid Hne. by apply isRegistered_registerUser_other.
    + intros u id' Hne. rewrite isRegisteredForEvent_push.
      rewrite (bool_decide_eq_false_2 (id = id')) by congruence.
      apply orb_false_r.
    + intros u _. rewrite isRegistered_registerUser, isRegisteredForEvent_push.
      rewrite bool_decide_eq_true_2 by done. by rewrite orb_true_r.
  - unfold setParticipantStatus. destruct (parseStatus st) as [s |]; [| done].
    destruct (events db !! eid) as [ev |] eqn:Hev; [| done].
    destruct (negb _); [done |].
    destruct (findById _ _) as [p |]; simpl; [| done].
    apply (mirrorSync_write db eid (user p) ev); try done.
    + intros uid _. apply isRegistered_assignStatus.
    + intros u id' _. apply isRegisteredForEvent_setMirroredStatus.
    + intros u Hu. rewrite isRegistered_assignStatus,
        isRegisteredForEvent_setMirroredStatus. by apply (Hsync eid).
  - unfold getEvent. destruct (events db !! id) as [ev |] eqn:Hev; [| done].
    assert (Hs : mirrorSync (saveEvent db id (set_views ev (views ev + 1)))).
    { intros id' e uid u. simpl. rewrite lookup_insert. case_decide.
      - subst id'. intros [= <-] Hu.
        change (isRegistered (set_views ev (views ev + 1)) uid)
          with (isRegistered ev uid). by apply (Hsync id).
      - apply Hsync. }
    simpl. destruct viewer, (users db !! org_user (organizer ev)); exact Hs.
Qed.

(** The roster of an event and the users' own lists stay in agreement
    about who is registered where through every sequence of register,
    unregister, administrative register, status and read requests handled
    one after the other. *)
Theorem handleAll_preserves_mirrorSync (rs : list Request) (db : Db) :
  mirrorSync db -> mirrorSync (handleAll db rs).
Proof.
  revert db. induction rs as [| r rs IH]; intros db Hdb; simpl; [done |].
  apply IH. by apply mirrorSync_handle.
Qed.

Lemma handleAll_preserves_mirrorSync_witness :
  mirrorSync
    (handleAll {| events := {[ "e1" := sampleEvent [] ]};
                  users := {[ "u1" := sampleUser "Uma" student ]} |}
       [PostRegister 4000 "p1" {| req_id := "u1"; req_role := student |}
          "e1" noData;
        DeleteRegister {| req_id := "u1"; req_role := student |} "e1"]).
Proof.
  apply (handleAll_preserves_mirrorSync
           [PostRegister 4000 "p1" {| req_id := "u1"; req_role := student |}
              "e1" noData;
            DeleteRegister {| req_id := "u1"; req_role := student |} "e1"]
           {| events := {[ "e1" := sampleEvent [] ]};
              users := {[ "u1" := sampleUser "Uma" student ]} |}).
  intros id e uid u He Hu. simpl in He, Hu.
  apply lookup_singleton_Some in He as [_ <-].
  apply lookup_singleton_Some in Hu as [_ <-].
  reflexivity.
Defined.

Lemma setFirstStatus_first (eid : string) (s : ParticipantStatus)
    (l : list RegisteredEvent) (i : nat) (m : RegisteredEvent) :
  l !! i = Some m -> event m = eid ->
  (forall j m', (j < i)%nat -> l !! j = Some m' -> event m' <> eid) ->
  setFirstStatus eid s l
  = <[i := {| event := event m; re_registeredAt := re_registeredAt m;
              re_status := s |}]> l.
Proof.
  revert i. induction l as [| x rest IH]; intros i Hi Hm Hbefore; [done |].
  destruct i as [| i]; simpl in *.
  - injection Hi as ->. by rewrite bool_decide_eq_true_2.
  - rewrite bool_decide_eq_false_2
      by (apply (Hbefore 0%nat); [lia | reflexivity]).
    f_equal. apply IH; [done | done |].
    intros j m' Hj Hm'. apply (Hbefore (S j)); [lia | exact Hm'].
Qed.

Lemma setFirstStatus_absent (eid : string) (s : ParticipantStatus)
    (l : list RegisteredEvent) :
  existsb (fun reg => bool_decide (event reg = eid)) l = false ->
  setFirstStatus eid s l = l.
Proof.
  induction l as [| x rest IH]; simpl; [done |].
  intros Hno. apply orb_false_iff in Hno as [Hx Hrest].
  rewrite Hx. by rewrite IH.
Qed.

(** A status update is mirrored to the user of the participant and to
    nobody else: the first entry of that user's list that names the event
    takes the new status, the other entries stay; a user whose list does
    not name the event is left as it is, so the new status is then on the
    roster only. *)
Theorem setParticipantStatus_mirrors_status (db : Db) (req : Requester)
    (eid pid : string) (s : ParticipantStatus) (ev : Event)
    (p : Participant) (u : User) :
  events db !! eid = Some ev ->
  org_user (organizer ev) = req_id req ->
  findById (participants ev) pid = Some p ->
  users db !! user p = Some u ->
  let r := setParticipantStatus db req eid pid (JStr (statusName s)) in
  code r.1 = 200
  /\ users r.2 !! user p = Some (setMirroredStatus eid s u)
  /\ (forall uid, uid <> user p -> users r.2 !! uid = users db !! uid)
  /\ (forall i m,
        registeredEvents u !! i = Some m -> event m = eid ->
        (forall j m', (j < i)%nat -> registeredEvents u !! j = Some m' ->
                      event m' <> eid) ->
        registeredEvents (setMirroredStatus eid s u)
        = <[i := {| event := eid; re_registeredAt := re_registeredAt m;
                    re_status := s |}]> (registeredEvents u))
  /\ (isRegisteredForEvent u eid = false -> setMirroredStatus eid s u = u).
Proof.
  intros Hev Horg Hfind Hu r. subst r. unfold setParticipantStatus.
  rewrite parseStatus_statusName, Hev, (bool_decide_eq_true_2 _ Horg).
  simpl. rewrite Hfind. simpl.
  split; [reflexivity |]. split; [by rewrite lookup_alter_eq, Hu |].
  split; [intros uid Hne; by rewrite lookup_alter_ne |]. split.
  - intros i m Hi Hm Hbefore.
    simpl. rewrite (setFirstStatus_first eid s _ i m Hi Hm Hbefore).
    by rewrite Hm.
  - intros Hno. destruct u as [n em ro av inst regs].
    unfold setMirroredStatus, set_registeredEvents. simpl. f_equal.
    apply setFirstStatus_absent. exact Hno.
Qed.

Lemma setParticipantStatus_mirrors_status_witness :
  users (setParticipantStatus sampleDb
           {| req_id := "org1"; req_role := professional |} "e1" "p1"
           (JStr "attended")).2 !! "u1"
  = Some (sampleUser "Uma" student).
Proof.
  destruct (setParticipantStatus_mirrors_status sampleDb
              {| req_id := "org1"; req_role := professional |} "e1" "p1"
              attended sampleRoster (sampleParticipant "p1" "u1" registered)
              (sampleUser "Uma" student) eq_refl eq_refl eq_refl eq_refl)
    as (_ & Hu & _ & _ & Hsame).
  simpl in Hu. rewrite Hu. apply (f_equal Some). apply Hsame. reflexivity.
Defined.

End HandlersMore.

(** ** The organizer's routes *)

Section OrganizerRoutes.

Lemma countStatus_total (ps : list Participant) (c : StatusCounts) :
  let c' := fold_left countStatus ps c in
  n_registered c' + n_confirmed c' + n_attended c' + n_cancelled c'
  = n_registered c + n_confirmed c + n_attended c + n_cancelled c
    + Z.of_nat (length ps).
Proof.
  revert c. induction ps as [| p ps IH]; intros c; simpl; [lia |].
  rewrite IH. unfold countStatus. destruct (status p); simpl; lia.
Qed.

Lemma countStatus_each (ps : list Participant) (c : StatusCounts) :
  let c' := fold_left countStatus ps c in
  let count s :=
    Z.of_nat (length (List.filter (fun p => bool_decide (status p = s)) ps)) in
  n_registered c' = n_registered c + count registered
  /\ n_confirmed c' = n_confirmed c + count confirmed
  /\ n_attended c' = n_attended c + count attended
  /\ n_cancelled c' = n_cancelled c + count cancelled.
Proof.
  revert c. induction ps as [| p ps IH]; intros c; simpl; [lia |].
  destruct (IH (countStatus c p)) as (H1 & H2 & H3 & H4).
  rewrite H1, H2, H3, H4. unfold countStatus.
  destruct (status p); simpl; lia.
Qed.

(** The analytics of an event are for its organizer only and read only.
    The four counts by status are the numbers of roster entries with that
    status and add up to the total, which is the length of the roster; the
    view count is the stored one. *)
Theorem getAnalytics_counts (db : Db) (req : Requester) (id : string)
    (ev : Event) :
  events db !! id = Some ev ->
  (getAnalytics db req id).2 = db
  /\ (org_user (organizer ev) <> req_id req ->
      data (getAnalytics db req id).1 = None
      /\ code (getAnalytics db req id).1 = 403)
  /\ (org_user (organizer ev) = req_id req ->
      exists a,
        data (getAnalytics db req id).1 = Some a
        /\ totalRegistrations a = Z.of_nat (length (participants ev))
        /\ n_registered (statusDistribution a)
           + confirmedParticipants a + attendedParticipants a
           + cancelledRegistrations a = totalRegistrations a
        /\ (forall s,
              match s with
              | registered => n_registered (statusDistribution a)
              | confirmed => confirmedParticipants a
              | attended => attendedParticipants a
              | cancelled => cancelledRegistrations a
              end
              = Z.of_nat
                  (length (List.filter
                             (fun p => bool_decide (status p = s))
                             (participants ev))))
        /\ confirmedParticipants a = n_confirmed (statusDistribution a)
        /\ attendedParticipants a = n_attended (statusDistribution a)
        /\ cancelledRegistrations a = n_cancelled (statusDistribution a)
        /\ an_views a = views ev).
Proof.
  intros Hev. unfold getAnalytics. rewrite Hev.
  split; [by destruct (negb _) |]. split.
  - intros Hne. by rewrite (bool_decide_eq_false_2 _ Hne).
  - intros Horg. rewrite (bool_decide_eq_true_2 _ Horg). simpl.
    eexists. split; [reflexivity |]. simpl.
    pose proof (countStatus_total (participants ev)
                  {| n_registered := 0; n_confirmed := 0; n_attended := 0;
                     n_cancelled := 0 |}) as Htot.
    pose proof (countStatus_each (participants ev)
                  {| n_registered := 0; n_confirmed := 0; n_attended := 0;
                     n_cancelled := 0 |}) as (H1 & H2 & H3 & H4).
    simpl in *. fold (statusCounts (participants ev)) in *.
    split; [reflexivity |]. split; [lia |].
    split; [intros s; destruct s; lia |].
    repeat split.
Qed.

Lemma getAnalytics_counts_witness :
  exists a,
    data (getAnalytics sampleDb
            {| req_id := "org1"; req_role := professional |} "e1").1 = Some a
    /\ totalRegistrations a = 1
    /\ n_registered (statusDistribution a) = 1.
Proof.
  destruct (getAnalytics_counts sampleDb
              {| req_id := "org1"; req_role := professional |} "e1"
              sampleRoster eq_refl) as (_ & _ & Horg).
  destruct (Horg eq_refl) as (a & Ha & Htot & _ & Heach & _).
  exists a. split; [exact Ha |]. split; [exact Htot |].
  exact (Heach registered).
Defined.

(** The roster route answers the organizer of the event and nobody else,
    an administrator included, and writes nothing. The organizer gets the
    roster with the user profiles filled in, its length as
    [totalParticipants] and the maximum of the event. *)
Theorem getParticipants_organizer_only (db : Db) (req : Requester)
    (id : string) (ev : Event) :
  events db !! id = Some ev ->
  (getParticipants db req id).2 = db
  /\ (org_user (organizer ev) <> req_id req ->
      (getParticipants db req id).1
      = failure 403
          "Access denied. Only event organizer can view participants.")
  /\ (org_user (organizer ev) = req_id req ->
      data (getParticipants db req id).1
      = Some {| pd_participants := populatedParticipants db ev;
                pd_totalParticipants :=
                  Z.of_nat (length (participants ev));
                pd_maxParticipants := maxParticipants (registration ev) |}).
Proof.
  intros Hev. unfold getParticipants. rewrite Hev.
  split; [by destruct (negb _) |]. split.
  - intros Hne. by rewrite (bool_decide_eq_false_2 _ Hne).
  - intros Horg. by rewrite (bool_decide_eq_true_2 _ Horg).
Qed.

Lemma getParticipants_organizer_only_witness :
  (getParticipants sampleDb {| req_id := "u2"; req_role := admin |} "e1").1
  = failure 403 "Access denied. Only event organizer can view participants.".
Proof.
  destruct (getParticipants_organizer_only sampleDb
              {| req_id := "u2"; req_role := admin |} "e1" sampleRoster
              eq_refl) as (_ & Hdenied & _).
  apply Hdenied. discriminate.
Defined.

(** An administrator who is not the organizer of an event is refused by the
    roster route, the analytics route and the status route, but is shown
    the roster by the single-event route, profiles filled in, exactly as
    the roster route shows it to the organizer, and may delete the
    event. *)
Theorem admin_reads_roster_in_event_view (st : Site) (req : Requester)
    (id pid : string) (v : JsVal) (ev : Event) (s : ParticipantStatus) :
  let db := site_db st in
  events db !! id = Some ev ->
  req_role req = admin ->
  org_user (organizer ev) <> req_id req ->
  is_Some (users db !! org_user (organizer ev)) ->
  parseStatus v = Some s ->
  code (getParticipants db req id).1 = 403
  /\ code (getAnalytics db req id).1 = 403
  /\ code (setParticipantStatus db req id pid v).1 = 403
  /\ (exists obj,
        eventView (getEvent db id (Some req)).1 = Some obj
        /\ obj !! "participants" = Some (populatedParticipants db ev)
        /\ forall org, req_id org = org_user (organizer ev) ->
             pd_participants <$> data (getParticipants db org id).1
             = obj !! "participants")
  /\ code (deleteEvent st req id).1 = 200.
Proof.
  intros db Hev Hadmin Hne [o Ho] Hs.
  split; [unfold getParticipants;
          by rewrite Hev, (bool_decide_eq_false_2 _ Hne) |].
  split; [unfold getAnalytics;
          by rewrite Hev, (bool_decide_eq_false_2 _ Hne) |].
  split; [unfold setParticipantStatus;
          by rewrite Hs, Hev, (bool_decide_eq_false_2 _ Hne) |].
  split.
  - unfold getEvent, eventView. rewrite Hev. simpl. rewrite Ho. simpl.
    rewrite (bool_decide_eq_false_2 _ Hne), (bool_decide_eq_true_2 _ Hadmin).
    simpl. eexists. split; [reflexivity |].
    split; [apply lookup_insert_eq |].
    intros org Horg. unfold getParticipants. rewrite Hev.
    rewrite (bool_decide_eq_true_2 (org_user (organizer ev) = req_id org))
      by done.
    simpl. by rewrite lookup_insert_eq.
  - unfold deleteEvent. fold db. rewrite Hev.
    rewrite (bool_decide_eq_true_2 _ Hadmin). simpl.
    by rewrite andb_false_r.
Qed.

Lemma admin_reads_roster_in_event_view_witness :
  code (getParticipants sampleDb {| req_id := "u2"; req_role := admin |}
          "e1").1 = 403
  /\ exists obj,
       eventView (getEvent sampleDb "e1"
                    (Some {| req_id := "u2"; req_role := admin |})).1
       = Some obj
       /\ obj !! "participants"
          = Some (populatedParticipants sampleDb sampleRoster).
Proof.
  destruct (admin_reads_roster_in_event_view sampleSite
              {| req_id := "u2"; req_role := admin |} "e1" "p1"
              (JStr "attended") sampleRoster attended eq_refl eq_refl
              ltac:(discriminate) ltac:(by eexists) eq_refl)
    as (Hp & _ & _ & (obj & Hobj & Hps & _) & _).
  split; [exact Hp |]. exists obj. by split.
Defined.

(** Deleting an event is for its organizer and for administrators; anyone
    else is refused and nothing changes. A deletion removes the event and
    takes its id from the organizer's hosted list; it leaves every user
    document as it is, so the entries that name the event in the
    participants' own lists stay behind, and from then on the register and
    unregister routes answer "Event not found" for it. *)
Theorem deleteEvent_leaves_registrations (st : Site) (req : Requester)
    (id : string) (ev : Event) :
  events (site_db st) !! id = Some ev ->
  let r := deleteEvent st req id in
  (org_user (organizer ev) <> req_id req -> req_role req <> admin ->
   code r.1 = 403 /\ r.2 = st)
  /\ (org_user (organizer ev) = req_id req \/ req_role req = admin ->
      code r.1 = 200
      /\ events (site_db r.2) !! id = None
      /\ (forall id', id' <> id ->
            events (site_db r.2) !! id' = events (site_db st) !! id')
      /\ users (site_db r.2) = users (site_db st)
      /\ (forall l, hosted r.2 !! org_user (organizer ev) = Some l ->
                    is_Some (users (site_db st) !! org_user (organizer ev)) ->
                    id ∉ l)
      /\ (forall uid, uid <> org_user (organizer ev) ->
                      hosted r.2 !! uid = hosted st !! uid)
      /\ (forall now fresh who body,
            (register now fresh (site_db r.2) who id body).1
            = failure 404 "Event not found")
      /\ (forall who,
            (unregister (site_db r.2) who id).1
            = failure 404 "Event not found")).
Proof.
  intros Hev r. subst r. unfold deleteEvent. rewrite Hev. split.
  - intros Horg Hadm.
    by rewrite (bool_decide_eq_false_2 _ Horg),
               (bool_decide_eq_false_2 _ Hadm).
  - intros Hmay.
    assert (Hgate : negb (bool_decide (org_user (organizer ev) = req_id req))
                    && negb (bool_decide (req_role req = admin)) = false).
    { destruct Hmay as [H | H]; rewrite (bool_decide_eq_true_2 _ H); simpl;
        [done | apply andb_false_r]. }
    rewrite Hgate. simpl.
    split; [reflexivity |]. split; [apply lookup_delete_eq |].
    split; [intros id' Hne; by apply lookup_delete_ne |].
    split; [reflexivity |]. split.
    { intros l Hl [o Ho]. unfold updateHosted in Hl. rewrite Ho in Hl.
      rewrite lookup_insert_eq in Hl. injection Hl as <-.
      rewrite list_elem_of_In, filter_In, negb_true_iff,
        bool_decide_eq_false. tauto. }
    split.
    { intros uid Hne. unfold updateHosted.
      destruct (users (site_db st) !! org_user (organizer ev)); [| done].
      by rewrite lookup_insert_ne. }
    split.
    + intros now fresh who body. unfold register. simpl.
      by rewrite lookup_delete_eq.
    + intros who. unfold unregister. simpl. by rewrite lookup_delete_eq.
Qed.

Lemma deleteEvent_leaves_registrations_witness :
  let st := {| site_db :=
                 (register 4000 "p2" sampleDb
                    {| req_id := "u2"; req_role := student |} "e1"
                    noData).2;
               hosted := {[ "org1" := ["e1"] ]} |} in
  let st' := (deleteEvent st {| req_id := "org1"; req_role := professional |}
                "e1").2 in
  events (site_db st') !! "e1" = None
  /\ (fun u => isRegisteredForEvent u "e1") <$> users (site_db st') !! "u2"
     = Some true.
Proof.
  intros st st'.
  destruct (deleteEvent_leaves_registrations st
              {| req_id := "org1"; req_role := professional |} "e1"
              (registerUser 4000 "p2" sampleRoster "u2" noData) eq_refl)
    as (_ & Hok).
  destruct (Hok (or_introl eq_refl)) as (_ & Hgone & _ & Husers & _).
  split; [exact Hgone |]. subst st'. rewrite Husers. reflexivity.
Defined.

End OrganizerRoutes.

(** ** Creating events *)

Section EventCreation.

Lemma capitalize_in_typeEnum (c : Category) :
  bool_decide (capitalize (categoryName c) ∈ typeEnum)
  = negb (bool_decide (c = tech_fest)).
Proof.
  destruct c; vm_compute; reflexivity.
Qed.

Lemma createEvent_cases (now : Z) (fresh : string) (st : Site)
    (req : Requester) (reqName : string) (b : EventBody) :
  let r := createEvent now fresh st req reqName b in
  (now < b_start b /\ b_start b < b_end b /\ b_deadline b < b_start b
   /\ b_category b <> tech_fest
   /\ r = ({| code := 201; success := true;
              message := Some "Event created successfully";
              data := Some fresh |},
           {| site_db := saveEvent (site_db st) fresh
                           (newEvent req reqName b);
              hosted := updateHosted
                          {| site_db := saveEvent (site_db st) fresh
                                          (newEvent req reqName b);
                             hosted := hosted st |}
                          (req_id req) (fun l => (l ++ [fresh])%list) |}))
  \/ (~ (now < b_start b /\ b_start b < b_end b /\ b_deadline b < b_start b
         /\ b_category b <> tech_fest)
      /\ success r.1 = false /\ (code r.1 = 400 \/ code r.1 = 500)
      /\ r.2 = st).
Proof.
  unfold createEvent.
  destruct (Z.leb_spec (b_start b) now); [right; split; [lia | auto] |].
  destruct (Z.leb_spec (b_end b) (b_start b)); [right; split; [lia | auto] |].
  destruct (Z.leb_spec (b_start b) (b_deadline b));
    [right; split; [lia | auto] |].
  rewrite capitalize_in_typeEnum, negb_involutive.
  case_bool_decide as Hc.
  - right. split; [tauto | auto].
  - left. auto.
Qed.

(** An event is created exactly when its start is in the future, its end
    after its start, its registration deadline before its start, and its
    category is not tech-fest: the type computed for that category,
    "Tech-fest", is not among the types the schema accepts, so such an
    event is answered with the 500. Anything but a creation leaves the
    site as it was. A created event is stored under the new id with the
    requester as its organizer; its deadline is not compared with the
    current time, so its registration is closed from the start when the
    deadline is already over. *)
Theorem createEvent_accepts (now : Z) (fresh : string) (st : Site)
    (req : Requester) (reqName : string) (b : EventBody) :
  let r := createEvent now fresh st req reqName b in
  (code r.1 = 201
   <-> now < b_start b /\ b_start b < b_end b /\ b_deadline b < b_start b
       /\ b_category b <> tech_fest)
  /\ (code r.1 <> 201 -> success r.1 = false /\ r.2 = st)
  /\ (now < b_start b -> b_start b < b_end b -> b_deadline b < b_start b ->
      b_category b = tech_fest -> code r.1 = 500)
  /\ (code r.1 = 201 ->
      data r.1 = Some fresh
      /\ events (site_db r.2) !! fresh = Some (newEvent req reqName b)
      /\ org_user (organizer (newEvent req reqName b)) = req_id req
      /\ users (site_db r.2) = users (site_db st)
      /\ b_deadline b < b_end b
      /\ (registrationStatus now (newEvent req reqName b) = "closed"
          <-> b_deadline b < now)).
Proof.
  intros r. subst r.
  destruct (createEvent_cases now fresh st req reqName b)
    as [(H1 & H2 & H3 & H4 & Hr) | (Hno & Hs & Hcode & Hst)].
  - rewrite Hr. simpl. split; [tauto |]. split; [done |].
    split; [intros _ _ _ Ht; contradiction |]. intros _.
    split; [reflexivity |]. split; [apply lookup_insert_eq |].
    split; [reflexivity |]. split; [reflexivity |]. split; [lia |].
    unfold registrationStatus. simpl.
    destruct (Z.ltb_spec (b_deadline b) now); split; (done || lia).
  - split; [split; [intros Hc; lia | tauto] |].
    split; [auto |]. split.
    + intros H1 H2 H3 Ht. unfold createEvent.
      destruct (Z.leb_spec (b_start b) now); [lia |].
      destruct (Z.leb_spec (b_end b) (b_start b)); [lia |].
      destruct (Z.leb_spec (b_start b) (b_deadline b)); [lia |].
      rewrite capitalize_in_typeEnum, Ht. reflexivity.
    + intros Hc. lia.
Qed.

Lemma createEvent_accepts_witness :
  code (createEvent 7500 "e2" sampleSite
          {| req_id := "org1"; req_role := professional |} "Olga"
          (sampleBody tech_fest)).1 = 500
  /\ registrationStatus 7500
       (newEvent {| req_id := "org1"; req_role := professional |} "Olga"
          (sampleBody workshop)) = "closed".
Proof.
  destruct (createEvent_accepts 7500 "e2" sampleSite
              {| req_id := "org1"; req_role := professional |} "Olga"
              (sampleBody tech_fest)) as (_ & _ & Htech & _).
  destruct (createEvent_accepts 7500 "e2" sampleSite
              {| req_id := "org1"; req_role := professional |} "Olga"
              (sampleBody workshop)) as (Hiff & _ & _ & Hmade).
  split.
  - apply Htech; simpl; (lia || reflexivity).
  - apply Hmade; [| simpl; lia].
    apply Hiff. simpl. repeat split; (lia || discriminate).
Defined.

(** The organizer of a created event is the requester whatever the body
    holds, but the roster, the counter, the status and the view count are
    taken from the body when it carries them. Without them the event starts
    as a draft with an empty roster, counter 0 and no views; with a roster
    and no counter in the body it starts with a counter that disagrees
    with its roster. *)
Theorem newEvent_takes_body_fields (req : Requester) (reqName : string)
    (b : EventBody) :
  let e := newEvent req reqName b in
  org_user (organizer e) = req_id req
  /\ (b_participants b = None -> b_currentParticipants b = None ->
      b_status b = None -> b_views b = None ->
      participants e = [] /\ rosterSound e /\ ev_status e = draft
      /\ views e = 0)
  /\ (forall ps, b_participants b = Some ps ->
                 participants e = ps
                 /\ (b_currentParticipants b = None -> ps <> [] ->
                     ~ countConsistent e))
  /\ (forall c, b_currentParticipants b = Some c ->
                currentParticipants (registration e) = c)
  /\ (forall s, b_status b = Some s -> ev_status e = s)
  /\ (forall v, b_views b = Some v -> views e = v).
Proof.
  intros e. subst e. unfold newEvent, rosterSound, countConsistent. simpl.
  split; [reflexivity |]. split.
  - intros -> -> -> ->. simpl. repeat split. constructor.
  - split.
    + intros ps ->. simpl. split; [reflexivity |].
      intros -> Hne. simpl. destruct ps; [done |]. simpl length. lia.
    + split; [by intros c -> |].
      split; [by intros s -> | by intros v ->].
Qed.

Lemma newEvent_takes_body_fields_witness :
  ~ countConsistent
      (newEvent {| req_id := "org1"; req_role := professional |} "Olga"
         {| b_title := "Winter school"; b_category := workshop;
            b_start := 8000; b_end := 9000; b_deadline := 7000;
            b_maxParticipants := None; b_currentParticipants := None;
            b_participants := Some [sampleParticipant "p1" "u1" attended];
            b_status := None; b_views := None |}).
Proof.
  destruct (newEvent_takes_body_fields
              {| req_id := "org1"; req_role := professional |} "Olga"
              {| b_title := "Winter school"; b_category := workshop;
                 b_start := 8000; b_end := 9000; b_deadline := 7000;
                 b_maxParticipants := None; b_currentParticipants := None;
                 b_participants :=
                   Some [sampleParticipant "p1" "u1" attended];
                 b_status := None; b_views := None |})
    as (_ & _ & Hroster & _).
  destruct (Hroster [sampleParticipant "p1" "u1" attended] eq_refl)
    as [_ Hbad].
  apply Hbad; [reflexivity | discriminate].
Defined.

(** Creating an event and deleting it again, by its organizer, gives the
    site back as it was, when the new id was not in use and the organizer
    is a stored user whose hosted list is there and does not hold that
    id. *)
Theorem deleteEvent_undoes_createEvent (now : Z) (fresh : string) (st : Site)
    (req : Requester) (reqName : string) (b : EventBody) (l : list string) :
  code (createEvent now fresh st req reqName b).1 = 201 ->
  events (site_db st) !! fresh = None ->
  is_Some (users (site_db st) !! req_id req) ->
  hosted st !! req_id req = Some l ->
  fresh ∉ l ->
  let st1 := (createEvent now fresh st req reqName b).2 in
  code (deleteEvent st1 req fresh).1 = 200
  /\ (deleteEvent st1 req fresh).2 = st.
Proof.
  intros Hcode Hfresh [o Ho] Hl Hnotin st1.
  destruct (createEvent_cases now fresh st req reqName b)
    as [(_ & _ & _ & _ & Hr) | (_ & _ & Hc & _)]; [| lia].
  subst st1. rewrite Hr. unfold deleteEvent. simpl.
  rewrite lookup_insert_eq. simpl.
  rewrite bool_decide_eq_true_2 by done. simpl.
  split; [reflexivity |].
  destruct st as [[evs us] hs]. unfold updateHosted. simpl in *.
  rewrite Ho, Hl. simpl. rewrite lookup_insert_eq. simpl.
  unfold set_events. simpl. f_equal.
  - f_equal. rewrite delete_insert_eq. by apply delete_id.
  - rewrite insert_insert_eq. rewrite List.filter_app. simpl.
    rewrite bool_decide_eq_true_2 by done. simpl. rewrite app_nil_r.
    rewrite filter_keeps_all.
    + by apply insert_id.
    + intros h Hh. apply negb_true_iff, bool_decide_eq_false. congruence.
Qed.

Lemma deleteEvent_undoes_createEvent_witness :
  (deleteEvent
     (createEvent 6000 "e2" sampleSite
        {| req_id := "org1"; req_role := professional |} "Olga"
        (sampleBody workshop)).2
     {| req_id := "org1"; req_role := professional |} "e2").2 = sampleSite.
Proof.
  apply (deleteEvent_undoes_createEvent 6000 "e2" sampleSite
           {| req_id := "org1"; req_role := professional |} "Olga"
           (sampleBody workshop) ["e1"]); try reflexivity.
  - by eexists.
  - intros Hin. apply list_elem_of_singleton in Hin. discriminate.
Defined.

End EventCreation.

(** ** The list of events *)

Section EventList.

Variable matches : Event -> bool.
Variable sortBy : list (string * Event) -> list (string * Event).

(** The order asked for only arranges the documents found. *)
Hypothesis sortBy_perm : forall l, sortBy l ≡ₚ l.

Lemma sortBy_elem (l : list (string * Event)) (x : string * Event) :
  x ∈ sortBy l -> x ∈ l.
Proof. by rewrite (sortBy_perm l). Qed.

Lemma length_findPublished (db : Db) :
  length (findPublished matches sortBy db) = length (matching matches db).
Proof. unfold findPublished. by rewrite (sortBy_perm _). Qed.

Lemma div_lt_iff (p t l : Z) :
  0 < l -> (inject_Z p < inject_Z t / inject_Z l)%Q <-> p * l < t.
Proof.
  intros Hl. destruct l as [| pl | pl]; try lia.
  unfold Qlt, Qdiv, Qmult, Qinv, inject_Z. simpl. lia.
Qed.

Lemma pageCount_gt (p t l : Z) :
  0 < l -> p < pageCount t l <-> p * l < t.
Proof.
  intros Hl. unfold pageCount. rewrite <- (div_lt_iff p t l Hl).
  set (x := (inject_Z t / inject_Z l)%Q). split.
  - intros Hp. apply Qle_lt_trans with (y := inject_Z (Qceiling x - 1)).
    + rewrite <- Zle_Qle. lia.
    + apply Qceiling_lt.
  - intros Hp. rewrite Zlt_Qlt.
    eapply Qlt_le_trans; [exact Hp | apply Qle_ceiling].
Qed.

Lemma listItem_roster (db : Db) (viewer : option Requester)
    (ie : string * Event) :
  listItem db viewer ie !! "participants"
  = Some (JArr (map (fun p => participantObject (JStr (user p)) p)
                    (participants ie.2)))
  /\ listItem db viewer ie !! "participantCount" = None.
Proof.
  unfold listItem. destruct viewer as [r |].
  - rewrite !lookup_insert_ne by discriminate. split; reflexivity.
  - split; reflexivity.
Qed.

(** The list route hands out the roster of every event it lists, to any
    viewer and to anonymous requests: each element of the answer is a
    stored, published event that passes the filters, and carries under
    [participants] one object per roster entry with the user id, the phone
    number and the other registration fields; there is no count in its
    place as in the single-event view. *)
Theorem listEvents_exposes_rosters (db : Db) (q : ListQuery)
    (viewer : option Requester) (d : ListData) :
  data (listEvents matches sortBy db q viewer) = Some d ->
  forall obj, obj ∈ ld_events d ->
    exists id e,
      events db !! id = Some e
      /\ ev_status e = published /\ matches e = true
      /\ obj !! "participants"
         = Some (JArr (map (fun p => participantObject (JStr (user p)) p)
                           (participants e)))
      /\ obj !! "participantCount" = None.
Proof.
  unfold listEvents. destruct (negb (validListQuery q)); [discriminate |].
  simpl. intros [= <-] obj Hobj. simpl in Hobj.
  apply list_elem_of_fmap in Hobj as ([id e] & -> & Hin).
  apply elem_of_take in Hin as (i & Hi & _). rewrite lookup_drop in Hi.
  apply list_elem_of_lookup_2 in Hi as Hin.
  unfold findPublished in Hin. apply sortBy_elem in Hin.
  unfold matching in Hin.
  apply list_elem_of_In, filter_In in Hin as [Hin Hf].
  apply list_elem_of_In, elem_of_map_to_list in Hin.
  apply andb_true_iff in Hf as [Hpub Hm]. apply bool_decide_eq_true in Hpub.
  exists id, e. split; [exact Hin |]. split; [exact Hpub |].
  split; [exact Hm |]. apply (listItem_roster db viewer (id, e)).
Qed.

(** Paging: a query with a page below 1 or a limit outside 1..100 is
    refused. Otherwise the answer holds the documents found from position
    (page - 1) * limit on, at most limit of them, with page 1 and limit 10
    when the query leaves them out; the total is the number found;
    [hasNext] says exactly that documents remain after this page, [hasPrev]
    that the page is not the first, and a page after the last one is
    empty. *)
Theorem listEvents_pages (db : Db) (q : ListQuery)
    (viewer : option Requester) :
  let r := listEvents matches sortBy db q viewer in
  let page := orNum (q_page q) 1 in
  let limit := orNum (q_limit q) 10 in
  let found := findPublished matches sortBy db in
  (validListQuery q = false -> r = failure 400 "Invalid query parameters")
  /\ (validListQuery q = true ->
      1 <= page /\ 1 <= limit <= 100
      /\ exists d,
           data r = Some d
           /\ ld_events d
              = map (listItem db viewer)
                    (take (Z.to_nat limit)
                       (drop (Z.to_nat ((page - 1) * limit)) found))
           /\ Z.of_nat (length (ld_events d)) <= limit
           /\ total (ld_pagination d) = Z.of_nat (length found)
           /\ current (ld_pagination d) = page
           /\ (hasNext (ld_pagination d) = true
               <-> drop (Z.to_nat (page * limit)) found <> [])
           /\ (hasPrev (ld_pagination d) = true <-> 1 < page)
           /\ (pages (ld_pagination d) < page -> ld_events d = [])).
Proof.
  intros r page limit found. subst r. unfold listEvents. split.
  - by intros ->.
  - intros Hvalid. rewrite Hvalid. simpl.
    assert (Hpage : 1 <= page).
    { subst page. unfold validListQuery in Hvalid.
      apply andb_true_iff in Hvalid as [Hp _].
      unfold orNum. destruct (q_page q) as [p |]; [| lia].
      destruct (Z.eqb_spec p 0); lia. }
    assert (Hlimit : 1 <= limit <= 100).
    { subst limit. unfold validListQuery in Hvalid.
      apply andb_true_iff in Hvalid as [_ Hl].
      unfold orNum. destruct (q_limit q) as [l |]; [| lia].
      destruct (Z.eqb_spec l 0); lia. }
    split; [exact Hpage |]. split; [exact Hlimit |].
    eexists. split; [reflexivity |]. simpl.
    rewrite <- (length_findPublished db).
    fold page limit found.
    split; [reflexivity |]. split.
    { rewrite length_map, length_take. lia. }
    split; [reflexivity |]. split; [reflexivity |]. split.
    { rewrite Z.ltb_lt, pageCount_gt by lia. split.
      - intros Hlt Hnil.
        apply (f_equal length) in Hnil. rewrite length_drop in Hnil.
        simpl in Hnil. lia.
      - intros Hne. destruct (Z.lt_ge_cases (page * limit)
                                (Z.of_nat (length found))); [done |].
        exfalso. apply Hne. apply drop_ge. lia. }
    split; [apply Z.ltb_lt |].
    intros Hlast.
    assert (Hskip : ~ (page - 1 < pageCount (Z.of_nat (length found)) limit))
      by lia.
    rewrite pageCount_gt in Hskip by lia.
    rewrite drop_ge by lia. by rewrite take_nil.
Qed.

End EventList.

Lemma listEvents_exposes_rosters_witness :
  exists obj,
    (ld_events <$> data (listEvents (fun _ => true) (fun l => l) sampleDb
                           {| q_page := None; q_limit := None |} None))
    = Some [obj]
    /\ obj !! "participants"
       = Some (JArr [participantObject (JStr "u1")
                       (sampleParticipant "p1" "u1" registered)]).
Proof.
  eexists. split; [reflexivity |].
  assert (Hd : data (listEvents (fun _ => true) (fun l => l) sampleDb
                       {| q_page := None; q_limit := None |} None)
               = Some {| ld_events :=
                           [listItem sampleDb None ("e1", sampleRoster)];
                         ld_pagination :=
                           {| current := 1; pages := 1; total := 1;
                              hasNext := false; hasPrev := false |} |})
    by reflexivity.
  destruct (listEvents_exposes_rosters (fun _ => true) (fun l => l)
              (fun l => reflexivity l) sampleDb
              {| q_page := None; q_limit := None |} None _ Hd
              (listItem sampleDb None ("e1", sampleRoster)))
    as (id & e & He & _ & _ & Hps & _); [by left |].
  reflexivity.
Defined.

Lemma listEvents_pages_witness :
  exists d,
    data (listEvents (fun _ => true) (fun l => l) sampleDb
            {| q_page := Some 2; q_limit := Some 1 |} None) = Some d
    /\ ld_events d = []
    /\ hasPrev (ld_pagination d) = true
    /\ hasNext (ld_pagination d) = false.
Proof.
  destruct (listEvents_pages (fun _ => true) (fun l => l)
              (fun l => reflexivity l) sampleDb
              {| q_page := Some 2; q_limit := Some 1 |} None)
    as (_ & Hvalid).
  destruct (Hvalid eq_refl)
    as (_ & _ & d & Hd & _ & _ & _ & _ & Hnext & Hprev & Hlast).
  exists d. split; [exact Hd |].
  assert (Hpages : pages (ld_pagination d) = 1).
  { vm_compute in Hd. injection Hd as <-. reflexivity. }
  split; [apply Hlast; rewrite Hpages; reflexivity |].
  split; [apply Hprev; reflexivity |].
  apply not_true_iff_false. intros Hn. by apply Hnext in Hn.
Defined.

(** ** Bookmarks and soft deletion of notes *)

Section NoteBookmarks.

Lemma includes_true (l : list string) (u : string) :
  includes l u = true <-> u ∈ l.
Proof.
  unfold includes. rewrite existsb_exists. split.
  - intros (x & Hin & Hx). apply bool_decide_eq_true in Hx. subst x.
    by apply list_elem_of_In.
  - intros Hin. exists u. split; [by apply list_elem_of_In |].
    by apply bool_decide_eq_true.
Qed.

Lemma includes_false (l : list string) (u : string) :
  includes l u = false <-> u ∉ l.
Proof. rewrite <- not_true_iff_false, includes_true. tauto. Qed.

Lemma selectActive_Some (tbl : gmap string NoteRow) (id : string)
    (row : NoteRow) :
  selectActive tbl id = Some row <-> tbl !! id = Some row /\ active row = true.
Proof.
  unfold selectActive. destruct (tbl !! id) as [row' |].
  - destruct (active row') eqn:Ha.
    + split; [by intros [= <-] | by intros [[= <-] _]].
    + split; [discriminate | intros [[= <-] Hact]; congruence].
  - split; [discriminate | by intros [? _]].
Qed.

Lemma savedBy_set_saved_by (row : NoteRow) (l : list string) :
  savedBy (set_saved_by row l) = l.
Proof. reflexivity. Qed.

Lemma savedOnce_insert (tbl : gmap string NoteRow) (id : string)
    (row : NoteRow) :
  savedOnce tbl -> NoDup (savedBy row) -> savedOnce (<[id := row]> tbl).
Proof.
  intros Htbl Hrow id' row'. rewrite lookup_insert. case_decide.
  - by intros [= <-].
  - apply Htbl.
Qed.

(** A bookmark is stored once: saving adds the user at the end of
    [saved_by] of an active note; a user who is already there is refused
    with "Note already saved" and nothing changes, so a second save right
    after the first is refused, and no sequence of saves puts a user in the
    list twice. A missing or inactive note is "Note not found". *)
Theorem saveNote_stores_once (tbl : gmap string NoteRow) (u id : string) :
  let r := saveNote tbl u id in
  (selectActive tbl id = None -> r = (failure 404 "Note not found", tbl))
  /\ (forall row,
        selectActive tbl id = Some row ->
        (u ∈ savedBy row -> r = (failure 400 "Note already saved", tbl))
        /\ (u ∉ savedBy row ->
            code r.1 = 200
            /\ r.2 = <[id := set_saved_by row (savedBy row ++ [u])]> tbl
            /\ saveNote r.2 u id = (failure 400 "Note already saved", r.2)))
  /\ (savedOnce tbl -> savedOnce r.2).
Proof.
  intros r. subst r. unfold saveNote.
  split; [by intros -> |]. split.
  - intros row Hrow. rewrite Hrow. split.
    + intros Hin. by rewrite (proj2 (includes_true _ _) Hin).
    + intros Hnotin. rewrite (proj2 (includes_false _ _) Hnotin). simpl.
      split; [reflexivity |]. split; [reflexivity |].
      apply selectActive_Some in Hrow as [_ Hact].
      unfold selectActive. rewrite lookup_insert_eq.
      change (active (set_saved_by row (savedBy row ++ [u])))
        with (active row).
      rewrite Hact.
      assert (Hnow : includes
                       (savedBy (set_saved_by row (savedBy row ++ [u]))) u
                     = true).
      { apply includes_true. simpl. apply elem_of_app. right. by left. }
      by rewrite Hnow.
  - intros Honce. destruct (selectActive tbl id) as [row |] eqn:Hrow; [| done].
    destruct (includes (savedBy row) u) eqn:Hinc; [done |]. simpl.
    apply selectActive_Some in Hrow as [Hrow _].
    apply savedOnce_insert; [done |]. simpl. apply NoDup_app.
    split; [by apply (Honce id) |]. split; [| apply NoDup_singleton].
    intros x Hx Hx'. apply list_elem_of_singleton in Hx'. subst x.
    by apply includes_false in Hinc.
Qed.

Lemma saveNote_stores_once_witness :
  saveNote (saveNote {[ "n1" := sampleRow true None ]} "u2" "n1").2 "u2" "n1"
  = (failure 400 "Note already saved",
     (saveNote {[ "n1" := sampleRow true None ]} "u2" "n1").2).
Proof.
  destruct (saveNote_stores_once {[ "n1" := sampleRow true None ]} "u2" "n1")
    as (_ & Hrow & _).
  destruct (Hrow (sampleRow true None) eq_refl) as [_ Hnew].
  apply Hnew. simpl. apply not_elem_of_nil.
Defined.

(** Removing a bookmark is never refused for a stored note, active or
    not, bookmarked or not: every occurrence of the user leaves
    [saved_by], the other users stay in their order, and a second removal
    changes nothing more. After a successful save it gives back the list
    of before; the table itself is the one of before exactly when the
    column was not [null], since a [null] column comes back as the empty
    list. *)
Theorem unsaveNote_removes_bookmark (tbl : gmap string NoteRow)
    (u id : string) (row : NoteRow) :
  tbl !! id = Some row ->
  let r := unsaveNote tbl u id in
  code r.1 = 200
  /\ (exists row', r.2 !! id = Some row'
        /\ (u ∉ savedBy row')
        /\ (forall x, x <> u -> (x ∈ savedBy row' <-> x ∈ savedBy row))
        /\ savedBy row'
           = List.filter (fun x => negb (bool_decide (x = u))) (savedBy row)
        /\ active row' = active row)
  /\ (forall id', id' <> id -> r.2 !! id' = tbl !! id')
  /\ (unsaveNote r.2 u id).2 = r.2
  /\ (active row = true -> u ∉ savedBy row ->
      let back := (unsaveNote (saveNote tbl u id).2 u id).2 in
      (exists row2, back !! id = Some row2
                    /\ nr_saved_by row2 = Some (savedBy row)
                    /\ active row2 = active row)
      /\ (forall id', id' <> id -> back !! id' = tbl !! id')
      /\ (back = tbl <-> nr_saved_by row <> None)).
Proof.
  intros Hrow r.
  assert (Hr : unsaveNote tbl u id
               = ({| code := 200; success := true;
                     message := Some "Note removed from saved";
                     data := None |},
                  <[id := set_saved_by row
                            (List.filter
                               (fun x => negb (bool_decide (x = u)))
                               (savedBy row))]> tbl)).
  { unfold unsaveNote. by rewrite Hrow. }
  subst r. rewrite Hr. simpl.
  split; [reflexivity |]. split.
  { eexists. split; [apply lookup_insert_eq |].
    rewrite savedBy_set_saved_by. split.
    - rewrite list_elem_of_In, filter_In, negb_true_iff,
        bool_decide_eq_false. tauto.
    - split; [| split; reflexivity]. intros x Hx.
      rewrite !list_elem_of_In, filter_In, negb_true_iff,
        bool_decide_eq_false. tauto. }
  split.
  { intros id' Hne. by apply lookup_insert_ne. }
  split.
  { unfold unsaveNote. rewrite lookup_insert_eq, insert_insert_eq. simpl.
    rewrite savedBy_set_saved_by. f_equal. unfold set_saved_by. simpl.
    do 2 f_equal. apply filter_keeps_all. intros x Hx.
    apply list_elem_of_In, filter_In in Hx. tauto. }
  intros Hact Hnotin.
  set (back := (unsaveNote (saveNote tbl u id).2 u id).2).
  assert (Hsel : selectActive tbl id = Some row).
  { by apply selectActive_Some. }
  assert (Hback : back = <[id := set_saved_by row (savedBy row)]> tbl).
  { subst back. unfold saveNote.
    rewrite Hsel, (proj2 (includes_false _ _) Hnotin). simpl.
    unfold unsaveNote. rewrite lookup_insert_eq, insert_insert_eq. simpl.
    rewrite savedBy_set_saved_by.
    rewrite List.filter_app. simpl. rewrite bool_decide_eq_true_2 by done.
    simpl. rewrite app_nil_r, filter_keeps_all; [reflexivity |].
    intros x Hx. apply negb_true_iff, bool_decide_eq_false. congruence. }
  rewrite Hback. split.
  { eexists. split; [apply lookup_insert_eq |]. split; reflexivity. }
  split.
  { intros id' Hne. by apply lookup_insert_ne. }
  split.
  - intros Heq Hnone.
    assert (Hl : (<[id := set_saved_by row (savedBy row)]> tbl) !! id
                 = Some row) by (by rewrite Heq).
    rewrite lookup_insert_eq in Hl.
    apply (f_equal (fun o => match o with
                             | Some x => nr_saved_by x
                             | None => None
                             end)) in Hl.
    simpl in Hl. rewrite Hnone in Hl. discriminate.
  - intros Hsome. apply insert_id. rewrite Hrow. f_equal.
    destruct row as [nt au [l |] d0 fu fn]; [reflexivity | done].
Qed.

Lemma unsaveNote_removes_bookmark_witness :
  (unsaveNote
     (saveNote {[ "n1" := sampleRow true (Some ["u1"]) ]} "u2" "n1").2
     "u2" "n1").2
  = {[ "n1" := sampleRow true (Some ["u1"]) ]}
  /\ (unsaveNote
        (saveNote {[ "n1" := sampleRow true None ]} "u2" "n1").2
        "u2" "n1").2
     <> {[ "n1" := sampleRow true None ]}.
Proof.
  assert (Hrow : ({[ "n1" := sampleRow true (Some ["u1"]) ]}
                    : gmap string NoteRow) !! "n1"
                 = Some (sampleRow true (Some ["u1"]))) by reflexivity.
  assert (Hnull : ({[ "n1" := sampleRow true None ]}
                    : gmap string NoteRow) !! "n1"
                 = Some (sampleRow true None)) by reflexivity.
  split.
  - destruct (unsaveNote_removes_bookmark _ "u2" "n1" _ Hrow)
      as (_ & _ & _ & _ & Hback).
    destruct (Hback eq_refl) as (_ & _ & Hiff).
    + simpl. intros Hin. apply list_elem_of_singleton in Hin. discriminate.
    + apply Hiff. discriminate.
  - destruct (unsaveNote_removes_bookmark _ "u2" "n1" _ Hnull)
      as (_ & _ & _ & _ & Hback).
    destruct (Hback eq_refl) as (_ & _ & Hiff).
    + simpl. apply not_elem_of_nil.
    + intros Heq. apply Hiff in Heq. by apply Heq.
Defined.

End NoteBookmarks.

Section NoteDeletion.

(** Deleting a note is for its author alone (no role opens it to anyone
    else) and only clears [is_active]: the row stays with all its other
    columns. From then on the note is "Note not found" for reading,
    downloading, bookmarking and rating, for everybody; removing a
    bookmark still works on it, and deleting it again answers as before
    and changes nothing. *)
Theorem deleteNote_hides_note (tbl : gmap string NoteRow) (u id : string)
    (row : NoteRow) :
  tbl !! id = Some row ->
  let r := deleteNote tbl u id in
  (nr_author_id row <> u ->
   r = (failure 403 "Not authorized to delete this note", tbl))
  /\ (nr_author_id row = u ->
      code r.1 = 200
      /\ r.2 !! id = Some (set_active row false)
      /\ (forall id', id' <> id -> r.2 !! id' = tbl !! id')
      /\ (forall viewer, getNote r.2 viewer id = failure 404 "Note not found")
      /\ downloadNote r.2 id = (failure 404 "Note not found", r.2)
      /\ (forall who,
            saveNote r.2 who id = (failure 404 "Note not found", r.2))
      /\ (forall who rows v,
            validRating v = true ->
            rate (toStore r.2 rows) who id v
            = (failure 404 "Note not found", toStore r.2 rows))
      /\ (forall who, code (unsaveNote r.2 who id).1 = 200)
      /\ deleteNote r.2 u id = r).
Proof.
  intros Hrow r. subst r. split.
  - intros Hne. unfold deleteNote.
    by rewrite Hrow, (bool_decide_eq_false_2 _ Hne).
  - intros Hauthor.
    assert (Hr : deleteNote tbl u id
                 = ({| code := 200; success := true;
                       message := Some "Note deleted successfully";
                       data := None |},
                    <[id := set_active row false]> tbl)).
    { unfold deleteNote. by rewrite Hrow, (bool_decide_eq_true_2 _ Hauthor). }
    rewrite Hr. simpl.
    split; [reflexivity |]. split; [apply lookup_insert_eq |].
    split; [intros id' Hne; by apply lookup_insert_ne |].
    split; [intros viewer; unfold getNote; by rewrite lookup_insert_eq |].
    split; [unfold downloadNote, selectActive; by rewrite lookup_insert_eq |].
    split; [intros who; unfold saveNote, selectActive;
            by rewrite lookup_insert_eq |].
    split.
    { intros who rows v Hv. unfold rate. rewrite Hv. simpl.
      rewrite lookup_fmap, lookup_insert_eq. reflexivity. }
    split; [intros who; unfold unsaveNote; by rewrite lookup_insert_eq |].
    unfold deleteNote. rewrite lookup_insert_eq. simpl.
    rewrite (bool_decide_eq_true_2 _ Hauthor). simpl.
    by rewrite insert_insert_eq.
Qed.

Lemma deleteNote_hides_note_witness :
  getNote (deleteNote {[ "n1" := sampleRow true None ]} "u1" "n1").2
    (Some "u1") "n1"
  = failure 404 "Note not found".
Proof.
  assert (Hrow : ({[ "n1" := sampleRow true None ]} : gmap string NoteRow)
                 !! "n1" = Some (sampleRow true None)) by reflexivity.
  destruct (deleteNote_hides_note _ "u1" "n1" _ Hrow) as (_ & Hauthor).
  destruct (Hauthor eq_refl) as (_ & _ & _ & Hget & _).
  apply Hget.
Defined.

End NoteDeletion.

(** ** More on ratings *)

Section RatingMore.

Lemma sumRatings_acc (l : list Z) (a : Z) :
  fold_left Z.add l a = a + sumRatings l.
Proof.
  unfold sumRatings. revert a. induction l as [| x l IH]; intros a; simpl.
  - lia.
  - rewrite IH, (IH (0 + x)). lia.
Qed.

Lemma sumRatings_cons (x : Z) (l : list Z) :
  sumRatings (x :: l) = x + sumRatings l.
Proof. unfold sumRatings at 1. simpl. by rewrite sumRatings_acc. Qed.

Lemma sumRatings_bounds (l : list Z) :
  (forall x, x ∈ l -> 1 <= x <= 5) ->
  Z.of_nat (length l) <= sumRatings l <= 5 * Z.of_nat (length l).
Proof.
  induction l as [| x l IH]; intros Hall.
  - unfold sumRatings. simpl. lia.
  - rewrite sumRatings_cons. simpl length.
    assert (1 <= x <= 5) by (apply Hall; by left).
    assert (Z.of_nat (length l) <= sumRatings l <= 5 * Z.of_nat (length l)).
    { apply IH. intros y Hy. apply Hall. by right. }
    lia.
Qed.

Lemma sumRatings_perm (l l' : list Z) :
  l ≡ₚ l' -> sumRatings l = sumRatings l'.
Proof.
  induction 1 as [| x l l' _ IH | x y l | l l' l'' _ IH1 _ IH2].
  - reflexivity.
  - by rewrite !sumRatings_cons, IH.
  - rewrite !sumRatings_cons. lia.
  - congruence.
Qed.

Lemma roundedRating_bounds (l : list Z) :
  l <> [] ->
  (forall x, x ∈ l -> 1 <= x <= 5) ->
  (1 <= roundedRating l)%Q /\ (roundedRating l <= 5)%Q
  /\ 10 <= Math_round (avgRating l * 10) <= 50.
Proof.
  intros Hne Hall.
  - pose proof (sumRatings_bounds l Hall) as [Hlo Hhi].
    assert (Hn : 0 < Z.of_nat (length l)) by (destruct l; [done | simpl; lia]).
    assert (Hx : (10 <= avgRating l * 10)%Q /\ (avgRating l * 10 <= 50)%Q).
    { unfold avgRating. revert Hlo Hhi Hn.
      generalize (sumRatings l), (Z.of_nat (length l)). intros s n Hlo Hhi Hn.
      destruct n as [| pn | pn]; try lia.
      unfold Qle, Qdiv, Qmult, Qinv, inject_Z. simpl. lia. }
    assert (Hm : 10 <= Math_round (avgRating l * 10) <= 50).
    { unfold Math_round. destruct Hx as [Hx1 Hx2]. split.
      - change 10 with (Qfloor (inject_Z 10)).
        apply Qfloor_resp_le.
        eapply Qle_trans; [exact Hx1 |].
        rewrite <- (Qplus_0_r (avgRating l * 10)) at 1.
        apply Qplus_le_r. discriminate.
      - change 50 with (Qfloor (50 + (1 # 2))%Q).
        apply Qfloor_resp_le. apply Qplus_le_l. exact Hx2. }
    split; [| split; [| exact Hm]].
    + unfold roundedRating. revert Hm.
      generalize (Math_round (avgRating l * 10)). intros m Hm.
      unfold Qle, Qdiv, Qmult, Qinv, inject_Z. simpl. lia.
    + unfold roundedRating. revert Hm.
      generalize (Math_round (avgRating l * 10)). intros m Hm.
      unfold Qle, Qdiv, Qmult, Qinv, inject_Z. simpl. lia.
Qed.

(** The stored rating does not depend on the order in which the table
    hands out the ratings of a note, and for ratings from 1 to 5 it lies
    between 1 and 5, a whole number of tenths. *)
Theorem roundedRating_range (l l' : list Z) :
  l <> [] ->
  (forall x, x ∈ l -> 1 <= x <= 5) ->
  (l ≡ₚ l' -> roundedRating l = roundedRating l')
  /\ (1 <= roundedRating l)%Q /\ (roundedRating l <= 5)%Q
  /\ (roundedRating l * 10
      == inject_Z (Math_round (avgRating l * 10)))%Q
  /\ 10 <= Math_round (avgRating l * 10) <= 50.
Proof.
  intros Hne Hall. split.
  - intros Hp. unfold roundedRating, avgRating.
    by rewrite (sumRatings_perm l l' Hp), (Permutation_length Hp).
  - destruct (roundedRating_bounds l Hne Hall) as (Hlo & Hhi & Hm).
    split; [exact Hlo |]. split; [exact Hhi |]. split; [| exact Hm].
    unfold roundedRating. field.
Qed.

Lemma roundedRating_range_witness :
  let l : list Z := [5; 3; 4] in
  (1 <= roundedRating l)%Q /\ (roundedRating l <= 5)%Q.
Proof.
  intros l. subst l.
  assert (Hne : [5; 3; 4] <> []) by discriminate.
  assert (Hall : forall x, x ∈ [5; 3; 4] -> 1 <= x <= 5).
  { intros x Hx. repeat (apply elem_of_cons in Hx as [-> | Hx]; [lia |]).
    by apply elem_of_nil in Hx. }
  destruct (roundedRating_range [5; 3; 4] [5; 3; 4] Hne Hall)
    as (_ & Hlo & Hhi & _ & _).
  by split.
Defined.

Lemma elem_of_upsert (row x : RatingRow) (rows : list RatingRow) :
  x ∈ upsert row rows -> x = row \/ x ∈ rows.
Proof.
  induction rows as [| y rest IH]; simpl.
  - intros Hx. apply list_elem_of_singleton in Hx. by left.
  - destruct (sameKey y row).
    + intros Hx. apply elem_of_cons in Hx as [-> | Hx]; [by left |].
      right. by right.
    + intros Hx. apply elem_of_cons in Hx as [-> | Hx]; [right; by left |].
      destruct (IH Hx) as [-> | Hin]; [by left | right; by right].
Qed.

Lemma upsert_holds_row (row : RatingRow) (rows : list RatingRow) :
  row ∈ upsert row rows.
Proof.
  induction rows as [| y rest IH]; simpl; [by left |].
  destruct (sameKey y row); [by left | by right].
Qed.

Lemma upsert_other_rows (row x : RatingRow) (rows : list RatingRow) :
  sameKey x row = false -> x ∈ upsert row rows <-> x ∈ rows.
Proof.
  intros Hx. induction rows as [| y rest IH]; simpl.
  - rewrite list_elem_of_singleton. split; [| by intros ?%elem_of_nil].
    intros ->. unfold sameKey in Hx.
    rewrite !bool_decide_eq_true_2 in Hx by done. discriminate.
  - destruct (sameKey y row) eqn:Hy.
    + rewrite !elem_of_cons. split.
      * intros [-> | Hin]; [| by right].
        unfold sameKey in Hx.
        rewrite !bool_decide_eq_true_2 in Hx by done. discriminate.
      * intros [-> | Hin]; [congruence | by right].
    + rewrite !elem_of_cons, IH. tauto.
Qed.

Lemma upsert_twice (row : RatingRow) (rows : list RatingRow) :
  upsert row (upsert row rows) = upsert row rows.
Proof.
  assert (Hself : sameKey row row = true).
  { unfold sameKey. by rewrite !bool_decide_eq_true_2. }
  induction rows as [| y rest IH]; simpl.
  - by rewrite Hself.
  - destruct (sameKey y row) eqn:Hy; simpl.
    + by rewrite Hself.
    + by rewrite Hy, IH.
Qed.

Lemma ratingsOf_other_note (row : RatingRow) (id' : string)
    (rows : list RatingRow) :
  note_id row <> id' -> ratingsOf id' (upsert row rows) = ratingsOf id' rows.
Proof.
  intros Hne. unfold ratingsOf. induction rows as [| y rest IH]; simpl.
  - by rewrite bool_decide_eq_false_2.
  - destruct (sameKey y row) eqn:Hy; simpl.
    + unfold sameKey in Hy. apply andb_true_iff in Hy as [Hn _].
      apply bool_decide_eq_true in Hn.
      rewrite (bool_decide_eq_false_2 (note_id row = id')) by done.
      by rewrite (bool_decide_eq_false_2 (note_id y = id')) by congruence.
    + destruct (bool_decide (note_id y = id')); simpl; by rewrite IH.
Qed.

Lemma rate_cases (st : Store) (u id : string) (r : Z) :
  let row := {| note_id := id; user_id := u; rating := r |} in
  (validRating r = false
   /\ rate st u id r = (failure 400 "Validation failed", st))
  \/ (validRating r = true
      /\ (notes st !! id = None
          \/ exists n, notes st !! id = Some n /\ is_active n = false)
      /\ rate st u id r = (failure 404 "Note not found", st))
  \/ (exists n,
        validRating r = true /\ notes st !! id = Some n
        /\ is_active n = true
        /\ rate st u id r
           = ({| code := 200; success := true;
                 message := Some "Rating submitted successfully";
                 data := None |},
              {| notes :=
                   <[id := {| is_active := true;
                              note_rating :=
                                roundedRating
                                  (ratingsOf id
                                     (upsert row (note_ratings st)));
                              rating_count :=
                                Z.of_nat
                                  (length
                                     (ratingsOf id
                                        (upsert row (note_ratings st)))) |}]>
                     (notes st);
                 note_ratings := upsert row (note_ratings st) |})).
Proof.
  intros row. unfold rate. destruct (validRating r); [| by left]. right.
  destruct (notes st !! id) as [n |] eqn:Hn; [| left; auto].
  destruct (is_active n) eqn:Ha.
  - right. exists n. simpl. rewrite Ha. repeat split; reflexivity.
  - left. split; [done |]. split; [| done]. right. by exists n.
Qed.

(** A rating outside 1..5 is refused with 400 "Validation failed",
    whatever the note; a rating within 1..5 for a note that is missing or
    inactive is refused with 404 "Note not found"; these are the only
    refusals, and neither writes. A rating within 1..5 for an active note is
    accepted, and touches one note and one pair of note and user: every
    other note keeps its record and its ratings, every row of another pair
    stays as it is, and the note stays active. *)
Theorem rate_touches_one_note (st : Store) (u id : string) (r : Z) :
  let res := rate st u id r in
  let missing :=
    notes st !! id = None
    \/ exists n, notes st !! id = Some n /\ is_active n = false in
  (success res.1 = false ->
   res.2 = st /\ (code res.1 = 400 \/ code res.1 = 404))
  /\ (code res.1 = 400 <-> validRating r = false)
  /\ (validRating r = false -> res = (failure 400 "Validation failed", st))
  /\ (code res.1 = 404 <-> validRating r = true /\ missing)
  /\ (validRating r = true -> missing ->
      res = (failure 404 "Note not found", st))
  /\ (success res.1 = true <->
      validRating r = true
      /\ exists n, notes st !! id = Some n /\ is_active n = true)
  /\ (success res.1 = true ->
      code res.1 = 200
      /\ (forall id', id' <> id ->
            notes res.2 !! id' = notes st !! id'
            /\ ratingsOf id' (note_ratings res.2)
               = ratingsOf id' (note_ratings st))
      /\ (forall x, (note_id x, user_id x) <> (id, u) ->
            x ∈ note_ratings res.2 <-> x ∈ note_ratings st)
      /\ is_active <$> notes res.2 !! id = Some true).
Proof.
  intros res missing. subst res missing.
  destruct (rate_cases st u id r)
    as [[Hv ->] | [(Hv & Hm & ->) | (n & Hv & Hn & Ha & ->)]]; simpl.
  - split; [auto |]. split; [done |]. split; [done |].
    split; [split; [discriminate | intros [Hv' _]; congruence] |].
    split; [congruence |].
    split; [split; [discriminate | intros [Hv' _]; congruence] |].
    discriminate.
  - split; [auto |].
    split; [split; [discriminate | congruence] |].
    split; [congruence |].
    split; [done |]. split; [done |].
    split; [| discriminate].
    split; [discriminate |].
    intros (_ & n & Hn & Ha).
    destruct Hm as [Hm | (n' & Hn' & Ha')]; congruence.
  - split; [discriminate |].
    split; [split; [discriminate | congruence] |].
    split; [congruence |].
    split.
    { split; [discriminate |].
      intros (_ & [Hm | (n' & Hn' & Ha')]); congruence. }
    split.
    { intros _ [Hm | (n' & Hn' & Ha')]; congruence. }
    split; [split; [eauto | done] |].
    intros _. split; [reflexivity |]. split.
    + intros id' Hne. split; [by rewrite lookup_insert_ne |].
      by apply ratingsOf_other_note.
    + split; [| by rewrite lookup_insert_eq].
      intros x Hx. apply upsert_other_rows. unfold sameKey. simpl.
      apply andb_false_iff.
      destruct (decide (note_id x = id)) as [Hid | Hid].
      * right. apply bool_decide_eq_false. congruence.
      * left. by apply bool_decide_eq_false.
Qed.

Lemma rate_touches_one_note_witness :
  (rate sampleStore "u1" "n1" 6).2 = sampleStore
  /\ rate sampleStore "u1" "missing" 4
     = (failure 404 "Note not found", sampleStore).
Proof.
  split.
  - destruct (rate_touches_one_note sampleStore "u1" "n1" 6) as (Hfail & _).
    apply Hfail. reflexivity.
  - destruct (rate_touches_one_note sampleStore "u1" "missing" 4)
      as (_ & _ & _ & _ & Hmiss & _).
    apply Hmiss; [reflexivity | left; reflexivity].
Defined.

(** Sending the same rating again changes nothing: the answer and the
    store after the second submission are those after the first. *)
Theorem rate_twice_same (st : Store) (u id : string) (r : Z) :
  rate (rate st u id r).2 u id r = rate st u id r.
Proof.
  destruct (rate_cases st u id r)
    as [[Hv Hr] | [(Hv & _ & Hr) | (n & Hv & Hn & Ha & Hr)]];
    rewrite Hr; simpl; [exact Hr | exact Hr |].
  unfold rate. rewrite Hv. simpl. rewrite lookup_insert_eq. simpl.
  by rewrite upsert_twice, insert_insert_eq.
Qed.

(** Accepted ratings keep the table within 1..5, and after an accepted
    rating the note counts at least one rating and stores a mean between
    1 and 5, when the ratings already in the table are within 1..5. *)
Theorem rate_keeps_rating_in_range (st : Store) (u id : string) (r : Z) :
  ratingsInRange (note_ratings st) ->
  let res := rate st u id r in
  ratingsInRange (note_ratings res.2)
  /\ (success res.1 = true ->
      exists n, notes res.2 !! id = Some n
        /\ 1 <= rating_count n
        /\ (1 <= note_rating n)%Q /\ (note_rating n <= 5)%Q).
Proof.
  intros Hrange res. subst res.
  destruct (rate_cases st u id r)
    as [[Hv ->] | [(Hv & _ & ->) | (n & Hv & Hn & Ha & ->)]]; simpl.
  - split; [exact Hrange | discriminate].
  - split; [exact Hrange | discriminate].
  - set (row := {| note_id := id; user_id := u; rating := r |}).
    assert (Hrange' : ratingsInRange (upsert row (note_ratings st))).
    { intros x Hx. apply elem_of_upsert in Hx as [-> | Hx].
      - unfold validRating in Hv. simpl. lia.
      - by apply Hrange. }
    split; [exact Hrange' |]. intros _.
    eexists. split; [apply lookup_insert_eq |]. simpl.
    assert (Hin : r ∈ ratingsOf id (upsert row (note_ratings st))).
    { unfold ratingsOf. apply list_elem_of_fmap. exists row.
      split; [reflexivity |]. apply list_elem_of_In, filter_In.
      split; [apply list_elem_of_In, upsert_holds_row |].
      by apply bool_decide_eq_true. }
    assert (Hne : ratingsOf id (upsert row (note_ratings st)) <> []).
    { intros Hnil. rewrite Hnil in Hin. by apply elem_of_nil in Hin. }
    assert (Hall : forall x,
               x ∈ ratingsOf id (upsert row (note_ratings st)) ->
               1 <= x <= 5).
    { intros x Hx. unfold ratingsOf in Hx.
      apply list_elem_of_fmap in Hx as (y & -> & Hy).
      apply list_elem_of_In, filter_In in Hy as [Hy _].
      apply Hrange'. by apply list_elem_of_In. }
    destruct (roundedRating_bounds _ Hne Hall) as (Hlo & Hhi & _).
    split; [| by split].
    destruct (ratingsOf id (upsert row (note_ratings st))); [done |].
    simpl length. lia.
Qed.

Lemma rate_keeps_rating_in_range_witness :
  exists n, notes (rate sampleStore "u1" "n1" 5).2 !! "n1" = Some n
    /\ (note_rating n <= 5)%Q.
Proof.
  assert (Hrange : ratingsInRange (note_ratings sampleStore)).
  { intros x Hx. by apply elem_of_nil in Hx. }
  destruct (rate_keeps_rating_in_range sampleStore "u1" "n1" 5 Hrange)
    as (_ & Hok).
  destruct (Hok eq_refl) as (n & Hn & _ & _ & Hhi).
  by exists n.
Defined.

Lemma fold_ratings_sum (l : list (string * Z)) (a : Z) :
  fold_left (fun acc x => acc + x.2) l a = a + sumRatings (map snd l).
Proof.
  revert a. induction l as [| x l IH]; intros a; simpl.
  - unfold sumRatings. simpl. lia.
  - rewrite IH, sumRatings_cons. lia.
Qed.

(** [calculateRating] of the Note model stores what the rating route
    stores for the same ratings, their number and their rounded mean, and
    0 for both when there is no rating, the case the route never meets; it
    leaves the ratings alone and a second call changes nothing. *)
Theorem calculateRating_matches_route (n : NoteDoc) :
  let n' := calculateRating n in
  nd_ratings n' = nd_ratings n
  /\ nd_savedBy n' = nd_savedBy n
  /\ nd_ratingCount n' = Z.of_nat (length (nd_ratings n))
  /\ (nd_ratings n = [] -> nd_rating n' = 0%Q)
  /\ (nd_ratings n <> [] ->
      nd_rating n' = roundedRating (map snd (nd_ratings n)))
  /\ calculateRating n' = n'.
Proof.
  intros n'. subst n'. destruct n as [rs rt c sv].
  unfold calculateRating. simpl. destruct rs as [| x l]; simpl.
  - repeat split; done.
  - split; [reflexivity |]. split; [reflexivity |].
    split; [reflexivity |]. split; [done |]. split; [| reflexivity].
    intros _. unfold roundedRating, avgRating.
    rewrite (fold_ratings_sum l (0 + x.2)), sumRatings_cons.
    simpl length. rewrite length_map.
    replace (0 + x.2 + sumRatings (map snd l))
      with (x.2 + sumRatings (map snd l)) by lia.
    reflexivity.
Qed.

Lemma calculateRating_matches_route_witness :
  nd_rating (calculateRating
               {| nd_ratings := [("u1", 5); ("u2", 3); ("u3", 4)];
                  nd_rating := 0; nd_ratingCount := 0; nd_savedBy := [] |})
  = roundedRating [5; 3; 4].
Proof.
  destruct (calculateRating_matches_route
              {| nd_ratings := [("u1", 5); ("u2", 3); ("u3", 4)];
                 nd_rating := 0; nd_ratingCount := 0; nd_savedBy := [] |})
    as (_ & _ & _ & _ & Hmean & _).
  apply Hmean. discriminate.
Defined.

End RatingMore.

Lemma handleAll_preserves_storeSound_witness :
  storeSound
    (handleAll {| events := {[ "e1" := sampleRoster ]};
                  users := {[ "u2" := sampleUser "Udo" student ]} |}
       [PostRegister 4000 "p2" {| req_id := "u2"; req_role := student |}
          "e1" noData;
        PostAdminRegister 6000 "p3" "e1" (Some "u2");
        DeleteRegister {| req_id := "u1"; req_role := student |} "e1"]).
Proof.
  apply (handleAll_preserves_storeSound
           [PostRegister 4000 "p2" {| req_id := "u2"; req_role := student |}
              "e1" noData;
            PostAdminRegister 6000 "p3" "e1" (Some "u2");
            DeleteRegister {| req_id := "u1"; req_role := student |} "e1"]
           {| events := {[ "e1" := sampleRoster ]};
              users := {[ "u2" := sampleUser "Udo" student ]} |}).
  - repeat constructor.
  - intros id e He. simpl in He. apply lookup_singleton_Some in He as [_ <-].
    split; [reflexivity |]. simpl. apply NoDup_singleton.
Defined.
